(** * Clinic appointment ledger: capacity, ticket numbers, duplicate guard, reports

    Shallow embedding of [mockData.js] (in-memory store), [database.js]
    (Supabase-backed store) and of [getReportDateString] from [index.js],
    together with the part of the JavaScript run time these functions rest on
    (Date arithmetic of ECMA-262, string padding and comparison, numeric
    conversion). *)

From Stdlib Require Import ZArith Lia Bool Ascii String List.
From stdpp Require Import base decidable option list strings gmap pretty.

Local Open Scope Z_scope.

(** ** The JavaScript run time the sources rely on *)
Module JS.

(** A JavaScript number, restricted to what the sources compute with:
    integers and [NaN]. The numbers of JavaScript are doubles, which hold
    every integer up to [MAX_SAFE_INTEGER] in magnitude and round beyond;
    [Num z] stands for the double [z] within that range, and the statements
    about arithmetic keep to it. *)
Inductive number := Num (z : Z) | NaN.

(** [Number.MAX_SAFE_INTEGER] *)
Definition MAX_SAFE_INTEGER : Z := 2 ^ 53 - 1.

Global Instance number_eq_dec : EqDecision number.
Proof. solve_decision. Defined.

(** Errors that reach a [catch] clause of the sources. *)
Inductive JSError :=
| RangeError (message : string)
| PostgrestError (code message : string).

(** Completion of a function body (or settlement of the promise an [async]
    function returns): a value, or a thrown error. *)
Inductive completion (A : Type) :=
| Return (a : A)
| Throw (e : JSError).
Global Arguments Return {A} a.
Global Arguments Throw {A} e.

Global Instance completion_ret : MRet completion := @Return.
Global Instance completion_bind : MBind completion := fun A B f c =>
  match c with Return a => f a | Throw e => Throw e end.

(** [try { body } catch (error) { handler }] *)
Definition try_catch {A} (body : completion A) (handler : JSError -> completion A)
  : completion A :=
  match body with Return a => Return a | Throw e => handler e end.

(** *** Day numbers and time values (ECMA-262, "Time Values and Time Range") *)

Definition msPerDay : Z := 86400000.

Definition Day (t : Z) : Z := t / msPerDay.
Definition TimeWithinDay (t : Z) : Z := t mod msPerDay.

Definition DaysInYear (y : Z) : Z :=
  if negb (y mod 4 =? 0) then 365
  else if negb (y mod 100 =? 0) then 366
  else if negb (y mod 400 =? 0) then 365
  else 366.

Definition DayFromYear (y : Z) : Z :=
  365 * (y - 1970) + (y - 1969) / 4 - (y - 1901) / 100 + (y - 1601) / 400.

(** The largest [y] with [DayFromYear y <= d]: an estimate from the mean
    length of a Gregorian year, corrected by at most one year. *)
Definition YearFromDay (d : Z) : Z :=
  let y := 1970 + (d * 400) / 146097 in
  if DayFromYear (y + 1) <=? d then y + 1
  else if d <? DayFromYear y then y - 1
  else y.

Definition InLeapYear (d : Z) : Z :=
  if DaysInYear (YearFromDay d) =? 366 then 1 else 0.

Definition DayWithinYear (d : Z) : Z := d - DayFromYear (YearFromDay d).

(** Number of days of the year that precede month [m] (0 = January). *)
Definition DaysBeforeMonth (leap m : Z) : Z :=
  match m with
  | 0 => 0
  | 1 => 31
  | 2 => 59 + leap
  | 3 => 90 + leap
  | 4 => 120 + leap
  | 5 => 151 + leap
  | 6 => 181 + leap
  | 7 => 212 + leap
  | 8 => 243 + leap
  | 9 => 273 + leap
  | 10 => 304 + leap
  | _ => 334 + leap
  end.

Definition MonthFromDay (d : Z) : Z :=
  let w := DayWithinYear d in
  let l := InLeapYear d in
  if w <? 31 then 0
  else if w <? 59 + l then 1
  else if w <? 90 + l then 2
  else if w <? 120 + l then 3
  else if w <? 151 + l then 4
  else if w <? 181 + l then 5
  else if w <? 212 + l then 6
  else if w <? 243 + l then 7
  else if w <? 273 + l then 8
  else if w <? 304 + l then 9
  else if w <? 334 + l then 10
  else 11.

Definition DateFromDay (d : Z) : Z :=
  DayWithinYear d - DaysBeforeMonth (InLeapYear d) (MonthFromDay d) + 1.

Definition WeekDayOfDay (d : Z) : Z := (d + 4) mod 7.

Definition YearFromTime (t : Z) : Z := YearFromDay (Day t).
Definition MonthFromTime (t : Z) : Z := MonthFromDay (Day t).
Definition DateFromTime (t : Z) : Z := DateFromDay (Day t).
Definition WeekDay (t : Z) : Z := WeekDayOfDay (Day t).

(** [MakeDay(year, month, date)]: the day number of the first of the month,
    plus [date - 1]; months outside 0..11 carry into the year. *)
Definition MakeDay (year month date : Z) : Z :=
  let ym := year + month / 12 in
  let mn := month mod 12 in
  DayFromYear ym
  + DaysBeforeMonth (if DaysInYear ym =? 366 then 1 else 0) mn
  + date - 1.

Definition MakeDate (day time : Z) : Z := day * msPerDay + time.

Definition maxTime : Z := 8640000000000000.

Definition TimeClip (t : Z) : number :=
  if Z.abs t <=? maxTime then Num t else NaN.

(** *** Date objects *)

(** A Date object is its time value: milliseconds since the epoch in UTC, or
    [NaN] (an "Invalid Date"). *)
Record Date := mkDate { DateValue : number }.

Definition ValidDate (t : Z) : Date := mkDate (Num t).
Definition InvalidDate : Date := mkDate NaN.

Section LocalTime.
(** Offset of the host's time zone from UTC in milliseconds (a fixed
    offset: -14400000 for America/Caracas). *)
Variable LocalTZA : Z.

Definition LocalTime (t : Z) : Z := t + LocalTZA.
Definition UTC (t : Z) : Z := t - LocalTZA.

(** [date.getDay()] *)
Definition getDay (d : Date) : number :=
  match DateValue d with
  | Num t => Num (WeekDay (LocalTime t))
  | NaN => NaN
  end.

(** [date.getDate()] *)
Definition getDate (d : Date) : number :=
  match DateValue d with
  | Num t => Num (DateFromTime (LocalTime t))
  | NaN => NaN
  end.

(** [date.setDate(dt)]: the Date object after the call. *)
Definition setDate (d : Date) (dt : number) : Date :=
  match DateValue d, dt with
  | Num t, Num dt =>
      let lt := LocalTime t in
      let newDate :=
        MakeDate (MakeDay (YearFromTime lt) (MonthFromTime lt) dt)
                 (TimeWithinDay lt) in
      mkDate (TimeClip (UTC newDate))
  | _, _ => InvalidDate
  end.

(** [new Date(year, month, date)] with numeric arguments. *)
Definition newDate3 (year month date : number) : Date :=
  match year, month, date with
  | Num y, Num m, Num dt =>
      let yr := if (0 <=? y) && (y <=? 99) then 1900 + y else y in
      mkDate (TimeClip (UTC (MakeDate (MakeDay yr m dt) 0)))
  | _, _, _ => InvalidDate
  end.
End LocalTime.

(** [a - b] on numbers: the difference of the doubles, as long as operands
    and result are at most [MAX_SAFE_INTEGER] in magnitude. *)
Definition minus (a b : number) : number :=
  match a, b with
  | Num x, Num y => Num (x - y)
  | _, _ => NaN
  end.

(** *** Strings *)

(** The decimal digit [d] (0..9) as a character. *)
Definition digit (d : Z) : ascii := pretty_N_char (Z.to_N d).

(** The [w] low decimal digits of [n], most significant first: the
    fixed-width fields of date renderings. *)
Fixpoint fixed_digits (w : nat) (n : Z) : string :=
  match w with
  | O => ""
  | S w' => String (digit ((n / 10 ^ Z.of_nat w') mod 10)) (fixed_digits w' n)
  end.

(** [String(n)] and [`${n}`] for a number. *)
Definition ToString (n : number) : string :=
  match n with
  | Num z => pretty z
  | NaN => "NaN"
  end.

Fixpoint repeat_char (c : ascii) (n : nat) : string :=
  match n with
  | O => ""
  | S n' => String c (repeat_char c n')
  end.

(** [s.padStart(targetLength, c)] for a one-character filler. *)
Definition padStart (targetLength : nat) (c : ascii) (s : string) : string :=
  repeat_char c (targetLength - String.length s) +:+ s.

(** [s.split(sep)] for a one-character separator; the array is never
    empty. *)
Fixpoint split (sep : ascii) (s : string) : list string :=
  match s with
  | EmptyString => [EmptyString]
  | String c s' =>
      if decide (c = sep) then EmptyString :: split sep s'
      else match split sep s' with
           | h :: t => String c h :: t
           | [] => [String c EmptyString]
           end
  end.

(** [arr[0]] on the array a [split] returned, which always has a first
    element. *)
Definition item0 (arr : list string) : string := hd EmptyString arr.

Definition is_digit (c : ascii) : bool :=
  let n := N_of_ascii c in ((48 <=? n) && (n <=? 57))%N.

Fixpoint digits_value (acc : Z) (s : string) : option Z :=
  match s with
  | EmptyString => Some acc
  | String c s' =>
      if is_digit c
      then digits_value (10 * acc + (Z.of_N (N_of_ascii c) - 48)) s'
      else None
  end.

(** [ToNumber] applied to what an array destructuring yields: [undefined]
    gives [NaN], the empty string 0, a string of decimal digits its value.
    Other numeric literals (signs, blanks, fractions, exponents, radix
    prefixes) do not occur in a ["YYYY-MM"] argument and are mapped to
    [NaN] here. *)
Definition ToNumber (v : option string) : number :=
  match v with
  | None => NaN
  | Some s => match digits_value 0 s with Some z => Num z | None => NaN end
  end.

Definition is_blank (c : ascii) : bool :=
  let n := N_of_ascii c in
  ((n =? 32) || (n =? 9) || (n =? 10) || (n =? 11) || (n =? 12) || (n =? 13))%N.

Fixpoint skip_blanks (s : string) : string :=
  match s with
  | String c s' => if is_blank c then skip_blanks s' else s
  | EmptyString => s
  end.

Fixpoint digits_prefix (acc : option Z) (s : string) : option Z :=
  match s with
  | String c s' =>
      if is_digit c
      then digits_prefix (Some (10 * default 0 acc + (Z.of_N (N_of_ascii c) - 48))) s'
      else acc
  | EmptyString => acc
  end.

(** [parseInt(s, 10)]: leading blanks, an optional sign, then the longest
    run of decimal digits; [NaN] when there is none. The value is the
    double [parseInt] returns as long as it is at most [MAX_SAFE_INTEGER]
    in magnitude. *)
Definition parseInt10 (s : string) : number :=
  match skip_blanks s with
  | String "-" s' =>
      match digits_prefix None s' with Some z => Num (- z) | None => NaN end
  | String "+" s' =>
      match digits_prefix None s' with Some z => Num z | None => NaN end
  | s' => match digits_prefix None s' with Some z => Num z | None => NaN end
  end.

(** [a >= b] and [a <= b] where [a] is a property that may be absent and [b]
    a string that does not read as a number: code units are compared
    lexicographically (here bytes, the same order on ASCII text such as
    dates), and [undefined] compares false. *)
Definition ge_string (a : option string) (b : string) : bool :=
  match a with
  | Some a => String.leb b a
  | None => false
  end.

Definition le_string (a : option string) (b : string) : bool :=
  match a with
  | Some a => String.leb a b
  | None => false
  end.

(** *** Rendering dates *)

Definition HourFromTime (t : Z) : Z := (t / 3600000) mod 24.
Definition MinFromTime (t : Z) : Z := (t / 60000) mod 60.
Definition SecFromTime (t : Z) : Z := (t / 1000) mod 60.
Definition msFromTime (t : Z) : Z := t mod 1000.

(** The year of an ISO 8601 rendering: four digits, or a sign and six
    digits outside 0..9999. *)
Definition ISOYear (y : Z) : string :=
  if (0 <=? y) && (y <=? 9999) then fixed_digits 4 y
  else String (if y <? 0 then "-"%char else "+"%char) (fixed_digits 6 (Z.abs y)).

(** The calendar date [YYYY-MM-DD] of the day that holds time value [t]. *)
Definition ISODate (t : Z) : string :=
  ISOYear (YearFromTime t) +:+ "-" +:+ fixed_digits 2 (MonthFromTime t + 1)
  +:+ "-" +:+ fixed_digits 2 (DateFromTime t).

Definition ISOTime (t : Z) : string :=
  fixed_digits 2 (HourFromTime t) +:+ ":" +:+ fixed_digits 2 (MinFromTime t)
  +:+ ":" +:+ fixed_digits 2 (SecFromTime t) +:+ "." +:+ fixed_digits 3 (msFromTime t)
  +:+ "Z".

(** [date.toISOString()]: always in UTC; throws on an Invalid Date. *)
Definition toISOString (d : Date) : completion string :=
  match DateValue d with
  | Num t => Return (ISODate t +:+ "T" +:+ ISOTime t)
  | NaN => Throw (RangeError "Invalid time value")
  end.

(** [date.toLocaleDateString('en-CA')]: the local calendar date, year
    first, month and day on two digits. *)
Definition toLocaleDateString_enCA (LocalTZA : Z) (d : Date) : string :=
  match DateValue d with
  | Num t =>
      let lt := LocalTime LocalTZA t in
      ToString (Num (YearFromTime lt)) +:+ "-" +:+ fixed_digits 2 (MonthFromTime lt + 1)
      +:+ "-" +:+ fixed_digits 2 (DateFromTime lt)
  | NaN => "Invalid Date"
  end.

End JS.

Import JS.

(** ** Booking records *)

(** A row of [solicitudes], and equally the object handed to
    [crearSolicitud]: every property may be absent ([None] is [undefined]). *)
Record Solicitud := {
  id : option Z;
  tipo_solicitud : option string;
  fecha_solicitud : option string;
  cedula : option string;
  numero_turno : option string;
  nombre_paciente : option string;
  apellido_paciente : option string;
  tipo_consulta_detalle : option string;
  nomina : option string;
  gerencia : option string;
  hora_solicitud : option string;
  mensaje : option string;
  created_at : option string
}.

Global Instance Solicitud_eq_dec : EqDecision Solicitud.
Proof. solve_decision. Defined.

(** [tipos.includes(s.tipo_solicitud)] for an array of strings. *)
Definition includes (tipos : list string) (v : option string) : Prop :=
  exists t, t ∈ tipos /\ v = Some t.

Global Instance includes_dec tipos v : Decision (includes tipos v).
Proof.
  refine (match v with
          | Some t => cast_if (decide (t ∈ tipos))
          | None => right _
          end); unfold includes.
  - eauto.
  - intros [t' [Hin [= ->]]]. contradiction.
  - intros [t' [_ [=]]].
Defined.

(** ** [mockData.js]: the in-memory store *)
Module Mock.

(** The module-level variables [solicitudes] and [idCounter]. *)
Record Store := {
  solicitudes : list Solicitud;
  idCounter : Z
}.

(** The state after loading the module, and after [resetMockData()]. *)
Definition resetMockData : Store := {| solicitudes := []; idCounter := 1 |}.

Definition configuracion : gmap string Z :=
  {[ "cupos_consulta" := 15;
     "cupos_consulta_miercoles" := 10;
     "cupos_reembolso" := 20 ]}.

(** [configuracion[clave] || 15]: an absent (or zero) entry gives 15. Every
    key looked up starts with [cupos_], so no inherited property of the
    object is ever found. *)
Definition limite (clave : string) : Z :=
  match configuracion !! clave with
  | Some v => if v =? 0 then 15 else v
  | None => 15
  end.

Section Host.
Variable LocalTZA : Z.

Definition getCuposDisponibles (st : Store) (tipo : string) (fecha : Date)
  : completion number :=
  try_catch
    (let diaSemana := getDay LocalTZA fecha in
     let claveLimite :=
       if decide (tipo = "consulta" /\ diaSemana = Num 3)
       then "cupos_consulta_miercoles"
       else "cupos_" +:+ tipo in
     let limiteCupos := limite claveLimite in
     iso ← toISOString fecha;
     let fechaISO := item0 (split "T" iso) in
     let tipoQuery :=
       if decide (tipo = "consulta") then ["consulta"; "ecor"] else ["reembolso"] in
     let count :=
       length (filter (fun s => includes tipoQuery (tipo_solicitud s)
                                /\ fecha_solicitud s = Some fechaISO)
                      (solicitudes st)) in
     mret (Num (limiteCupos - Z.of_nat count)))
    (fun _ => mret (Num 0)).
End Host.

(** [getSiguienteNumeroTurno]; [None] is the [null] of the [catch] clause. *)
Definition getSiguienteNumeroTurno (st : Store) (prefijo : string) (fecha : Date)
  : completion (option string) :=
  try_catch
    (iso ← toISOString fecha;
     let fechaISO := item0 (split "T" iso) in
     let tipoSolicitudQuery :=
       if decide (prefijo = "R") then ["reembolso"] else ["consulta"; "ecor"] in
     let count :=
       length (filter (fun s => fecha_solicitud s = Some fechaISO
                                /\ includes tipoSolicitudQuery (tipo_solicitud s))
                      (solicitudes st)) in
     let nuevoNumero := Z.of_nat count + 1 in
     mret (Some (prefijo +:+ "-" +:+ padStart 3 "0" (ToString (Num nuevoNumero)))))
    (fun _ => mret None).

(** [crearSolicitud]; [ahora] is the clock reading of [new Date()]. The
    spread puts [datosSolicitud]'s own [id] (if any) over the counter's, and
    [created_at] over [datosSolicitud]'s. The counter is incremented before
    the time stamp is rendered, so the [catch] clause would find it
    incremented. Messages written to the console are left out, here and in
    the other functions. *)
Definition crearSolicitud (st : Store) (ahora : Z) (datosSolicitud : Solicitud)
  : completion (option Solicitud) * Store :=
  match toISOString (ValidDate ahora) with
  | Return marca =>
      let nuevaSolicitud :=
        {| id := match id datosSolicitud with
                 | Some i => Some i
                 | None => Some (idCounter st)
                 end;
           tipo_solicitud := tipo_solicitud datosSolicitud;
           fecha_solicitud := fecha_solicitud datosSolicitud;
           cedula := cedula datosSolicitud;
           numero_turno := numero_turno datosSolicitud;
           nombre_paciente := nombre_paciente datosSolicitud;
           apellido_paciente := apellido_paciente datosSolicitud;
           tipo_consulta_detalle := tipo_consulta_detalle datosSolicitud;
           nomina := nomina datosSolicitud;
           gerencia := gerencia datosSolicitud;
           hora_solicitud := hora_solicitud datosSolicitud;
           mensaje := mensaje datosSolicitud;
           created_at := Some marca |} in
      (Return (Some nuevaSolicitud),
       {| solicitudes := solicitudes st ++ [nuevaSolicitud];
          idCounter := idCounter st + 1 |})
  | Throw _ =>
      (Return None, {| solicitudes := solicitudes st; idCounter := idCounter st + 1 |})
  end.

Definition getDatosReporteDiario (st : Store) (fechaString : string)
  : completion (list Solicitud) :=
  try_catch
    (mret (filter (fun s => fecha_solicitud s = Some fechaString) (solicitudes st)))
    (fun _ => mret []).

Section Host.
Variable LocalTZA : Z.

Definition getDatosReporteMensual (st : Store) (mesString : string)
  : completion (list Solicitud) :=
  try_catch
    (let startDate := mesString +:+ "-01" in
     let partes := split "-" mesString in
     let year := partes !! 0%nat in
     let month := partes !! 1%nat in
     let lastDay :=
       getDate LocalTZA (newDate3 LocalTZA (ToNumber year) (ToNumber month) (Num 0)) in
     let endDate := mesString +:+ "-" +:+ ToString lastDay in
     mret (filter (fun s => ge_string (fecha_solicitud s) startDate
                            && le_string (fecha_solicitud s) endDate)
                  (solicitudes st)))
    (fun _ => mret []).
End Host.

Definition checkExistingAppointment (st : Store) (cedula_ : string) (fecha : Date)
  : completion bool :=
  try_catch
    (iso ← toISOString fecha;
     let fechaISO := item0 (split "T" iso) in
     let existente :=
       list_find (fun s => cedula s = Some cedula_
                           /\ fecha_solicitud s = Some fechaISO
                           /\ includes ["consulta"; "ecor"] (tipo_solicitud s))
                 (solicitudes st) in
     mret (bool_decide (is_Some existente)))
    (fun _ => mret false).

Definition getAllSolicitudes (st : Store) : list Solicitud := solicitudes st.

End Mock.

(** ** The Supabase client, as [database.js] uses it

    The query builder of supabase-js on the two tables of the project, after
    the documented behaviour of the library: a request resolves to
    [{ data, error }] and does not throw; [single()] and [maybeSingle()]
    report an error when the number of rows is not the expected one. *)
Module Supabase.

(** What a request resolves to: [{ data, error: null }] or
    [{ data: null, error }]. *)
Inductive Response (A : Type) :=
| Data (data : A)
| Error (error : JSError).
Global Arguments Data {A} data.
Global Arguments Error {A} error.

(** The project's database: the two tables the sources query, the next value
    of the [id] sequence, the constraints of [solicitudes] (whether the
    table accepts a new row), and the requests that are going to fail
    (network or service errors), in order: [Some e] makes the next request
    resolve to [{ error: e }]. *)
Record Database := {
  tabla_solicitudes : list Solicitud;
  tabla_configuracion : list (string * string);
  id_seq : Z;
  admite : list Solicitud -> Solicitud -> bool;
  fallos : list (option JSError)
}.

Definition con_fallos (db : Database) (f : list (option JSError)) : Database :=
  {| tabla_solicitudes := tabla_solicitudes db;
     tabla_configuracion := tabla_configuracion db;
     id_seq := id_seq db;
     admite := admite db;
     fallos := f |}.

(** Computations that talk to the database and may throw. *)
Definition Query (A : Type) : Type := Database -> completion A * Database.

Definition qret {A} (a : A) : Query A := fun db => (Return a, db).

Definition qbind {A B} (m : Query A) (f : A -> Query B) : Query B :=
  fun db =>
    match m db with
    | (Return a, db') => f a db'
    | (Throw e, db') => (Throw e, db')
    end.

Definition qlift {A} (c : completion A) : Query A := fun db => (c, db).

(** [try { body } catch (error) { handler }] *)
Definition qtry {A} (body : Query A) (handler : JSError -> Query A) : Query A :=
  fun db =>
    match body db with
    | (Return a, db') => (Return a, db')
    | (Throw e, db') => handler e db'
    end.

Global Instance query_ret : MRet Query := @qret.
Global Instance query_bind : MBind Query := fun A B f m => qbind m f.

(** One round trip: the answer computed from the tables, unless this
    request is one that fails. *)
Definition request {A} (answer : Database -> Response A * Database)
  : Database -> Response A * Database :=
  fun db =>
    match fallos db with
    | Some e :: rest => (Error e, con_fallos db rest)
    | None :: rest => answer (con_fallos db rest)
    | [] => answer db
    end.

(** [const { data, error } = await ...; if (error) throw error;] *)
Definition await {A} (q : Database -> Response A * Database) : Query A :=
  fun db =>
    match q db with
    | (Data d, db') => (Return d, db')
    | (Error e, db') => (Throw e, db')
    end.

Definition PGRST116 : JSError :=
  PostgrestError "PGRST116" "JSON object requested, multiple (or no) rows returned".

(** [.single()]: exactly one row, otherwise an error. *)
Definition single {A} (rows : list A) : Response A :=
  match rows with
  | [r] => Data r
  | _ => Error PGRST116
  end.

(** [.maybeSingle()]: no row gives [data: null], one row gives the row, more
    rows give an error. *)
Definition maybeSingle {A} (rows : list A) : Response (option A) :=
  match rows with
  | [] => Data None
  | [r] => Data (Some r)
  | _ => Error PGRST116
  end.

(** [from('configuracion').select('valor').eq('clave', clave).single()] *)
Definition select_valor_single (clave : string) : Database -> Response string * Database :=
  request (fun db =>
    (single (snd <$> filter (fun r => fst r = clave) (tabla_configuracion db)), db)).

(** [from('solicitudes').select('*', { count: 'exact', head: true })
      .in('tipo_solicitud', tipos).eq('fecha_solicitud', fecha)] *)
Definition count_tipo_fecha (tipos : list string) (fecha : string)
  : Database -> Response (option Z) * Database :=
  request (fun db =>
    (Data (Some (Z.of_nat (length
       (filter (fun s => includes tipos (tipo_solicitud s)
                         /\ fecha_solicitud s = Some fecha)
               (tabla_solicitudes db))))), db)).

(** [from('solicitudes').insert([datos]).select().single()]: the row gets
    the defaults of the columns [id] and [created_at] that [datos] leaves
    out; a row the table's constraints refuse is not stored. *)
Definition insert_single (ahora : Z) (datos : Solicitud)
  : Database -> Response Solicitud * Database :=
  request (fun db =>
    let fila :=
      {| id := match id datos with Some i => Some i | None => Some (id_seq db) end;
         tipo_solicitud := tipo_solicitud datos;
         fecha_solicitud := fecha_solicitud datos;
         cedula := cedula datos;
         numero_turno := numero_turno datos;
         nombre_paciente := nombre_paciente datos;
         apellido_paciente := apellido_paciente datos;
         tipo_consulta_detalle := tipo_consulta_detalle datos;
         nomina := nomina datos;
         gerencia := gerencia datos;
         hora_solicitud := hora_solicitud datos;
         mensaje := mensaje datos;
         created_at := match created_at datos with
                       | Some c => Some c
                       | None => Some (ISODate ahora +:+ "T" +:+ ISOTime ahora)
                       end |} in
    if admite db (tabla_solicitudes db) fila
    then (Data fila,
          {| tabla_solicitudes := tabla_solicitudes db ++ [fila];
             tabla_configuracion := tabla_configuracion db;
             id_seq := id_seq db + 1;
             admite := admite db;
             fallos := fallos db |})
    else (Error (PostgrestError "23505" "duplicate key value violates unique constraint"),
          db)).

(** [from('solicitudes').select('*').eq('fecha_solicitud', fecha)] *)
Definition select_fecha (fecha : string) : Database -> Response (list Solicitud) * Database :=
  request (fun db =>
    (Data (filter (fun s => fecha_solicitud s = Some fecha) (tabla_solicitudes db)), db)).

(** [from('solicitudes').select('*').gte('fecha_solicitud', desde)
      .lte('fecha_solicitud', hasta)]; the column is compared as the text
    [YYYY-MM-DD] it is returned as. *)
Definition select_rango (desde hasta : string)
  : Database -> Response (list Solicitud) * Database :=
  request (fun db =>
    (Data (filter (fun s => ge_string (fecha_solicitud s) desde
                            && le_string (fecha_solicitud s) hasta)
                  (tabla_solicitudes db)), db)).

(** [from('solicitudes').select('id').eq('cedula', c).eq('fecha_solicitud', f)
      .in('tipo_solicitud', tipos).maybeSingle()] *)
Definition select_id_maybeSingle (c f : string) (tipos : list string)
  : Database -> Response (option (option Z)) * Database :=
  request (fun db =>
    (maybeSingle (id <$> filter (fun s => cedula s = Some c
                                          /\ fecha_solicitud s = Some f
                                          /\ includes tipos (tipo_solicitud s))
                                (tabla_solicitudes db)), db)).

End Supabase.

(** ** [database.js] with Supabase configured *)
Module Durable.
Import Supabase.

(** A count that may be [null], as an operand of [-] or [||]: [null] and 0
    both give 0. *)
Definition count_or_0 (count : option Z) : Z := default 0 count.

Section Host.
Variable LocalTZA : Z.

Definition getCuposDisponibles (tipo : string) (fecha : Date) : Query number :=
  qtry
    (let diaSemana := getDay LocalTZA fecha in
     let claveLimite :=
       if decide (tipo = "consulta" /\ diaSemana = Num 3)
       then "cupos_consulta_miercoles"
       else "cupos_" +:+ tipo in
     valor ← await (select_valor_single claveLimite);
     let limiteCupos := parseInt10 valor in
     iso ← qlift (toISOString fecha);
     let fechaISO := item0 (split "T" iso) in
     let tipoQuery :=
       if decide (tipo = "consulta") then ["consulta"; "ecor"] else ["reembolso"] in
     count ← await (count_tipo_fecha tipoQuery fechaISO);
     mret (minus limiteCupos (Num (count_or_0 count))))
    (fun _ => mret (Num 0)).
End Host.

Definition getSiguienteNumeroTurno (prefijo : string) (fecha : Date)
  : Query (option string) :=
  qtry
    (iso ← qlift (toISOString fecha);
     let fechaISO := item0 (split "T" iso) in
     let tipoSolicitudQuery :=
       if decide (prefijo = "R") then ["reembolso"] else ["consulta"; "ecor"] in
     count ← await (count_tipo_fecha tipoSolicitudQuery fechaISO);
     let nuevoNumero := count_or_0 count + 1 in
     mret (Some (prefijo +:+ "-" +:+ padStart 3 "0" (ToString (Num nuevoNumero)))))
    (fun _ => mret None).

(** [crearSolicitud]; [ahora] is the clock the database stamps the row
    with. *)
Definition crearSolicitud (ahora : Z) (datosSolicitud : Solicitud)
  : Query (option Solicitud) :=
  qtry
    (data ← await (insert_single ahora datosSolicitud);
     mret (Some data))
    (fun _ => mret None).

Definition getDatosReporteDiario (fechaString : string) : Query (list Solicitud) :=
  qtry
    (data ← await (select_fecha fechaString);
     mret data)
    (fun _ => mret []).

Section Host.
Variable LocalTZA : Z.

Definition getDatosReporteMensual (mesString : string) : Query (list Solicitud) :=
  qtry
    (let startDate := mesString +:+ "-01" in
     let partes := split "-" mesString in
     let year := partes !! 0%nat in
     let month := partes !! 1%nat in
     let lastDay :=
       getDate LocalTZA (newDate3 LocalTZA (ToNumber year) (ToNumber month) (Num 0)) in
     let endDate := mesString +:+ "-" +:+ ToString lastDay in
     data ← await (select_rango startDate endDate);
     mret data)
    (fun _ => mret []).
End Host.

Definition checkExistingAppointment (cedula_ : string) (fecha : Date) : Query bool :=
  qtry
    (iso ← qlift (toISOString fecha);
     let fechaISO := item0 (split "T" iso) in
     data ← await (select_id_maybeSingle cedula_ fechaISO ["consulta"; "ecor"]);
     mret (bool_decide (is_Some data)))
    (fun _ => mret false).

End Durable.

(** ** [index.js]: the day a scheduled report covers *)
Module Index.

(** [getReportDateString]; [ahora] is the Date the function builds from the
    wall clock of America/Caracas. *)
Definition getReportDateString (LocalTZA : Z) (ahora : Date) : string :=
  let diaDeLaSemana := getDay LocalTZA ahora in
  let fechaDelReporte := ahora in
  let fechaDelReporte :=
    if decide (diaDeLaSemana = Num 1)
    then setDate LocalTZA fechaDelReporte (minus (getDate LocalTZA ahora) (Num 3))
    else setDate LocalTZA fechaDelReporte (minus (getDate LocalTZA ahora) (Num 1)) in
  toLocaleDateString_enCA LocalTZA fechaDelReporte.

End Index.

(** ** [database.js]: what the module exports *)
Module Database.

(** The functions a caller of [require('./database')] gets hold of, over the
    state of the store behind them. *)
Record Backend := {
  estado : Type;
  getCuposDisponibles : string -> Date -> estado -> completion number * estado;
  getSiguienteNumeroTurno : string -> Date -> estado -> completion (option string) * estado;
  crearSolicitud : Z -> Solicitud -> estado -> completion (option Solicitud) * estado;
  getDatosReporteDiario : string -> estado -> completion (list Solicitud) * estado;
  getDatosReporteMensual : string -> estado -> completion (list Solicitud) * estado;
  checkExistingAppointment : string -> Date -> estado -> completion bool * estado
}.

Section Host.
Variable LocalTZA : Z.

Definition durable : Backend := {|
  estado := Supabase.Database;
  getCuposDisponibles := Durable.getCuposDisponibles LocalTZA;
  getSiguienteNumeroTurno := Durable.getSiguienteNumeroTurno;
  crearSolicitud := Durable.crearSolicitud;
  getDatosReporteDiario := Durable.getDatosReporteDiario;
  getDatosReporteMensual := Durable.getDatosReporteMensual LocalTZA;
  checkExistingAppointment := Durable.checkExistingAppointment
|}.

Definition mock : Backend := {|
  estado := Mock.Store;
  getCuposDisponibles := fun tipo fecha st =>
    (Mock.getCuposDisponibles LocalTZA st tipo fecha, st);
  getSiguienteNumeroTurno := fun prefijo fecha st =>
    (Mock.getSiguienteNumeroTurno st prefijo fecha, st);
  crearSolicitud := fun ahora datos st => Mock.crearSolicitud st ahora datos;
  getDatosReporteDiario := fun fechaString st =>
    (Mock.getDatosReporteDiario st fechaString, st);
  getDatosReporteMensual := fun mesString st =>
    (Mock.getDatosReporteMensual LocalTZA st mesString, st);
  checkExistingAppointment := fun cedula_ fecha st =>
    (Mock.checkExistingAppointment st cedula_ fecha, st)
|}.

(** [supabaseConfigured] is whether both [SUPABASE_URL] and
    [SUPABASE_SERVICE_KEY] are set. *)
Definition exports (supabaseConfigured : bool) : Backend :=
  if supabaseConfigured then durable else mock.
End Host.

End Database.

(** ** The booking flow *)
Module Allocation.
Import Database.

Inductive RequestType := consultation | annualExam | reimbursement | emergency.

Global Instance RequestType_eq_dec : EqDecision RequestType.
Proof. solve_decision. Defined.

Inductive AllocationError :=
| DuplicateBookingError
| CapacityExceededError
| StoreError.

(** The value of [tipo_solicitud] a request type is stored under. *)
Definition tipo_de (r : RequestType) : string :=
  match r with
  | consultation => "consulta"
  | annualExam => "ecor"
  | reimbursement => "reembolso"
  | emergency => "emergencia"
  end.

(** The type whose capacity a request consumes, and the prefix of its
    tickets: consultations and annual exams share both. *)
Definition capacityType (r : RequestType) : string :=
  match r with
  | reimbursement => "reembolso"
  | _ => "consulta"
  end.

Definition prefix (r : RequestType) : string :=
  match r with
  | reimbursement => "R"
  | _ => "C"
  end.

(** A booking request as the conversation layer hands it over, with the
    reading of the clock when it is served. *)
Record BookingRequest := {
  clock : Z;
  requestType : RequestType;
  patientId : string;
  patientFields : Solicitud
}.

Definition con_reserva (campos : Solicitud) (tipo fecha paciente : string)
    (turno : option string) : Solicitud :=
  {| id := id campos;
     tipo_solicitud := Some tipo;
     fecha_solicitud := Some fecha;
     cedula := Some paciente;
     numero_turno := turno;
     nombre_paciente := nombre_paciente campos;
     apellido_paciente := apellido_paciente campos;
     tipo_consulta_detalle := tipo_consulta_detalle campos;
     nomina := nomina campos;
     gerencia := gerencia campos;
     hora_solicitud := hora_solicitud campos;
     mensaje := mensaje campos;
     created_at := created_at campos |}.

Section Booking.
Variable B : Backend.

Definition insertar (ahora : Z) (r : Solicitud) (e : estado B)
  : (Solicitud + AllocationError) * estado B :=
  match crearSolicitud B ahora r e with
  | (Return (Some persisted), e') => (inl persisted, e')
  | (_, e') => (inr StoreError, e')
  end.

(** Modelled from the spec: the caller of the store ([messageHandler.js])
    is not among the sources; this is the operation [bookSlot] of the
    specification's Allocation Service, steps 1 to 5, on the store
    functions above. An emergency is stored without a ticket; the
    consultation family is checked for a duplicate; the remaining
    capacity of the family must be positive; the ticket is the family's
    next number; the record is inserted. *)
Definition bookSlot (ahora : Z) (tipo : RequestType) (date : Date)
    (paciente : string) (campos : Solicitud) (e : estado B)
  : (Solicitud + AllocationError) * estado B :=
  match toISOString date with
  | Throw _ => (inr StoreError, e)
  | Return iso =>
    let requestDate := item0 (split "T" iso) in
    match tipo with
    | emergency =>
        insertar ahora
          (con_reserva campos (tipo_de emergency) requestDate paciente None) e
    | _ =>
      let '(duplicate, e1) :=
        match tipo with
        | reimbursement => (Return false, e)
        | _ => checkExistingAppointment B paciente date e
        end in
      match duplicate with
      | Return false =>
        match getCuposDisponibles B (capacityType tipo) date e1 with
        | (Return (Num remaining), e2) =>
          if remaining <=? 0 then (inr CapacityExceededError, e2)
          else
            match getSiguienteNumeroTurno B (prefix tipo) date e2 with
            | (Return (Some ticketNumber), e3) =>
                insertar ahora
                  (con_reserva campos (tipo_de tipo) requestDate
                               paciente (Some ticketNumber)) e3
            | (_, e3) => (inr StoreError, e3)
            end
        | (_, e2) => (inr StoreError, e2)
        end
      | Return true => (inr DuplicateBookingError, e1)
      | Throw _ => (inr StoreError, e1)
      end
    end
  end.

(** Modelled from the spec: the sequences of bookings its testable
    properties speak of. A run of booking requests for one day; the
    outcomes in order. *)
Fixpoint bookAll (requests : list BookingRequest) (date : Date) (e : estado B)
  : list (Solicitud + AllocationError) * estado B :=
  match requests with
  | [] => ([], e)
  | q :: rest =>
      let '(outcome, e1) :=
        bookSlot (clock q) (requestType q) date (patientId q) (patientFields q) e in
      let '(outcomes, e2) := bookAll rest date e1 in
      (outcome :: outcomes, e2)
  end.
End Booking.


End Allocation.

(** ** Vocabulary of the specification *)
Module Ledger.

(** [countMatching(requestTypes, date)]: the number of records of the given
    types booked for the given day. *)
Definition countMatching (tipos : list string) (fecha : string) (l : list Solicitud) : nat :=
  length (filter (fun s => includes tipos (tipo_solicitud s)
                           /\ fecha_solicitud s = Some fecha) l).

(** The ticket family a prefix names: [R] is reimbursement, any other prefix
    the consultation family. *)
Definition family (prefijo : string) : list string :=
  if decide (prefijo = "R") then ["reembolso"] else ["consulta"; "ecor"].

(** The key of the limit [getCuposDisponibles] looks up. *)
Definition claveLimite (LocalTZA : Z) (tipo : string) (fecha : Date) : string :=
  if decide (tipo = "consulta" /\ getDay LocalTZA fecha = Num 3)
  then "cupos_consulta_miercoles"
  else "cupos_" +:+ tipo.

(** The types that share the capacity of [tipo]. *)
Definition tipoQuery (tipo : string) : list string :=
  if decide (tipo = "consulta") then ["consulta"; "ecor"] else ["reembolso"].

(** [existsForPatientOnDate(patientId, date, requestTypes)] *)
Definition existsForPatientOnDate (paciente fecha : string) (tipos : list string)
    (l : list Solicitud) : Prop :=
  Exists (fun s => cedula s = Some paciente
                   /\ fecha_solicitud s = Some fecha
                   /\ includes tipos (tipo_solicitud s)) l.

(** The Gregorian calendar. *)
Definition is_leap (y : Z) : bool :=
  (y mod 4 =? 0) && (negb (y mod 100 =? 0) || (y mod 400 =? 0)).

Definition days_in_month (y m : Z) : Z :=
  match m with
  | 2 => if is_leap y then 29 else 28
  | 4 | 6 | 9 | 11 => 30
  | _ => 31
  end.

(** The texts [YYYY-MM] and [YYYY-MM-DD]. *)
Definition year_month (y m : Z) : string :=
  fixed_digits 4 y +:+ "-" +:+ fixed_digits 2 m.

Definition year_month_day (y m d : Z) : string :=
  fixed_digits 4 y +:+ "-" +:+ fixed_digits 2 m +:+ "-" +:+ fixed_digits 2 d.

(** Characters of a string. *)
Fixpoint chars_of (s : string) : list ascii :=
  match s with
  | EmptyString => []
  | String c s' => c :: chars_of s'
  end.

(** No request to the database is going to fail. *)
Definition sin_fallos (db : Supabase.Database) : Prop :=
  Forall (fun f => f = None) (Supabase.fallos db).

(** Two states of the database that hold the same tables and differ at most
    in the requests that are going to fail. *)
Definition mismas_tablas (db db' : Supabase.Database) : Prop :=
  Supabase.tabla_solicitudes db = Supabase.tabla_solicitudes db'
  /\ Supabase.tabla_configuracion db = Supabase.tabla_configuracion db'
  /\ Supabase.id_seq db = Supabase.id_seq db'
  /\ Supabase.admite db = Supabase.admite db'.

(** The fate of the next request (the error it resolves to, if it is one
    that fails) and the failures still pending after it. *)
Definition siguiente (f : list (option JSError)) : option JSError * list (option JSError) :=
  match f with
  | o :: rest => (o, rest)
  | [] => (None, [])
  end.

(** The rows of [configuracion] stored under a key. *)
Definition valores (clave : string) (db : Supabase.Database) : list string :=
  snd <$> filter (fun r => fst r = clave) (Supabase.tabla_configuracion db).

(** The duplicate guard does not stand in the way of a request of type [r]
    for this patient and day. *)
Definition unguarded (paciente fecha : string) (r : Allocation.RequestType)
    (l : list Solicitud) : Prop :=
  r = Allocation.reimbursement
  \/ ((r = Allocation.consultation \/ r = Allocation.annualExam)
      /\ ~ existsForPatientOnDate paciente fecha ["consulta"; "ecor"] l).

Global Instance unguarded_dec paciente fecha r l : Decision (unguarded paciente fecha r l).
Proof. unfold unguarded, existsForPatientOnDate. apply _. Defined.

(** The remaining capacity of the in-memory store for a request of type [r]
    on the day of time value [t]. *)
Definition remaining (LocalTZA t : Z) (r : Allocation.RequestType)
    (l : list Solicitud) : Z :=
  Mock.limite (claveLimite LocalTZA (Allocation.capacityType r) (ValidDate t))
  - Z.of_nat (countMatching (family (Allocation.prefix r)) (ISODate t) l).

(** The ticket with number [n]. *)
Definition ticket (prefijo : string) (n : Z) : string :=
  prefijo +:+ "-" +:+ padStart 3 "0" (ToString (Num n)).

(** A record without the two columns the store itself fills in. *)
Definition sin_id (s : Solicitud) : Solicitud :=
  {| id := None;
     tipo_solicitud := tipo_solicitud s;
     fecha_solicitud := fecha_solicitud s;
     cedula := cedula s;
     numero_turno := numero_turno s;
     nombre_paciente := nombre_paciente s;
     apellido_paciente := apellido_paciente s;
     tipo_consulta_detalle := tipo_consulta_detalle s;
     nomina := nomina s;
     gerencia := gerencia s;
     hora_solicitud := hora_solicitud s;
     mensaje := mensaje s;
     created_at := None |}.

(** Two sequences of records that agree, record by record, on every column
    but [id] and [created_at]. *)
Definition mismo_contenido (l1 l2 : list Solicitud) : Prop :=
  sin_id <$> l1 = sin_id <$> l2.

(** The table [configuracion] holds, once each, the limits of
    [mockData.js]. *)
Definition config_espejo (db : Supabase.Database) : Prop :=
  forall clave v,
    Mock.configuracion !! clave = Some v ->
    exists valor, valores clave db = [valor] /\ parseInt10 valor = Num v.

(** The rows the duplicate guard looks for. *)
Definition guard_rows (paciente fecha : string) (l : list Solicitud) : list Solicitud :=
  filter (fun s => cedula s = Some paciente
                   /\ fecha_solicitud s = Some fecha
                   /\ includes ["consulta"; "ecor"] (tipo_solicitud s)) l.

(** The records that are not emergencies. *)
Definition sin_emergencias (l : list Solicitud) : list Solicitud :=
  filter (fun s => tipo_solicitud s <> Some "emergencia") l.

End Ledger.

(** ** Concrete stores and dates *)
Module Ejemplos.

(** A record with the three columns the store functions read. *)
Definition registro (tipo fecha paciente : string) : Solicitud :=
  {| id := None; tipo_solicitud := Some tipo; fecha_solicitud := Some fecha;
     cedula := Some paciente; numero_turno := None; nombre_paciente := None;
     apellido_paciente := None; tipo_consulta_detalle := None; nomina := None;
     gerencia := None; hora_solicitud := None; mensaje := None; created_at := None |}.

(** America/Caracas, four hours behind UTC. *)
Definition caracas : Z := -14400000.

(** Wednesday 7 February 2024, 12:00 UTC, and the Thursday after it. *)
Definition miercoles : Z := 1707307200000.
Definition jueves : Z := 1707393600000.

(** Monday 1 April 2024 and Tuesday 2 April 2024, 08:00 in Caracas. *)
Definition lunes : Z := 1711972800000.
Definition martes : Z := 1712059200000.

Definition almacen (l : list Solicitud) : Mock.Store :=
  {| Mock.solicitudes := l; Mock.idCounter := 1 + Z.of_nat (length l) |}.

(** A database whose [configuracion] holds the limits of [mockData.js], with
    no constraint on [solicitudes]. *)
Definition base (l : list Solicitud) (f : list (option JSError)) : Supabase.Database :=
  {| Supabase.tabla_solicitudes := l;
     Supabase.tabla_configuracion :=
       [("cupos_consulta", "15"); ("cupos_consulta_miercoles", "10");
        ("cupos_reembolso", "20")];
     Supabase.id_seq := 1 + Z.of_nat (length l);
     Supabase.admite := fun _ _ => true;
     Supabase.fallos := f |}.


Definition caida : JSError := PostgrestError "503" "Service Unavailable".

(** [n] consultations of as many patients on one day. *)
Definition consultas (fecha : string) (n : nat) : list Solicitud :=
  (fun i => registro "consulta" fecha (pretty i)) <$> seq 0 n.

End Ejemplos.

Import Ledger.

(** ** Sequences of calls to the store *)
Module Session.
Import Database.

(** A call to one of the functions [database.js] exports. *)
Inductive Call :=
| CuposDisponibles (tipo : string) (fecha : Date)
| SiguienteNumeroTurno (prefijo : string) (fecha : Date)
| CrearSolicitud (ahora : Z) (datosSolicitud : Solicitud)
| ReporteDiario (fechaString : string)
| ReporteMensual (mesString : string)
| ExistingAppointment (cedula_ : string) (fecha : Date).

(** The state of the store after a call. *)
Definition call (B : Backend) (c : Call) (e : estado B) : estado B :=
  match c with
  | CuposDisponibles tipo fecha => (getCuposDisponibles B tipo fecha e).2
  | SiguienteNumeroTurno prefijo fecha => (getSiguienteNumeroTurno B prefijo fecha e).2
  | CrearSolicitud ahora datosSolicitud => (crearSolicitud B ahora datosSolicitud e).2
  | ReporteDiario fechaString => (getDatosReporteDiario B fechaString e).2
  | ReporteMensual mesString => (getDatosReporteMensual B mesString e).2
  | ExistingAppointment cedula_ fecha => (checkExistingAppointment B cedula_ fecha e).2
  end.

(** The state of the store after a sequence of calls, served one after the
    other. *)
Definition session (B : Backend) (calls : list Call) (e : estado B) : estado B :=
  foldl (fun e c => call B c e) e calls.

Definition is_insert (c : Call) : bool :=
  match c with
  | CrearSolicitud _ _ => true
  | _ => false
  end.

(** The record a call stores comes without an [id] of its own. *)
Definition sin_id_propio (c : Call) : Prop :=
  match c with
  | CrearSolicitud _ datosSolicitud => id datosSolicitud = None
  | _ => True
  end.

(** A query that only reads: it leaves the tables as they are, whatever
    requests fail. *)
Definition lectura {A} (q : Supabase.Query A) : Prop :=
  forall db, mismas_tablas db (q db).2.

(** The counter is positive, and the [id]s of the stored records are
    positive numbers below it, pairwise distinct. *)
Definition ids_frescos (st : Mock.Store) : Prop :=
  1 <= Mock.idCounter st
  /\ Forall (fun s => exists i, id s = Some i /\ 1 <= i < Mock.idCounter st)
            (Mock.solicitudes st)
  /\ NoDup (id <$> Mock.solicitudes st).

(** A completion that is a value, not a thrown error. *)
Definition settles {A} (c : completion A) : Prop := exists a, c = Return a.

(** Whether a record counts among the records of the given types booked for
    a day: 1 if it does, 0 if not. *)
Definition cuenta (tipos : list string) (fecha : string) (s : Solicitud) : Z :=
  if decide (includes tipos (tipo_solicitud s) /\ fecha_solicitud s = Some fecha)
  then 1 else 0.

End Session.

(** ** [reportGenerator.js]: the reports *)
Module Report.
Import Database.

(** What can reach a [catch] clause of [reportGenerator.js]: an error thrown
    by a function of [database.js], an error of [fs], or a rejection by one
    of the services (ExcelJS writing the file, Resend, the WhatsApp
    socket). *)
Inductive Failure :=
| StoreError (e : JSError)
| SystemError (code message : string)
| ServiceError (message : string).

(** [error.message] *)
Definition message (f : Failure) : string :=
  match f with
  | StoreError (RangeError m) => m
  | StoreError (PostgrestError _ m) => m
  | SystemError _ m => m
  | ServiceError m => m
  end.

Inductive outcome (A : Type) :=
| Ok (a : A)
| Fail (f : Failure).
Global Arguments Ok {A} a.
Global Arguments Fail {A} f.

(** *** Workbooks *)

Record Column := { header : string; key : string; width : Z }.

(** A worksheet: its name, its columns, and the rows the written file holds
    below the header, each with one cell a column ([None] is an empty
    cell). *)
Record Worksheet := {
  name : string;
  columns : list Column;
  rows : list (list (option string))
}.

Record Workbook := {
  creator : string;
  created : Z;
  worksheets : list Worksheet
}.

(** [d[key]] for the keys of the columns; no column has the key [id]. *)
Definition campo (k : string) (d : Solicitud) : option string :=
  if decide (k = "tipo_solicitud") then tipo_solicitud d
  else if decide (k = "fecha_solicitud") then fecha_solicitud d
  else if decide (k = "cedula") then cedula d
  else if decide (k = "numero_turno") then numero_turno d
  else if decide (k = "nombre_paciente") then nombre_paciente d
  else if decide (k = "apellido_paciente") then apellido_paciente d
  else if decide (k = "tipo_consulta_detalle") then tipo_consulta_detalle d
  else if decide (k = "nomina") then nomina d
  else if decide (k = "gerencia") then gerencia d
  else if decide (k = "hora_solicitud") then hora_solicitud d
  else if decide (k = "mensaje") then mensaje d
  else if decide (k = "created_at") then created_at d
  else None.

(** The cells an object gives a row of a sheet: the object's properties
    under the keys of the columns. *)
Definition celdas (cols : list Column) (d : Solicitud) : list (option string) :=
  (fun c => campo (key c) d) <$> cols.

(** An object that has at least one of the keys of the columns. *)
Definition con_celda (cols : list Column) (d : Solicitud) : Prop :=
  Exists is_Some (celdas cols d).

(** [sheet.addRows(data)] on a fresh sheet with the given columns: each
    object gives a row, its cells taken by the keys of the columns. ExcelJS
    sets a cell only for a key the object has, and writes no row for a row
    without cells: an object with none of the keys leaves no row in the
    file. *)
Definition addRows (nombre : string) (cols : list Column) (data : list Solicitud)
  : Worksheet :=
  {| name := nombre;
     columns := cols;
     rows := celdas cols <$> filter (con_celda cols) data |}.

Definition columnas_consultas : list Column :=
  [ {| header := "Turno"; key := "numero_turno"; width := 12 |};
    {| header := "Nombre"; key := "nombre_paciente"; width := 20 |};
    {| header := "Apellido"; key := "apellido_paciente"; width := 20 |};
    {| header := "Cédula"; key := "cedula"; width := 15 |};
    {| header := "Tipo Consulta"; key := "tipo_consulta_detalle"; width := 25 |};
    {| header := "Nómina"; key := "nomina"; width := 15 |};
    {| header := "Gerencia"; key := "gerencia"; width := 25 |};
    {| header := "Hora Registro"; key := "hora_solicitud"; width := 15 |} ].

Definition columnas_ecor : list Column :=
  [ {| header := "Turno"; key := "numero_turno"; width := 12 |};
    {| header := "Nombre"; key := "nombre_paciente"; width := 20 |};
    {| header := "Apellido"; key := "apellido_paciente"; width := 20 |};
    {| header := "Cédula"; key := "cedula"; width := 15 |};
    {| header := "Nómina"; key := "nomina"; width := 15 |};
    {| header := "Gerencia"; key := "gerencia"; width := 25 |};
    {| header := "Hora Registro"; key := "hora_solicitud"; width := 15 |} ].

Definition columnas_reembolsos : list Column :=
  [ {| header := "Turno"; key := "numero_turno"; width := 12 |};
    {| header := "Nombre"; key := "nombre_paciente"; width := 25 |};
    {| header := "Apellido"; key := "apellido_paciente"; width := 25 |};
    {| header := "Cédula"; key := "cedula"; width := 15 |};
    {| header := "Hora Registro"; key := "hora_solicitud"; width := 15 |} ].

Definition columnas_emergencias : list Column :=
  [ {| header := "Fecha"; key := "fecha_solicitud"; width := 15 |};
    {| header := "Hora"; key := "hora_solicitud"; width := 15 |};
    {| header := "Mensaje"; key := "mensaje"; width := 50 |} ].

(** The workbook [createExcelReport] builds from [datos]; [reloj] is the
    clock reading of [new Date()]. *)
Definition libro (reloj : Z) (datos : list Solicitud) : Workbook :=
  let consultasData := filter (fun d => tipo_solicitud d = Some "consulta") datos in
  let ecorData := filter (fun d => tipo_solicitud d = Some "ecor") datos in
  let reembolsosData := filter (fun d => tipo_solicitud d = Some "reembolso") datos in
  let emergenciasData := filter (fun d => tipo_solicitud d = Some "emergencia") datos in
  {| creator := "AsistenteVirtualClinica";
     created := reloj;
     worksheets :=
       [ addRows "Consultas" columnas_consultas consultasData;
         addRows "ECOR" columnas_ecor ecorData;
         addRows "Reembolsos" columnas_reembolsos reembolsosData;
         addRows "Emergencias" columnas_emergencias emergenciasData ] |}.

(** *** The world outside the store *)

(** What [resend.emails.send] is called with. *)
Record Email := {
  from : string;
  to : option string;
  subject : string;
  text : string;
  attachments : list (string * Workbook)
}.

(** What [sock.sendMessage] is called with. *)
Inductive Message :=
| Text (text : string)
| Document (url mimetype fileName caption : string).

(** The files written by the module (path and content), the messages
    Resend accepted and the calls of [sock.sendMessage] that resolved, in
    order, and the calls to the file system and the services that are going
    to fail, in order: [Some f] makes the next call fail with [f]. A
    failing call to the file system, to ExcelJS or to the socket throws
    [f]; a failing call to Resend resolves to [{ data: null, error: f }]. *)
Record World := {
  files : gmap string Workbook;
  emails : list Email;
  chat : list (string * Message);
  faults : list (option Failure)
}.

Definition with_faults (w : World) (f : list (option Failure)) : World :=
  {| files := files w; emails := emails w; chat := chat w; faults := f |}.

(** The part of the host the module reads: [__dirname], [path.join] and
    [path.basename], [new Date(s).toLocaleDateString('es-VE')] as a
    function of [s], and [process.env.REPORT_EMAIL_TO]. *)
Record Host := {
  dirname : string;
  path_join : string -> string -> string;
  path_basename : string -> string;
  toLocaleDateString_esVE : string -> string;
  REPORT_EMAIL_TO : option string
}.

(** *** Computations that may throw *)

Definition Proc (S A : Type) : Type := S -> outcome A * S.

Definition pret {S A} (a : A) : Proc S A := fun s => (Ok a, s).

Definition pbind {S A B} (m : Proc S A) (f : A -> Proc S B) : Proc S B :=
  fun s =>
    match m s with
    | (Ok a, s') => f a s'
    | (Fail e, s') => (Fail e, s')
    end.

Definition throw {S A} (e : Failure) : Proc S A := fun s => (Fail e, s).

(** [try { body } catch (error) { handler }] *)
Definition ptry {S A} (body : Proc S A) (handler : Failure -> Proc S A) : Proc S A :=
  fun s =>
    match body s with
    | (Ok a, s') => (Ok a, s')
    | (Fail e, s') => handler e s'
    end.

Global Instance proc_ret {S} : MRet (Proc S) := @pret S.
Global Instance proc_bind {S} : MBind (Proc S) := fun A B f m => pbind m f.

(** A call to the file system or to a service: what it does, unless this
    call is one that fails. *)
Definition attempt {A} (op : Proc World A) : Proc World A :=
  fun w =>
    match faults w with
    | Some f :: rest => (Fail f, with_faults w rest)
    | None :: rest => op (with_faults w rest)
    | [] => op w
    end.

(** [await workbook.xlsx.writeFile(filePath)] *)
Definition writeFile (filePath : string) (workbook : Workbook) : Proc World unit :=
  attempt (fun w =>
    (Ok tt,
     {| files := <[filePath := workbook]> (files w);
        emails := emails w; chat := chat w; faults := faults w |})).

(** [fs.readFileSync(filePath)] *)
Definition readFileSync (filePath : string) : Proc World Workbook :=
  attempt (fun w =>
    match files w !! filePath with
    | Some content => (Ok content, w)
    | None => (Fail (SystemError "ENOENT" "ENOENT: no such file or directory"), w)
    end).

(** [fs.unlinkSync(filePath)] *)
Definition unlinkSync (filePath : string) : Proc World unit :=
  attempt (fun w =>
    match files w !! filePath with
    | Some _ =>
        (Ok tt,
         {| files := delete filePath (files w);
            emails := emails w; chat := chat w; faults := faults w |})
    | None => (Fail (SystemError "ENOENT" "ENOENT: no such file or directory"), w)
    end).

(** [await resend.emails.send(email)]: the promise of the Resend client
    resolves in either case, to [{ data, error: null }] when the message is
    accepted and to [{ data: null, error }] when it is not; the caller
    does not look at the value. *)
Definition resend_emails_send (email : Email) : Proc World unit :=
  fun w =>
    let accepted w :=
      {| files := files w; emails := emails w ++ [email];
         chat := chat w; faults := faults w |} in
    match faults w with
    | Some _ :: rest => (Ok tt, with_faults w rest)
    | None :: rest => (Ok tt, accepted (with_faults w rest))
    | [] => (Ok tt, accepted w)
    end.

(** [await sock.sendMessage(jid, content)] *)
Definition sendMessage (jid : string) (content : Message) : Proc World unit :=
  attempt (fun w =>
    (Ok tt,
     {| files := files w; emails := emails w;
        chat := chat w ++ [(jid, content)]; faults := faults w |})).

(** A computation on the world, within one on the store and the world. *)
Definition on_world {E A} (p : Proc World A) : Proc (E * World) A :=
  fun s =>
    match p s.2 with
    | (r, w') => (r, (s.1, w'))
    end.

(** [await f(...)] for a function [f] of [database.js]. *)
Definition on_store {E A} (q : E -> completion A * E) : Proc (E * World) A :=
  fun s =>
    match q s.1 with
    | (Return a, e') => (Ok a, (e', s.2))
    | (Throw x, e') => (Fail (StoreError x), (e', s.2))
    end.

Definition xlsx : string :=
  "application/vnd.openxmlformats-officedocument.spreadsheetml.sheet".

Section Host.
Variable h : Host.

(** [path.join(__dirname, `Reporte_Diario_${fechaString}.xlsx`)] *)
Definition ruta (fechaString : string) : string :=
  path_join h (dirname h) ("Reporte_Diario_" +:+ fechaString +:+ ".xlsx").

Definition createExcelReport (reloj : Z) (datos : list Solicitud) (fechaString : string)
  : Proc World string :=
  let workbook := libro reloj datos in
  let filePath := ruta fechaString in
  _ ← writeFile filePath workbook;
  mret filePath.

(** The message [sendEmailWithAttachment] hands to Resend; [fechaDisplay] is
    the text the Date was made from. *)
Definition correo (filePath : string) (fechaDisplay : string) (fileContent : Workbook)
  : Email :=
  {| from := String "034" "Asistente Virtual Clínica" +:+
             String "034" " <onboarding@resend.dev>";
     to := REPORT_EMAIL_TO h;
     subject := "Reporte Diario de Solicitudes - " +:+
                toLocaleDateString_esVE h fechaDisplay;
     text := "Adjunto se encuentra el reporte diario de consultas y reembolsos generado por el asistente virtual.";
     attachments := [(path_basename h filePath, fileContent)] |}.

Definition sendEmailWithAttachment (filePath : string) (fechaDisplay : string)
  : Proc World unit :=
  ptry
    (fileContent ← readFileSync filePath;
     _ ← resend_emails_send (correo filePath fechaDisplay fileContent);
     mret tt)
    (fun error => throw error).

Section Store.
Variable B : Backend.

Definition generateAndEmailReport (reloj : Z) (fechaString : string)
  : Proc (estado B * World) unit :=
  let fechaDisplay := fechaString +:+ "T12:00:00Z" in
  ptry
    (datos ← on_store (getDatosReporteDiario B fechaString);
     if decide (length datos = 0%nat) then mret tt
     else
       filePath ← on_world (createExcelReport reloj datos fechaString);
       _ ← on_world (sendEmailWithAttachment filePath fechaDisplay);
       _ ← on_world (unlinkSync filePath);
       mret tt)
    (fun error => mret tt).

Definition generateAndSendReports (reloj : Z) (recipientJid fechaString : string)
  : Proc (estado B * World) unit :=
  let fechaDisplay := fechaString +:+ "T12:00:00Z" in
  ptry
    (datos ← on_store (getDatosReporteDiario B fechaString);
     if decide (length datos = 0%nat)
     then
       on_world (sendMessage recipientJid
         (Text ("Reporte del día " +:+ toLocaleDateString_esVE h fechaDisplay +:+
                ": No se registraron solicitudes.")))
     else
       filePath ← on_world (createExcelReport reloj datos fechaString);
       _ ← on_world (sendMessage recipientJid
              (Document filePath xlsx (path_basename h filePath)
                 ("Reporte de solicitudes para el día " +:+
                  toLocaleDateString_esVE h fechaDisplay +:+ ".")));
       _ ← on_world (sendEmailWithAttachment filePath fechaDisplay);
       _ ← on_world (unlinkSync filePath);
       mret tt)
    (fun error =>
       on_world (sendMessage recipientJid
         (Text ("⚠️ *Error Crítico* ⚠️" +:+ String "010" "No se pudo generar el reporte." +:+
                String "010" "Error: " +:+ message error)))).

Definition generateAndSendMonthlyReport (reloj : Z) (recipientJid monthYearString : string)
  : Proc (estado B * World) unit :=
  ptry
    (datosMensuales ← on_store (getDatosReporteMensual B monthYearString);
     if decide (length datosMensuales = 0%nat)
     then
       on_world (sendMessage recipientJid
         (Text ("Reporte mensual de " +:+ monthYearString +:+
                ": No se registraron solicitudes.")))
     else
       filePath ← on_world (createExcelReport reloj datosMensuales
                              ("MENSUAL_" +:+ monthYearString));
       _ ← on_world (sendMessage recipientJid
              (Document filePath xlsx (path_basename h filePath)
                 ("Reporte mensual de solicitudes para " +:+ monthYearString +:+ ".")));
       _ ← on_world (unlinkSync filePath);
       mret tt)
    (fun error =>
       on_world (sendMessage recipientJid
         (Text ("⚠️ *Error Crítico* ⚠️" +:+ String "010" "No se pudo generar el reporte mensual." +:+
                String "010" "Error: " +:+ message error)))).

End Store.
End Host.

(** The text that tells the recipient that a day has no records. *)
Definition sin_solicitudes (h : Host) (fechaString : string) : Message :=
  Text ("Reporte del día " +:+ toLocaleDateString_esVE h (fechaString +:+ "T12:00:00Z") +:+
        ": No se registraron solicitudes.").

(** No call to the file system or to a service is going to fail. *)
Definition quiet (w : World) : Prop := Forall (fun f => f = None) (faults w).

(** Two worlds that differ at most in the calls that are going to fail. *)
Definition same_effects (w w' : World) : Prop :=
  files w = files w' /\ emails w = emails w' /\ chat w = chat w'.

(** The number of rows of a workbook, all sheets together. *)
Definition filas (wb : Workbook) : nat :=
  foldr (fun sh n => (length (rows sh) + n)%nat) 0%nat (worksheets wb).

(** A record of one of the four types that have a sheet. *)
Definition tipo_conocido (d : Solicitud) : Prop :=
  includes ["consulta"; "ecor"; "reembolso"; "emergencia"] (tipo_solicitud d).

(** A record that leaves a row in the workbook: it is of one of the four
    types and has at least one of the keys of the sheet of its type. *)
Definition escrito (d : Solicitud) : Prop :=
  (tipo_solicitud d = Some "consulta" /\ con_celda columnas_consultas d)
  \/ (tipo_solicitud d = Some "ecor" /\ con_celda columnas_ecor d)
  \/ (tipo_solicitud d = Some "reembolso" /\ con_celda columnas_reembolsos d)
  \/ (tipo_solicitud d = Some "emergencia" /\ con_celda columnas_emergencias d).

(** A computation that leaves a part of the state as it found it, whatever
    it returns or throws. *)
Definition keeps {S A X} (part : S -> X) (p : Proc S A) : Prop :=
  forall s, part (p s).2 = part s.

(** The tables behind the store, without the requests that are going to
    fail. *)
Definition tablas (db : Supabase.Database)
  : list Solicitud * list (string * string) * Z * (list Solicitud -> Solicitud -> bool) :=
  (Supabase.tabla_solicitudes db, Supabase.tabla_configuracion db, Supabase.id_seq db,
   Supabase.admite db).

End Report.

(** ** [index.js]: the endpoint of the scheduled report *)
Module Server.
Import Database Report.

(** [req.query.secret]: absent, a text, or something else (an array or an
    object, for a query such as [?secret[]=x]). *)
Inductive QueryValue :=
| Absent
| Texto (s : string)
| Otro.

(** [secret !== process.env.CRON_SECRET]; the variable is a text or
    [undefined]. *)
Definition distinto (secret : QueryValue) (CRON_SECRET : option string) : bool :=
  match secret, CRON_SECRET with
  | Absent, None => false
  | Texto s, Some c => bool_decide (s <> c)
  | _, _ => true
  end.

(** [res.status(code).send(body)] *)
Record Respuesta := { status : Z; body : string }.

(** The handler of [GET /trigger-report]: the response, and the state once
    the work started in the background is over. [ahora] is the Date
    [getReportDateString] builds from the wall clock of Caracas, [reloj] the
    clock when the workbook is created. *)
Definition trigger_report (h : Host) (B : Backend) (LocalTZA : Z)
    (CRON_SECRET : option string) (ahora : Date) (reloj : Z) (secret : QueryValue)
  : estado B * World -> Respuesta * (estado B * World) :=
  fun s =>
    if distinto secret CRON_SECRET
    then ({| status := 401; body := "Clave secreta no válida." |}, s)
    else
      ({| status := 202;
          body := "Tarea de reporte aceptada. Se ejecutará en segundo plano." |},
       (ptry
          (let fechaString := Index.getReportDateString LocalTZA ahora in
           generateAndEmailReport h B reloj fechaString)
          (fun error => mret tt) s).2).

End Server.

(** ** A host and a world to run the reports in *)
Module Muestras.
Import Report.

(** A host whose paths hold no [.] or [..] segment, with a Caracas-style
    date rendering left as the text it is given. *)
Definition anfitrion : Host :=
  {| dirname := "/app";
     path_join := fun dir file => dir +:+ "/" +:+ file;
     path_basename := fun p => List.last (split "/" p) "";
     toLocaleDateString_esVE := fun s => s;
     REPORT_EMAIL_TO := Some "clinica@example.org" |}.

(** Nothing written, nothing sent, and the given calls about to fail. *)
Definition mundo (f : list (option Failure)) : World :=
  {| files := ∅; emails := []; chat := []; faults := f |}.

Definition sin_servicio : Failure := ServiceError "503".

(** A record with a type and nothing else. *)
Definition solo_tipo (tipo : string) : Solicitud :=
  {| id := None; tipo_solicitud := Some tipo; fecha_solicitud := None;
     cedula := None; numero_turno := None; nombre_paciente := None;
     apellido_paciente := None; tipo_consulta_detalle := None; nomina := None;
     gerencia := None; hora_solicitud := None; mensaje := None; created_at := None |}.

End Muestras.

(** ** Facts about the run time *)
Module JSFacts.
Lemma DayFromYear_step y : DayFromYear (y + 1) = DayFromYear y + DaysInYear y.
Proof.
  unfold DayFromYear, DaysInYear.
  repeat match goal with
         | |- context [ (?a =? ?b) ] => destruct (Z.eqb_spec a b)
         end; simpl negb; cbv iota;
    Z.to_euclidean_division_equations; lia.
Qed.

Lemma DaysInYear_cases y : DaysInYear y = 365 \/ DaysInYear y = 366.
Proof. unfold DaysInYear. repeat case_match; auto. Qed.

Lemma YearFromDay_spec y d :
  DayFromYear y <= d < DayFromYear (y + 1) -> YearFromDay d = y.
Proof.
  unfold YearFromDay, DayFromYear. intros H.
  repeat match goal with
         | |- context [ (?a <=? ?b) ] => destruct (Z.leb_spec a b)
         | |- context [ (?a <? ?b) ] => destruct (Z.ltb_spec a b)
         end;
    Z.to_euclidean_division_equations; lia.
Qed.

(** Every day lies in the year [YearFromDay] names. *)
Lemma YearFromDay_bounds d :
  DayFromYear (YearFromDay d) <= d < DayFromYear (YearFromDay d + 1).
Proof.
  unfold YearFromDay, DayFromYear.
  repeat match goal with
         | |- context [ (?a <=? ?b) ] => destruct (Z.leb_spec a b)
         | |- context [ (?a <? ?b) ] => destruct (Z.ltb_spec a b)
         end;
    Z.to_euclidean_division_equations; lia.
Qed.

Lemma DayWithinYear_bounds d : 0 <= DayWithinYear d < DaysInYear (YearFromDay d).
Proof.
  unfold DayWithinYear. pose proof (YearFromDay_bounds d) as H.
  rewrite DayFromYear_step in H. lia.
Qed.

Lemma MonthFromDay_bounds d : 0 <= MonthFromDay d <= 11.
Proof. unfold MonthFromDay. repeat case_match; lia. Qed.

(** [MakeDay] gives back the day whose year, month and date it is handed,
    moved by the shift applied to the date. *)
Lemma MakeDay_shift d k :
  MakeDay (YearFromDay d) (MonthFromDay d) (DateFromDay d - k) = d - k.
Proof.
  pose proof (MonthFromDay_bounds d) as Hm.
  unfold MakeDay.
  rewrite (Z.div_small (MonthFromDay d) 12), (Z.mod_small (MonthFromDay d) 12) by lia.
  rewrite Z.add_0_r. unfold DateFromDay, DayWithinYear, InLeapYear. lia.
Qed.

Lemma Day_shift t k : Day (t - k * msPerDay) = Day t - k.
Proof. unfold Day, msPerDay. Z.to_euclidean_division_equations; lia. Qed.

Lemma TimeWithinDay_shift t k : TimeWithinDay (t - k * msPerDay) = TimeWithinDay t.
Proof. unfold TimeWithinDay, msPerDay. Z.to_euclidean_division_equations; lia. Qed.

Lemma MakeDate_Day t : MakeDate (Day t) (TimeWithinDay t) = t.
Proof. unfold MakeDate, Day, TimeWithinDay, msPerDay. Z.to_euclidean_division_equations; lia. Qed.

Lemma setDate_shift tz t k :
  setDate tz (ValidDate t) (minus (getDate tz (ValidDate t)) (Num k))
  = mkDate (TimeClip (t - k * msPerDay)).
Proof.
  unfold setDate, getDate, minus, ValidDate; simpl.
  unfold YearFromTime, MonthFromTime, DateFromTime.
  rewrite MakeDay_shift. f_equal. f_equal.
  unfold MakeDate, UTC, LocalTime, Day, TimeWithinDay, msPerDay.
  Z.to_euclidean_division_equations; lia.
Qed.

Lemma WeekDay_shift d k : WeekDayOfDay (d - k) = (WeekDayOfDay d - k) mod 7.
Proof. unfold WeekDayOfDay. Z.to_euclidean_division_equations; lia. Qed.

(** A day of year [y], given by its position [w] in the year. *)
Lemma day_of_year y w :
  0 <= w < DaysInYear y ->
  YearFromDay (DayFromYear y + w) = y
  /\ DayWithinYear (DayFromYear y + w) = w
  /\ InLeapYear (DayFromYear y + w) = (if DaysInYear y =? 366 then 1 else 0).
Proof.
  intros Hw.
  assert (YearFromDay (DayFromYear y + w) = y) as Hy.
  { apply YearFromDay_spec. rewrite DayFromYear_step. lia. }
  unfold DayWithinYear, InLeapYear. rewrite Hy. repeat split; lia.
Qed.

Lemma is_leap_DaysInYear y : (DaysInYear y =? 366) = is_leap y.
Proof.
  unfold DaysInYear, is_leap.
  destruct (y mod 4 =? 0), (y mod 100 =? 0), (y mod 400 =? 0); reflexivity.
Qed.

Lemma MakeDay_last_day yr m :
  1 <= m <= 12 -> DateFromDay (MakeDay yr m 0) = days_in_month yr m.
Proof.
  intros Hm.
  assert (exists w, MakeDay yr m 0 = DayFromYear yr + w
                    /\ 0 <= w < DaysInYear yr
                    /\ w = (if Z.eq_dec m 12 then DaysInYear yr
                            else DaysBeforeMonth (if DaysInYear yr =? 366 then 1 else 0) m) - 1)
    as (w & -> & Hw & Hwm).
  { unfold MakeDay. destruct (Z.eq_dec m 12) as [->|Hne].
    - exists (DaysInYear yr - 1). change (12 / 12) with 1. change (12 mod 12) with 0.
      rewrite DayFromYear_step. simpl DaysBeforeMonth.
      destruct (DaysInYear_cases yr); repeat split; try lia.
    - rewrite (Z.div_small m 12), (Z.mod_small m 12), !Z.add_0_r by lia.
      exists (DaysBeforeMonth (if DaysInYear yr =? 366 then 1 else 0) m - 1).
      split; [lia|]. split; [|reflexivity].
      assert (m = 1 \/ m = 2 \/ m = 3 \/ m = 4 \/ m = 5 \/ m = 6 \/ m = 7 \/ m = 8
              \/ m = 9 \/ m = 10 \/ m = 11) as Hc by lia.
      destruct (DaysInYear_cases yr) as [E|E]; rewrite E;
        decompose [or] Hc; subst m; simpl; lia. }
  destruct (day_of_year yr w Hw) as (Hy & Hd & Hl).
  unfold DateFromDay, MonthFromDay. rewrite Hd, Hl. subst w.
  unfold days_in_month. rewrite <- is_leap_DaysInYear.
  assert (m = 1 \/ m = 2 \/ m = 3 \/ m = 4 \/ m = 5 \/ m = 6 \/ m = 7 \/ m = 8
          \/ m = 9 \/ m = 10 \/ m = 11 \/ m = 12) as Hc by lia.
  destruct (DaysInYear_cases yr) as [E|E]; rewrite E;
    decompose [or] Hc; subst m; reflexivity.
Qed.

(** The two-digit years of the Date constructor do not change the
    length of a month, except in year 0. *)
Lemma days_in_month_1900 y m :
  1 <= y <= 99 -> days_in_month (1900 + y) m = days_in_month y m.
Proof.
  intros Hy. unfold days_in_month, is_leap.
  replace ((1900 + y) mod 4) with (y mod 4) by (Z.to_euclidean_division_equations; lia).
  replace ((1900 + y) mod 100 =? 0) with false
    by (symmetry; apply Z.eqb_neq; Z.to_euclidean_division_equations; lia).
  replace (y mod 100 =? 0) with false
    by (symmetry; apply Z.eqb_neq; Z.to_euclidean_division_equations; lia).
  reflexivity.
Qed.

Lemma DayFromYear_range y : 0 <= y <= 9999 -> -719528 <= DayFromYear y <= 2932532.
Proof. unfold DayFromYear. Z.to_euclidean_division_equations; lia. Qed.

Lemma lastDay_of_month tz y m :
  1 <= y <= 9999 -> 1 <= m <= 12 -> Z.abs tz <= msPerDay ->
  getDate tz (newDate3 tz (Num y) (Num m) (Num 0)) = Num (days_in_month y m).
Proof.
  intros Hy Hm Htz. unfold newDate3.
  set (yr := if (0 <=? y) && (y <=? 99) then 1900 + y else y).
  assert (days_in_month yr m = days_in_month y m /\ 100 <= yr <= 9999) as [Hd Hyr].
  { subst yr. destruct (Z.leb_spec 0 y); destruct (Z.leb_spec y 99); simpl;
      try (split; [reflexivity|lia]); try lia.
    split; [apply days_in_month_1900|]; lia. }
  assert (-719600 <= MakeDay yr m 0 <= 2933000) as Hr.
  { unfold MakeDay.
    assert (0 <= yr + m / 12 <= 9999 \/ yr + m / 12 = 10000) as [H|H]
      by (Z.to_euclidean_division_equations; lia).
    - pose proof (DayFromYear_range _ H).
      assert (0 <= DaysBeforeMonth (if DaysInYear (yr + m / 12) =? 366 then 1 else 0) (m mod 12) <= 335).
      { assert (0 <= m mod 12 < 12) as Hmm by (apply Z.mod_pos_bound; lia).
        assert (m mod 12 = 0 \/ m mod 12 = 1 \/ m mod 12 = 2 \/ m mod 12 = 3 \/ m mod 12 = 4 \/ m mod 12 = 5 \/ m mod 12 = 6 \/ m mod 12 = 7 \/ m mod 12 = 8 \/ m mod 12 = 9 \/ m mod 12 = 10 \/ m mod 12 = 11) as Hc by lia.
        destruct (_ =? 366); decompose [or] Hc; clear Hc;
          match goal with E : m mod 12 = _ |- _ => rewrite E end; simpl; lia. }
      lia.
    - assert (m = 12) as -> by (Z.to_euclidean_division_equations; lia).
      rewrite H. vm_compute. split; discriminate. }
  unfold getDate, TimeClip, MakeDate, UTC. simpl DateValue.
  destruct (Z.leb_spec (Z.abs (MakeDay yr m 0 * msPerDay + 0 - tz)) maxTime) as [_|Hbad].
  - simpl. f_equal. unfold DateFromTime, LocalTime.
    replace (Day (MakeDay yr m 0 * msPerDay + 0 - tz + tz)) with (MakeDay yr m 0)
      by (unfold Day, msPerDay; Z.to_euclidean_division_equations; lia).
    rewrite MakeDay_last_day by lia. exact Hd.
  - exfalso. unfold msPerDay, maxTime in *. lia.
Qed.

Ltac digit_cases x :=
  let H := fresh in
  assert (x = 0 \/ x = 1 \/ x = 2 \/ x = 3 \/ x = 4 \/ x = 5 \/ x = 6 \/ x = 7
          \/ x = 8 \/ x = 9) as H by lia;
  decompose [or] H; clear H; subst x.

Lemma digit_compare x y :
  0 <= x <= 9 -> 0 <= y <= 9 -> Ascii.compare (digit x) (digit y) = (x ?= y).
Proof. intros Hx Hy. digit_cases x; digit_cases y; reflexivity. Qed.

Lemma digit_code x : 0 <= x <= 9 -> Z.of_N (N_of_ascii (digit x)) = 48 + x.
Proof. intros Hx. digit_cases x; reflexivity. Qed.

Lemma digit_is_digit x : is_digit (digit x) = true.
Proof. unfold digit, pretty_N_char. repeat case_match; reflexivity. Qed.

Lemma digit_not_dash x : digit x <> "-"%char.
Proof. unfold digit, pretty_N_char. repeat case_match; discriminate. Qed.

Lemma digit_not_T x : digit x <> "T"%char.
Proof. unfold digit, pretty_N_char. repeat case_match; discriminate. Qed.

Lemma mod10_range n : 0 <= n mod 10 <= 9.
Proof. pose proof (Z.mod_pos_bound n 10). lia. Qed.

Lemma app_cons c (s1 s2 : string) : String c s1 +:+ s2 = String c (s1 +:+ s2).
Proof. reflexivity. Qed.

Lemma app_empty (s : string) : "" +:+ s = s.
Proof. reflexivity. Qed.

Lemma chars_of_app s1 s2 : chars_of (s1 +:+ s2) = chars_of s1 ++ chars_of s2.
Proof.
  induction s1 as [|c s1 IH]; [reflexivity|].
  rewrite app_cons. simpl. by rewrite IH.
Qed.

Lemma fixed_digits_without sep w n :
  (forall x, digit x <> sep) -> Forall (fun c => c <> sep) (chars_of (fixed_digits w n)).
Proof. intros Hd. induction w; simpl; constructor; auto. Qed.

Lemma split_nonempty sep s : split sep s <> [].
Proof. destruct s; simpl; [done|]. repeat case_match; done. Qed.

(** Up to the first separator, [split] returns the text before it. *)
Lemma split_app sep a b :
  Forall (fun c => c <> sep) (chars_of a) ->
  split sep (a +:+ String sep b) = a :: split sep b.
Proof.
  induction a as [|c a IH]; intros Hn.
  - rewrite app_empty. simpl. by rewrite decide_True.
  - rewrite app_cons. simpl in *. apply Forall_cons in Hn as [Hc Hn].
    rewrite decide_False by done. by rewrite IH.
Qed.

Lemma split_none sep a : Forall (fun c => c <> sep) (chars_of a) -> split sep a = [a].
Proof.
  induction a as [|c a IH]; simpl; intros Hn; [done|].
  apply Forall_cons in Hn as [Hc Hn].
  rewrite decide_False by done. by rewrite IH.
Qed.

Lemma string_app_assoc (a b c : string) : (a +:+ b) +:+ c = a +:+ (b +:+ c).
Proof.
  induction a as [|x a IH]; [reflexivity|].
  rewrite !app_cons. f_equal. exact IH.
Qed.

Lemma ISODate_chars t : Forall (fun c => c <> "T"%char) (chars_of (ISODate t)).
Proof.
  unfold ISODate, ISOYear. rewrite !chars_of_app.
  repeat first [apply Forall_app; split | apply Forall_cons; split | apply Forall_nil ];
    try discriminate; try apply digit_not_T; try done.
  case_match.
  - apply fixed_digits_without, digit_not_T.
  - cbn [chars_of]. apply Forall_cons; split; [by case_match|].
    apply fixed_digits_without, digit_not_T.
Qed.

(** [fecha.toISOString().split('T')[0]] is the UTC calendar date. *)
Lemma split_T_ISO t rest : item0 (split "T" (ISODate t +:+ "T" +:+ rest)) = ISODate t.
Proof. change ("T" +:+ rest) with (String "T" rest). by rewrite split_app by apply ISODate_chars. Qed.

(** Lexicographic order on fixed-width numbers is numeric order. *)
Lemma compare_fixed_digits w a b s1 s2 :
  String.compare (fixed_digits w a +:+ s1) (fixed_digits w b +:+ s2)
  = match a mod 10 ^ Z.of_nat w ?= b mod 10 ^ Z.of_nat w with
    | Eq => String.compare s1 s2
    | c => c
    end.
Proof.
  induction w as [|w IH].
  - cbn [fixed_digits]. rewrite !app_empty. by rewrite !Z.mod_1_r.
  - cbn [fixed_digits]. rewrite !app_cons. cbn [String.compare].
    rewrite digit_compare by apply mod10_range.
    rewrite Nat2Z.inj_succ, Z.pow_succ_r by lia.
    set (p := 10 ^ Z.of_nat w) in *.
    assert (0 < p) as Hp by (subst p; apply Z.pow_pos_nonneg; lia).
    rewrite (Z.mul_comm 10 p), !Z.rem_mul_r by lia.
    pose proof (Z.mod_pos_bound a p Hp). pose proof (Z.mod_pos_bound b p Hp).
    pose proof (mod10_range (a / p)). pose proof (mod10_range (b / p)).
    rewrite IH.
    destruct (Z.compare_spec ((a / p) mod 10) ((b / p) mod 10)) as [E|E|E].
    + rewrite E, (Z.add_comm (a mod p)), (Z.add_comm (b mod p)), Z.add_compare_mono_l.
      reflexivity.
    + replace (_ + _ ?= _ + _) with Lt; [reflexivity|].
      symmetry. apply Z.compare_lt_iff. nia.
    + replace (_ + _ ?= _ + _) with Gt; [reflexivity|].
      symmetry. apply Z.compare_gt_iff. nia.
Qed.

Lemma digits_value_fixed w n acc :
  digits_value acc (fixed_digits w n) = Some (acc * 10 ^ Z.of_nat w + n mod 10 ^ Z.of_nat w).
Proof.
  revert acc. induction w as [|w IH]; intros acc.
  - simpl. rewrite Z.mod_1_r. f_equal. lia.
  - cbn [fixed_digits digits_value]. rewrite digit_is_digit, digit_code by apply mod10_range.
    rewrite IH. f_equal.
    rewrite Nat2Z.inj_succ, Z.pow_succ_r by lia.
    set (p := 10 ^ Z.of_nat w) in *.
    assert (0 < p) as Hp by (subst p; apply Z.pow_pos_nonneg; lia).
    rewrite (Z.mul_comm 10 p), Z.rem_mul_r by lia. lia.
Qed.

Lemma ToNumber_fixed w n :
  0 <= n < 10 ^ Z.of_nat w -> ToNumber (Some (fixed_digits w n)) = Num n.
Proof.
  intros Hn. unfold ToNumber. rewrite digits_value_fixed. f_equal.
  rewrite Z.mod_small by lia. lia.
Qed.

(** Checking a decidable property on every number of an interval. *)
Lemma forall_interval (P : Z -> Prop) `{!forall n, Decision (P n)} lo len :
  bool_decide (Forall P (seqZ lo len)) = true ->
  forall n, lo <= n < lo + len -> P n.
Proof.
  intros Hall%bool_decide_eq_true n Hn.
  rewrite Forall_forall in Hall. apply Hall, elem_of_seqZ. lia.
Qed.


(** A year of four digits is written with its four digits. *)
Lemma ToString_four_digits y :
  1000 <= y <= 9999 -> ToString (Num y) = fixed_digits 4 y.
Proof.
  intros H.
  apply (forall_interval (fun y => ToString (Num y) = fixed_digits 4 y) 1000 9000);
    [vm_compute; reflexivity | lia].
Qed.

Lemma ToString_two_digits d :
  10 <= d <= 99 -> ToString (Num d) = fixed_digits 2 d.
Proof.
  intros H.
  apply (forall_interval (fun d => ToString (Num d) = fixed_digits 2 d) 10 90);
    [vm_compute; reflexivity | lia].
Qed.

End JSFacts.

Import JSFacts.

(** ** Facts about the in-memory store *)
Module MockFacts.

Lemma toISOString_valid t :
  toISOString (ValidDate t) = Return (ISODate t +:+ "T" +:+ ISOTime t).
Proof. reflexivity. Qed.

Lemma Mock_getSiguienteNumeroTurno_valid st prefijo t :
  Mock.getSiguienteNumeroTurno st prefijo (ValidDate t)
  = Return (Some (prefijo +:+ "-" +:+ padStart 3 "0" (ToString (Num
      (Z.of_nat (countMatching (family prefijo) (ISODate t) (Mock.solicitudes st)) + 1))))).
Proof.
  unfold Mock.getSiguienteNumeroTurno. rewrite toISOString_valid. simpl.
  rewrite split_T_ISO. unfold countMatching, family.
  erewrite list_filter_iff; [reflexivity|]. intros s; simpl; tauto.
Qed.

Lemma Mock_getCuposDisponibles_valid tz st tipo t :
  Mock.getCuposDisponibles tz st tipo (ValidDate t)
  = Return (Num (Mock.limite (claveLimite tz tipo (ValidDate t))
                 - Z.of_nat (countMatching (tipoQuery tipo) (ISODate t) (Mock.solicitudes st)))).
Proof.
  unfold Mock.getCuposDisponibles. rewrite toISOString_valid. simpl.
  rewrite split_T_ISO. reflexivity.
Qed.

Lemma Mock_checkExistingAppointment_valid st c t :
  Mock.checkExistingAppointment st c (ValidDate t)
  = Return (bool_decide (existsForPatientOnDate c (ISODate t) ["consulta"; "ecor"]
                           (Mock.solicitudes st))).
Proof.
  unfold Mock.checkExistingAppointment. rewrite toISOString_valid. simpl.
  rewrite split_T_ISO. f_equal. apply bool_decide_ext.
  unfold existsForPatientOnDate. rewrite Exists_exists. split.
  - intros [[i s] Hf]. apply list_find_Some in Hf as (Hl & HP & _).
    exists s. split; [|done]. apply list_elem_of_lookup; eauto.
  - intros (s & Hin & HP).
    destruct (list_find _ (Mock.solicitudes st)) eqn:Hf; [eauto|].
    rewrite list_find_None, Forall_forall in Hf. by destruct (Hf s Hin).
Qed.

End MockFacts.

Import MockFacts.

(** ** Facts about the Supabase-backed store *)
Module DurableFacts.

Import Supabase.

Lemma mismas_tablas_refl db : mismas_tablas db db.
Proof. by repeat split. Qed.

Lemma mismas_tablas_con_fallos db f : mismas_tablas db (con_fallos db f).
Proof. by repeat split. Qed.

Lemma con_fallos_same db : con_fallos db (fallos db) = db.
Proof. by destruct db. Qed.

(** A request that is not going to fail is answered from the tables. *)
Lemma request_sin_fallos {A} (answer : Database -> Response A * Database) db :
  sin_fallos db ->
  request answer db = answer (con_fallos db (tail (fallos db)))
  /\ sin_fallos (con_fallos db (tail (fallos db))).
Proof.
  unfold sin_fallos, request. intros H.
  destruct (fallos db) as [|[e|] rest] eqn:E; simpl.
  - rewrite <- E, con_fallos_same. split; [done|]. by rewrite E.
  - apply Forall_cons in H as [[=] _].
  - apply Forall_cons in H as [_ H]. done.
Qed.

(** A request that is going to fail resolves to the error. *)
Lemma request_fallo {A} (answer : Database -> Response A * Database) db e rest :
  fallos db = Some e :: rest ->
  request answer db = (Error e, con_fallos db rest).
Proof. unfold request. by intros ->. Qed.

Ltac unfold_query :=
  unfold qtry, mbind, query_bind, qbind, mret, query_ret, qret, await, qlift.

Ltac solve_request_ok Hok :=
  match goal with
  | |- exists db', request ?answer ?db = _ /\ _ =>
      destruct (request_sin_fallos answer db Hok) as [-> ?];
      eexists; split; [reflexivity|]; split;
      [apply mismas_tablas_con_fallos | assumption]
  end.

Lemma select_valor_single_ok clave db :
  sin_fallos db ->
  exists db', select_valor_single clave db = (single (valores clave db), db')
              /\ mismas_tablas db db' /\ sin_fallos db'.
Proof. intros Hok. unfold select_valor_single. solve_request_ok Hok. Qed.

Lemma count_tipo_fecha_ok tipos fecha db :
  sin_fallos db ->
  exists db', count_tipo_fecha tipos fecha db
              = (Data (Some (Z.of_nat (countMatching tipos fecha (tabla_solicitudes db)))), db')
              /\ mismas_tablas db db' /\ sin_fallos db'.
Proof. intros Hok. unfold count_tipo_fecha. solve_request_ok Hok. Qed.

Lemma select_fecha_ok fecha db :
  sin_fallos db ->
  exists db', select_fecha fecha db
              = (Data (filter (fun s => fecha_solicitud s = Some fecha) (tabla_solicitudes db)), db')
              /\ mismas_tablas db db' /\ sin_fallos db'.
Proof. intros Hok. unfold select_fecha. solve_request_ok Hok. Qed.

Lemma select_rango_ok desde hasta db :
  sin_fallos db ->
  exists db', select_rango desde hasta db
              = (Data (filter (fun s => ge_string (fecha_solicitud s) desde
                                        && le_string (fecha_solicitud s) hasta)
                              (tabla_solicitudes db)), db')
              /\ mismas_tablas db db' /\ sin_fallos db'.
Proof. intros Hok. unfold select_rango. solve_request_ok Hok. Qed.

Lemma select_id_maybeSingle_ok c f tipos db :
  sin_fallos db ->
  exists db', select_id_maybeSingle c f tipos db
              = (maybeSingle (id <$> filter (fun s => cedula s = Some c
                                                      /\ fecha_solicitud s = Some f
                                                      /\ includes tipos (tipo_solicitud s))
                                            (tabla_solicitudes db)), db')
              /\ mismas_tablas db db' /\ sin_fallos db'.
Proof. intros Hok. unfold select_id_maybeSingle. solve_request_ok Hok. Qed.

(** *** The functions of [database.js] when no request fails *)

Lemma Durable_getSiguienteNumeroTurno_ok prefijo t db :
  sin_fallos db ->
  (Durable.getSiguienteNumeroTurno prefijo (ValidDate t) db).1
  = Return (Some (prefijo +:+ "-" +:+ padStart 3 "0" (ToString (Num
      (Z.of_nat (countMatching (family prefijo) (ISODate t) (tabla_solicitudes db)) + 1))))).
Proof.
  intros Hok. unfold Durable.getSiguienteNumeroTurno. unfold_query.
  rewrite toISOString_valid, split_T_ISO.
  destruct (count_tipo_fecha_ok (family prefijo) (ISODate t) db Hok) as (db' & E & _).
  unfold family in E. rewrite E. reflexivity.
Qed.

Lemma Durable_getCuposDisponibles_ok tz tipo t db :
  sin_fallos db ->
  (Durable.getCuposDisponibles tz tipo (ValidDate t) db).1
  = match single (valores (claveLimite tz tipo (ValidDate t)) db) with
    | Data valor =>
        Return (minus (parseInt10 valor)
                      (Num (Z.of_nat (countMatching (tipoQuery tipo) (ISODate t)
                                                    (tabla_solicitudes db)))))
    | Error _ => Return (Num 0)
    end.
Proof.
  intros Hok. unfold Durable.getCuposDisponibles. unfold_query.
  destruct (select_valor_single_ok (claveLimite tz tipo (ValidDate t)) db Hok)
    as (db1 & E1 & Ht & Hok1).
  unfold claveLimite in E1 |- *. rewrite E1.
  destruct (single _) as [valor|e]; [|reflexivity].
  rewrite toISOString_valid, split_T_ISO.
  destruct (count_tipo_fecha_ok (tipoQuery tipo) (ISODate t) db1 Hok1) as (db2 & E2 & _).
  unfold tipoQuery in E2 |- *. rewrite E2. simpl.
  destruct Ht as (-> & _). reflexivity.
Qed.

Lemma Durable_checkExistingAppointment_ok c t db :
  sin_fallos db ->
  (Durable.checkExistingAppointment c (ValidDate t) db).1
  = match maybeSingle (id <$> filter (fun s => cedula s = Some c
                                               /\ fecha_solicitud s = Some (ISODate t)
                                               /\ includes ["consulta"; "ecor"] (tipo_solicitud s))
                                     (tabla_solicitudes db)) with
    | Data data => Return (bool_decide (is_Some data))
    | Error _ => Return false
    end.
Proof.
  intros Hok. unfold Durable.checkExistingAppointment. unfold_query.
  rewrite toISOString_valid, split_T_ISO.
  destruct (select_id_maybeSingle_ok c (ISODate t) ["consulta"; "ecor"] db Hok)
    as (db' & -> & _).
  by destruct (maybeSingle _).
Qed.

Lemma Durable_getDatosReporteDiario_ok fecha db :
  sin_fallos db ->
  (Durable.getDatosReporteDiario fecha db).1
  = Return (filter (fun s => fecha_solicitud s = Some fecha) (tabla_solicitudes db)).
Proof.
  intros Hok. unfold Durable.getDatosReporteDiario. unfold_query.
  by destruct (select_fecha_ok fecha db Hok) as (db' & -> & _).
Qed.

(** *** The functions of [database.js] when the request fails *)

Lemma Durable_getCuposDisponibles_fallo tz tipo fecha db e rest :
  fallos db = Some e :: rest ->
  (Durable.getCuposDisponibles tz tipo fecha db).1 = Return (Num 0).
Proof.
  intros Hf. unfold Durable.getCuposDisponibles. unfold_query.
  unfold select_valor_single. by rewrite (request_fallo _ _ _ _ Hf).
Qed.

Lemma Durable_checkExistingAppointment_fallo c fecha db e rest :
  fallos db = Some e :: rest ->
  (Durable.checkExistingAppointment c fecha db).1 = Return false.
Proof.
  intros Hf. unfold Durable.checkExistingAppointment. unfold_query.
  destruct (toISOString fecha); [|reflexivity].
  unfold select_id_maybeSingle. by rewrite (request_fallo _ _ _ _ Hf).
Qed.

Lemma Durable_getSiguienteNumeroTurno_fallo prefijo fecha db e rest :
  fallos db = Some e :: rest ->
  (Durable.getSiguienteNumeroTurno prefijo fecha db).1 = Return None.
Proof.
  intros Hf. unfold Durable.getSiguienteNumeroTurno. unfold_query.
  destruct (toISOString fecha); [|reflexivity].
  unfold count_tipo_fecha. by rewrite (request_fallo _ _ _ _ Hf).
Qed.

Lemma Durable_crearSolicitud_fallo ahora datos db e rest :
  fallos db = Some e :: rest ->
  Durable.crearSolicitud ahora datos db = (Return None, con_fallos db rest).
Proof.
  intros Hf. unfold Durable.crearSolicitud. unfold_query.
  unfold insert_single. by rewrite (request_fallo _ _ _ _ Hf).
Qed.

Lemma Durable_getDatosReporteDiario_fallo fecha db e rest :
  fallos db = Some e :: rest ->
  (Durable.getDatosReporteDiario fecha db).1 = Return [].
Proof.
  intros Hf. unfold Durable.getDatosReporteDiario. unfold_query.
  unfold select_fecha. by rewrite (request_fallo _ _ _ _ Hf).
Qed.

(** *** The functions of [database.js], whatever requests fail *)

Lemma request_eq {A} (answer : Database -> Response A * Database) db :
  request answer db
  = match (siguiente (fallos db)).1 with
    | Some e => (Error e, con_fallos db (siguiente (fallos db)).2)
    | None => answer (con_fallos db (siguiente (fallos db)).2)
    end.
Proof.
  unfold request. destruct (fallos db) as [|[e|] rest] eqn:E; simpl; try reflexivity.
  by rewrite <- E, con_fallos_same.
Qed.

Lemma Durable_getSiguienteNumeroTurno_eq prefijo t db :
  (Durable.getSiguienteNumeroTurno prefijo (ValidDate t) db).1
  = match (siguiente (fallos db)).1 with
    | Some _ => Return None
    | None =>
        Return (Some (prefijo +:+ "-" +:+ padStart 3 "0" (ToString (Num
          (Z.of_nat (countMatching (family prefijo) (ISODate t) (tabla_solicitudes db)) + 1)))))
    end.
Proof.
  unfold Durable.getSiguienteNumeroTurno. unfold_query.
  rewrite toISOString_valid, split_T_ISO. unfold count_tipo_fecha.
  rewrite request_eq. by destruct (siguiente (fallos db)).1.
Qed.

Lemma Durable_getCuposDisponibles_eq tz tipo t db :
  (Durable.getCuposDisponibles tz tipo (ValidDate t) db).1
  = match (siguiente (fallos db)).1, single (valores (claveLimite tz tipo (ValidDate t)) db),
          (siguiente (siguiente (fallos db)).2).1 with
    | None, Data valor, None =>
        Return (minus (parseInt10 valor)
                      (Num (Z.of_nat (countMatching (tipoQuery tipo) (ISODate t)
                                                    (tabla_solicitudes db)))))
    | _, _, _ => Return (Num 0)
    end.
Proof.
  unfold Durable.getCuposDisponibles. unfold_query.
  unfold select_valor_single. rewrite request_eq.
  destruct (siguiente (fallos db)).1; [reflexivity|].
  fold (claveLimite tz tipo (ValidDate t)). cbn [tabla_configuracion con_fallos].
  fold (valores (claveLimite tz tipo (ValidDate t)) db).
  destruct (single _) as [valor|e]; [|reflexivity].
  rewrite toISOString_valid, split_T_ISO. unfold count_tipo_fecha. rewrite request_eq.
  cbn [fallos con_fallos]. by destruct (siguiente _).1.
Qed.

Lemma Durable_checkExistingAppointment_eq c t db :
  (Durable.checkExistingAppointment c (ValidDate t) db).1
  = match (siguiente (fallos db)).1,
          maybeSingle (id <$> filter (fun s => cedula s = Some c
                                               /\ fecha_solicitud s = Some (ISODate t)
                                               /\ includes ["consulta"; "ecor"] (tipo_solicitud s))
                                     (tabla_solicitudes db)) with
    | None, Data data => Return (bool_decide (is_Some data))
    | _, _ => Return false
    end.
Proof.
  unfold Durable.checkExistingAppointment. unfold_query.
  rewrite toISOString_valid, split_T_ISO. unfold select_id_maybeSingle.
  rewrite request_eq. destruct (siguiente (fallos db)).1; [reflexivity|].
  cbn [tabla_solicitudes con_fallos]. by destruct (maybeSingle _).
Qed.

(** On an Invalid Date every function of [database.js] that takes a Date
    returns its fallback. *)
Lemma Durable_invalid tz tipo prefijo c db :
  (Durable.getCuposDisponibles tz tipo InvalidDate db).1 = Return (Num 0)
  /\ (Durable.getSiguienteNumeroTurno prefijo InvalidDate db).1 = Return None
  /\ (Durable.checkExistingAppointment c InvalidDate db).1 = Return false.
Proof.
  split; [|split; reflexivity].
  unfold Durable.getCuposDisponibles. unfold_query. unfold select_valor_single.
  rewrite request_eq. destruct (siguiente (fallos db)).1; [reflexivity|].
  by destruct (single _).
Qed.

End DurableFacts.

Import DurableFacts.

(** ** Facts about month boundaries *)
Module MonthFacts.

Lemma app_empty_r (s : string) : s +:+ "" = s.
Proof. induction s as [|c s IH]; [reflexivity|]. rewrite app_cons. by rewrite IH. Qed.

Lemma compare_fixed_digits_end w a b :
  String.compare (fixed_digits w a) (fixed_digits w b)
  = (a mod 10 ^ Z.of_nat w ?= b mod 10 ^ Z.of_nat w).
Proof.
  rewrite <- (app_empty_r (fixed_digits w a)), <- (app_empty_r (fixed_digits w b)).
  rewrite compare_fixed_digits. by destruct (_ ?= _).
Qed.

Lemma year_month_day_eq y m d :
  year_month_day y m d
  = fixed_digits 4 y +:+ String "-" (fixed_digits 2 m +:+ String "-" (fixed_digits 2 d)).
Proof. reflexivity. Qed.

Lemma compare_dash s1 s2 :
  String.compare (String "-" s1) (String "-" s2) = String.compare s1 s2.
Proof. reflexivity. Qed.

(** Dates written [YYYY-MM-DD] compare as text the way they compare as
    dates. *)
Lemma compare_year_month_day y1 m1 d1 y2 m2 d2 :
  0 <= y1 <= 9999 -> 0 <= m1 <= 99 -> 0 <= d1 <= 99 ->
  0 <= y2 <= 9999 -> 0 <= m2 <= 99 -> 0 <= d2 <= 99 ->
  String.compare (year_month_day y1 m1 d1) (year_month_day y2 m2 d2)
  = match y1 ?= y2 with
    | Eq => match m1 ?= m2 with
            | Eq => d1 ?= d2
            | c => c
            end
    | c => c
    end.
Proof.
  intros. rewrite !year_month_day_eq.
  rewrite compare_fixed_digits, compare_dash, compare_fixed_digits, compare_dash.
  rewrite compare_fixed_digits_end.
  change (10 ^ Z.of_nat 4) with 10000. change (10 ^ Z.of_nat 2) with 100.
  rewrite !Z.mod_small by lia. reflexivity.
Qed.

Lemma leb_year_month_day y1 m1 d1 y2 m2 d2 :
  0 <= y1 <= 9999 -> 0 <= m1 <= 99 -> 0 <= d1 <= 99 ->
  0 <= y2 <= 9999 -> 0 <= m2 <= 99 -> 0 <= d2 <= 99 ->
  String.leb (year_month_day y1 m1 d1) (year_month_day y2 m2 d2) = true
  <-> y1 < y2 \/ (y1 = y2 /\ (m1 < m2 \/ (m1 = m2 /\ d1 <= d2))).
Proof.
  intros. unfold String.leb. rewrite compare_year_month_day by assumption.
  destruct (Z.compare_spec y1 y2), (Z.compare_spec m1 m2), (Z.compare_spec d1 d2);
    split; intros; try discriminate; try reflexivity; lia.
Qed.

(** A well-formed date lies in the text range of a month exactly when it is
    a day of that month. *)
Lemma month_range y m last y' m' d' :
  0 <= y <= 9999 -> 0 <= m <= 99 -> 0 <= last <= 99 ->
  0 <= y' <= 9999 -> 0 <= m' <= 99 -> 0 <= d' <= 99 ->
  ge_string (Some (year_month_day y' m' d')) (year_month_day y m 1)
  && le_string (Some (year_month_day y' m' d')) (year_month_day y m last) = true
  <-> y' = y /\ m' = m /\ 1 <= d' <= last.
Proof.
  intros. unfold ge_string, le_string.
  rewrite andb_true_iff, !leb_year_month_day by (assumption || lia). lia.
Qed.

Lemma days_in_month_range y m : 28 <= days_in_month y m <= 31.
Proof. unfold days_in_month. repeat case_match; lia. Qed.

Lemma split_year_month y m :
  split "-" (year_month y m) = [fixed_digits 4 y; fixed_digits 2 m].
Proof.
  unfold year_month. change ("-" +:+ ?s) with (String "-" s).
  rewrite split_app by apply fixed_digits_without, digit_not_dash.
  by rewrite split_none by apply fixed_digits_without, digit_not_dash.
Qed.

(** The two ends of the range [getDatosReporteMensual] filters on. *)
Lemma month_ends tz y m :
  1 <= y <= 9999 -> 1 <= m <= 12 -> Z.abs tz <= msPerDay ->
  let partes := split "-" (year_month y m) in
  year_month y m +:+ "-01" = year_month_day y m 1
  /\ year_month y m +:+ "-" +:+
       ToString (getDate tz (newDate3 tz (ToNumber (partes !! 0%nat))
                                      (ToNumber (partes !! 1%nat)) (Num 0)))
     = year_month_day y m (days_in_month y m).
Proof.
  intros Hy Hm Htz. cbv zeta. rewrite split_year_month. cbn [lookup list_lookup].
  rewrite (ToNumber_fixed 4), (ToNumber_fixed 2) by (simpl; lia).
  rewrite lastDay_of_month by assumption.
  rewrite ToString_two_digits by (pose proof (days_in_month_range y m); lia).
  unfold year_month, year_month_day. rewrite !string_app_assoc. done.
Qed.

Lemma Mock_getDatosReporteMensual_month tz st y m :
  1 <= y <= 9999 -> 1 <= m <= 12 -> Z.abs tz <= msPerDay ->
  Mock.getDatosReporteMensual tz st (year_month y m)
  = Return (filter (fun s =>
              ge_string (fecha_solicitud s) (year_month_day y m 1)
              && le_string (fecha_solicitud s) (year_month_day y m (days_in_month y m)))
            (Mock.solicitudes st)).
Proof.
  intros Hy Hm Htz. destruct (month_ends tz y m Hy Hm Htz) as [E1 E2].
  unfold Mock.getDatosReporteMensual. cbv zeta. rewrite E1, E2. reflexivity.
Qed.

Lemma Durable_getDatosReporteMensual_month tz db y m :
  1 <= y <= 9999 -> 1 <= m <= 12 -> Z.abs tz <= msPerDay ->
  sin_fallos db ->
  (Durable.getDatosReporteMensual tz (year_month y m) db).1
  = Return (filter (fun s =>
              ge_string (fecha_solicitud s) (year_month_day y m 1)
              && le_string (fecha_solicitud s) (year_month_day y m (days_in_month y m)))
            (Supabase.tabla_solicitudes db)).
Proof.
  intros Hy Hm Htz Hok. destruct (month_ends tz y m Hy Hm Htz) as [E1 E2].
  unfold Durable.getDatosReporteMensual. cbv zeta. rewrite E1, E2. unfold_query.
  by destruct (select_rango_ok (year_month_day y m 1)
                 (year_month_day y m (days_in_month y m)) db Hok) as (db' & -> & _).
Qed.

End MonthFacts.

Import MonthFacts.

(** ** Facts about the booking flow on the in-memory store *)
Module BookingFacts.

Import Database Allocation.

Local Arguments Mock.crearSolicitud : simpl never.
Local Arguments Mock.getCuposDisponibles : simpl never.
Local Arguments Mock.getSiguienteNumeroTurno : simpl never.
Local Arguments Mock.checkExistingAppointment : simpl never.
Local Arguments toISOString : simpl never.

Lemma countMatching_app tipos fecha l1 l2 :
  countMatching tipos fecha (l1 ++ l2)
  = (countMatching tipos fecha l1 + countMatching tipos fecha l2)%nat.
Proof. unfold countMatching. by rewrite filter_app, length_app. Qed.

Lemma countMatching_one tipos fecha s :
  countMatching tipos fecha [s]
  = if decide (includes tipos (tipo_solicitud s) /\ fecha_solicitud s = Some fecha)
    then 1%nat else 0%nat.
Proof.
  unfold countMatching. rewrite filter_cons, filter_nil. by case_decide.
Qed.

Lemma family_prefix r : r <> emergency -> family (prefix r) = tipoQuery (capacityType r).
Proof. by destruct r. Qed.


(** What [crearSolicitud] stores in memory. *)
Lemma Mock_crearSolicitud_stored st ahora datos :
  exists r,
    Mock.crearSolicitud st ahora datos
    = (Return (Some r),
       {| Mock.solicitudes := Mock.solicitudes st ++ [r];
          Mock.idCounter := Mock.idCounter st + 1 |})
    /\ is_Some (id r)
    /\ tipo_solicitud r = tipo_solicitud datos
    /\ fecha_solicitud r = fecha_solicitud datos
    /\ cedula r = cedula datos
    /\ numero_turno r = numero_turno datos.
Proof.
  unfold Mock.crearSolicitud. rewrite toISOString_valid.
  eexists. split; [reflexivity|]. simpl. repeat split.
  destruct (id datos); eauto.
Qed.

Section MockBooking.
Variable tz : Z.
Variables (ahora t : Z) (paciente : string) (campos : Solicitud).

Lemma mock_getCuposDisponibles tipo fecha st :
  getCuposDisponibles (mock tz) tipo fecha st
  = (Mock.getCuposDisponibles tz st tipo fecha, st).
Proof. reflexivity. Qed.

Lemma mock_getSiguienteNumeroTurno prefijo fecha st :
  getSiguienteNumeroTurno (mock tz) prefijo fecha st
  = (Mock.getSiguienteNumeroTurno st prefijo fecha, st).
Proof. reflexivity. Qed.

Lemma mock_checkExistingAppointment c fecha st :
  checkExistingAppointment (mock tz) c fecha st
  = (Mock.checkExistingAppointment st c fecha, st).
Proof. reflexivity. Qed.

Lemma mock_insertar r st :
  exists x,
    insertar (mock tz) ahora r st
    = (inl x, {| Mock.solicitudes := Mock.solicitudes st ++ [x];
                 Mock.idCounter := Mock.idCounter st + 1 |})
    /\ is_Some (id x)
    /\ tipo_solicitud x = tipo_solicitud r
    /\ fecha_solicitud x = fecha_solicitud r
    /\ cedula x = cedula r
    /\ numero_turno x = numero_turno r.
Proof.
  destruct (Mock_crearSolicitud_stored st ahora r) as (x & E & H).
  exists x. split; [|exact H]. unfold insertar.
  change (crearSolicitud (mock tz) ahora r st) with (Mock.crearSolicitud st ahora r).
  by rewrite E.
Qed.

(** An emergency is always stored, without a ticket. *)
Lemma bookSlot_mock_emergency st :
  exists r,
    bookSlot (mock tz) ahora emergency (ValidDate t) paciente campos st
    = (inl r, {| Mock.solicitudes := Mock.solicitudes st ++ [r];
                 Mock.idCounter := Mock.idCounter st + 1 |})
    /\ tipo_solicitud r = Some "emergencia"
    /\ numero_turno r = None.
Proof.
  unfold bookSlot. rewrite toISOString_valid, split_T_ISO.
  destruct (mock_insertar (con_reserva campos (tipo_de emergency) (ISODate t) paciente None) st)
    as (r & -> & _ & Ht & _ & _ & Hn).
  exists r. by repeat split.
Qed.


(** Past the duplicate guard, the flow reads the capacity. *)
Lemma bookSlot_mock_unguarded st r :
  unguarded paciente (ISODate t) r (Mock.solicitudes st) ->
  bookSlot (mock tz) ahora r (ValidDate t) paciente campos st
  = if remaining tz t r (Mock.solicitudes st) <=? 0 then (inr CapacityExceededError, st)
    else insertar (mock tz) ahora
           (con_reserva campos (tipo_de r) (ISODate t) paciente
              (Some (ticket (prefix r)
                 (Z.of_nat (countMatching (family (prefix r)) (ISODate t)
                                          (Mock.solicitudes st)) + 1)))) st.
Proof.
  intros Hg. unfold bookSlot, remaining, ticket. rewrite toISOString_valid, split_T_ISO.
  assert (r <> emergency) as Hr by (destruct Hg as [->|[[->| ->] _]]; done).
  rewrite (family_prefix r Hr).
  destruct Hg as [->|[[->| ->] Hno]];
    rewrite ?mock_checkExistingAppointment, ?Mock_checkExistingAppointment_valid,
      ?bool_decide_eq_false_2 by done;
    rewrite mock_getCuposDisponibles, Mock_getCuposDisponibles_valid;
    (destruct (_ <=? 0); [reflexivity|]);
    rewrite mock_getSiguienteNumeroTurno, Mock_getSiguienteNumeroTurno_valid;
    reflexivity.
Qed.

Lemma bookSlot_mock_full st r :
  unguarded paciente (ISODate t) r (Mock.solicitudes st) -> remaining tz t r (Mock.solicitudes st) <= 0 ->
  bookSlot (mock tz) ahora r (ValidDate t) paciente campos st
  = (inr CapacityExceededError, st).
Proof.
  intros Hg Hfull. rewrite bookSlot_mock_unguarded by done.
  by destruct (Z.leb_spec (remaining tz t r (Mock.solicitudes st)) 0); [|lia].
Qed.

Lemma bookSlot_mock_success st r :
  unguarded paciente (ISODate t) r (Mock.solicitudes st) -> 0 < remaining tz t r (Mock.solicitudes st) ->
  exists x,
    bookSlot (mock tz) ahora r (ValidDate t) paciente campos st
    = (inl x, {| Mock.solicitudes := Mock.solicitudes st ++ [x];
                 Mock.idCounter := Mock.idCounter st + 1 |})
    /\ tipo_solicitud x = Some (tipo_de r)
    /\ fecha_solicitud x = Some (ISODate t)
    /\ cedula x = Some paciente
    /\ numero_turno x
       = Some (ticket (prefix r)
           (Z.of_nat (countMatching (family (prefix r)) (ISODate t) (Mock.solicitudes st)) + 1)).
Proof.
  intros Hg Hfree. rewrite bookSlot_mock_unguarded by done.
  destruct (Z.leb_spec (remaining tz t r (Mock.solicitudes st)) 0); [lia|].
  destruct (mock_insertar
              (con_reserva campos (tipo_de r) (ISODate t) paciente
                 (Some (ticket (prefix r)
                    (Z.of_nat (countMatching (family (prefix r)) (ISODate t)
                                             (Mock.solicitudes st)) + 1)))) st)
    as (x & -> & _ & Ht & Hf & Hc & Hn).
  exists x. by repeat split.
Qed.
End MockBooking.





End BookingFacts.

Import BookingFacts.
Import Database Allocation.

(** ** Ticket numbers *)


Import Ejemplos.


(** ** Capacity *)

Lemma limite_values :
  Mock.limite "cupos_consulta_miercoles" = 10
  /\ Mock.limite "cupos_consulta" = 15
  /\ Mock.limite "cupos_reembolso" = 20.
Proof. vm_compute. auto. Qed.

Lemma claveLimite_consulta tz fecha :
  claveLimite tz "consulta" fecha
  = if decide (getDay tz fecha = Num 3) then "cupos_consulta_miercoles" else "cupos_consulta".
Proof. unfold claveLimite. repeat case_decide; try reflexivity; tauto. Qed.

(** The limit [getCuposDisponibles('consulta', fecha)] looks up goes by the
    day of the week of [fecha] on the host's clock. *)
Lemma claveLimite_consulta_local tz t :
  claveLimite tz "consulta" (ValidDate t)
  = if decide (WeekDay (LocalTime tz t) = 3)
    then "cupos_consulta_miercoles" else "cupos_consulta".
Proof.
  rewrite claveLimite_consulta.
  change (getDay tz (ValidDate t)) with (Num (WeekDay (LocalTime tz t))).
  destruct (decide (WeekDay (LocalTime tz t) = 3)) as [E|E].
  - by rewrite decide_True by (by rewrite E).
  - by rewrite decide_False by (by intros [=]).
Qed.

(** C2, where it breaks. [getCuposDisponibles('consulta', fecha)] takes the
    day of the week from the host's clock ([getDay]) and the day whose
    records it counts from UTC ([toISOString]): the result is 10 minus the
    consulta and ecor records of the UTC date when the local day is a
    Wednesday, and 15 minus them otherwise, and against the database the
    stored limit of the local day minus them (for numbers a double holds
    exactly). When the local day is a Wednesday the claim's consequence
    holds: with 9 records the tenth booking gets [C-010], with 10 the
    eleventh is refused. But for [new Date('2024-02-07')], midnight UTC of a
    Wednesday, on a host in Caracas the local day is Tuesday the 6th: with
    ten consultations stored for 2024-02-07 both backends answer 5 places
    where the claim says none, and the eleventh booking of that Wednesday
    goes through with ticket [C-011]. *)
Theorem C2_getCuposDisponibles_dia_local :
  let medianoche := 1707264000000 in
  let diez := consultas "2024-02-07" 10 in
  (forall tz st t,
     Mock.getCuposDisponibles tz st "consulta" (ValidDate t)
     = Return (Num ((if decide (WeekDay (LocalTime tz t) = 3) then 10 else 15)
                    - Z.of_nat (countMatching ["consulta"; "ecor"] (ISODate t)
                                  (Mock.solicitudes st)))))
  /\ (forall tz db t valor limite,
        sin_fallos db ->
        valores (if decide (WeekDay (LocalTime tz t) = 3)
                 then "cupos_consulta_miercoles" else "cupos_consulta") db = [valor] ->
        parseInt10 valor = Num limite ->
        Z.abs limite + Z.of_nat (countMatching ["consulta"; "ecor"] (ISODate t)
                                   (Supabase.tabla_solicitudes db)) <= MAX_SAFE_INTEGER ->
        (Durable.getCuposDisponibles tz "consulta" (ValidDate t) db).1
        = Return (Num (limite - Z.of_nat (countMatching ["consulta"; "ecor"] (ISODate t)
                                            (Supabase.tabla_solicitudes db)))))
  /\ (forall tz st t ahora r paciente campos,
        WeekDay (LocalTime tz t) = 3 ->
        unguarded paciente (ISODate t) r (Mock.solicitudes st) ->
        r <> reimbursement ->
        (countMatching ["consulta"; "ecor"] (ISODate t) (Mock.solicitudes st) = 9%nat ->
         exists x,
           (bookSlot (mock tz) ahora r (ValidDate t) paciente campos st).1 = inl x
           /\ numero_turno x = Some "C-010")
        /\ (countMatching ["consulta"; "ecor"] (ISODate t) (Mock.solicitudes st) = 10%nat ->
            bookSlot (mock tz) ahora r (ValidDate t) paciente campos st
            = (inr CapacityExceededError, st)))
  /\ ISODate medianoche = "2024-02-07"
  /\ WeekDay medianoche = 3
  /\ getDay caracas (ValidDate medianoche) = Num 2
  /\ countMatching ["consulta"; "ecor"] "2024-02-07" diez = 10%nat
  /\ Mock.getCuposDisponibles caracas (almacen diez) "consulta" (ValidDate medianoche)
     = Return (Num 5)
  /\ (Durable.getCuposDisponibles caracas "consulta" (ValidDate medianoche) (base diez [])).1
     = Return (Num 5)
  /\ exists x,
       (bookSlot (mock caracas) medianoche consultation (ValidDate medianoche) "V-99"
          (registro "" "" "") (almacen diez)).1 = inl x
       /\ numero_turno x = Some "C-011".
Proof.
  cbv zeta. destruct limite_values as (L1 & L2 & _).
  split; [|split; [|split]].
  - intros tz st t.
    rewrite Mock_getCuposDisponibles_valid, claveLimite_consulta_local.
    case_decide; by rewrite ?L1, ?L2.
  - intros tz db t valor limite Hok Hv Hp _.
    rewrite Durable_getCuposDisponibles_ok, claveLimite_consulta_local, Hv by done.
    simpl. by rewrite Hp.
  - intros tz st t ahora r paciente campos Hmie Hg Hr.
    assert (claveLimite tz "consulta" (ValidDate t) = "cupos_consulta_miercoles") as Hk
      by (by rewrite claveLimite_consulta_local, decide_True).
    assert (remaining tz t r (Mock.solicitudes st)
            = 10 - Z.of_nat (countMatching ["consulta"; "ecor"] (ISODate t)
                               (Mock.solicitudes st))) as Hrem.
    { unfold remaining. destruct r; try done; simpl; by rewrite Hk, L1. }
    assert (prefix r = "C") as Hp by (destruct r; try done; destruct Hg as [?|[[?|?] _]]; done).
    split; intros HN.
    + destruct (bookSlot_mock_success tz ahora t paciente campos st r Hg)
        as (x & E & _ & _ & _ & Hn); [lia|].
      exists x. rewrite E. split; [reflexivity|].
      rewrite Hn, Hp. change (family "C") with ["consulta"; "ecor"].
      rewrite HN. reflexivity.
    + apply bookSlot_mock_full; [done|lia].
  - split; [vm_compute; reflexivity|]. split; [vm_compute; reflexivity|].
    split; [vm_compute; reflexivity|]. split; [vm_compute; reflexivity|].
    split; [vm_compute; reflexivity|]. split; [vm_compute; reflexivity|].
    eexists. split; vm_compute; reflexivity.
Qed.

(** ** A limit that is not configured *)

Lemma Durable_getCuposDisponibles_not_single tz tipo fecha db :
  length (valores (claveLimite tz tipo fecha) db) <> 1%nat ->
  (Durable.getCuposDisponibles tz tipo fecha db).1 = Return (Num 0).
Proof.
  intros Hrows. unfold Durable.getCuposDisponibles. unfold_query.
  unfold Supabase.select_valor_single. rewrite request_eq.
  destruct (siguiente (Supabase.fallos db)).1; [reflexivity|].
  fold (claveLimite tz tipo fecha). cbn [Supabase.tabla_configuracion Supabase.con_fallos].
  fold (valores (claveLimite tz tipo fecha) db).
  destruct (valores (claveLimite tz tipo fecha) db) as [|v [|v' vs]]; try reflexivity.
  by destruct Hrows.
Qed.

Lemma Mock_limite_missing clave : Mock.configuracion !! clave = None -> Mock.limite clave = 15.
Proof. unfold Mock.limite. by intros ->. Qed.

(** C3, as the code has it. When [configuracion] has no row (or several) for
    the limit of a type and day, the database-backed [getCuposDisponibles]
    returns 0, whether or not its requests fail. The in-memory
    [getCuposDisponibles] instead falls back on 15: it returns 15 minus the
    records of the day. *)
Theorem C3_limite_no_configurado (tz : Z) (tipo : string) (fecha : Date) :
  (forall db,
     length (valores (claveLimite tz tipo fecha) db) <> 1%nat ->
     (Durable.getCuposDisponibles tz tipo fecha db).1 = Return (Num 0))
  /\ (forall st t,
        fecha = ValidDate t ->
        Mock.configuracion !! claveLimite tz tipo fecha = None ->
        Mock.getCuposDisponibles tz st tipo fecha
        = Return (Num (15 - Z.of_nat (countMatching (tipoQuery tipo) (ISODate t)
                                        (Mock.solicitudes st))))).
Proof.
  split.
  - intros db. apply Durable_getCuposDisponibles_not_single.
  - intros st t -> Hnone.
    by rewrite Mock_getCuposDisponibles_valid, Mock_limite_missing.
Qed.

(** No limit is configured for [ecor]: the database answers 0, the in-memory
    store 15. *)
Lemma C3_limite_no_configurado_witness :
  (Durable.getCuposDisponibles caracas "ecor" (ValidDate miercoles) (base [] [])).1
  = Return (Num 0)
  /\ Mock.getCuposDisponibles caracas (almacen []) "ecor" (ValidDate miercoles)
     = Return (Num 15).
Proof.
  destruct (C3_limite_no_configurado caracas "ecor" (ValidDate miercoles)) as [Hd Hm].
  split.
  - apply Hd. vm_compute. discriminate.
  - apply (Hm (almacen []) miercoles); reflexivity.
Defined.

(** C3 fails as stated in [mockData.js]: the entry [cupos_ecor] is missing,
    and the capacity returned is 15, not 0. *)
Lemma C3_missing_limit_counterexample :
  Mock.configuracion !! claveLimite caracas "ecor" (ValidDate miercoles) = None
  /\ Mock.getCuposDisponibles caracas Mock.resetMockData "ecor" (ValidDate miercoles)
     = Return (Num 15)
  /\ Mock.getCuposDisponibles caracas Mock.resetMockData "ecor" (ValidDate miercoles)
     <> Return (Num 0).
Proof. vm_compute. repeat split; discriminate. Qed.

(** ** The duplicate guard *)

(** C4, where it breaks. After the same two inserts (a consultation and an
    annual exam of patient V-1 for 7 February 2024) the in-memory
    [checkExistingAppointment] returns [true], but the one of [database.js]
    returns [false] although no request fails: [maybeSingle()] answers
    several rows with an error, which the [catch] clause turns into
    [false]. *)
Theorem C4_checkExistingAppointment_two_rows :
  let r1 := registro "consulta" "2024-02-07" "V-1" in
  let r2 := registro "ecor" "2024-02-07" "V-1" in
  let st := (Mock.crearSolicitud (Mock.crearSolicitud Mock.resetMockData miercoles r1).2
               miercoles r2).2 in
  let db := (Durable.crearSolicitud miercoles r2
               (Durable.crearSolicitud miercoles r1 (base [] [])).2).2 in
  mismo_contenido (Mock.solicitudes st) (Supabase.tabla_solicitudes db)
  /\ existsForPatientOnDate "V-1" "2024-02-07" ["consulta"; "ecor"]
       (Supabase.tabla_solicitudes db)
  /\ sin_fallos db
  /\ Mock.checkExistingAppointment st "V-1" (ValidDate miercoles) = Return true
  /\ (Durable.checkExistingAppointment "V-1" (ValidDate miercoles) db).1 = Return false.
Proof.
  cbv zeta. split; [|split; [|split; [|split]]].
  - vm_compute. reflexivity.
  - apply Exists_cons_hd. repeat split. exists "consulta". split; [left|done].
  - constructor.
  - vm_compute. reflexivity.
  - vm_compute. reflexivity.
Qed.

(** ** Emergencies *)

(** A filter that lets no emergency through does not see the emergencies. *)
Lemma filter_sin_emergencias (P : Solicitud -> Prop) `{!forall s, Decision (P s)} l :
  (forall s, P s -> tipo_solicitud s <> Some "emergencia") ->
  filter P (sin_emergencias l) = filter P l.
Proof.
  intros HP. unfold sin_emergencias. rewrite list_filter_filter.
  apply list_filter_iff. intros s. split; [tauto|]. intros HPs. split; [done|by apply HP].
Qed.

Lemma includes_not_emergencia tipos v :
  "emergencia" ∉ tipos -> includes tipos v -> v <> Some "emergencia".
Proof. intros Hn (t & Hin & ->) [= ->]. contradiction. Qed.

Ltac not_in_list :=
  rewrite ?not_elem_of_cons; repeat split; try discriminate; apply not_elem_of_nil.

Lemma tipoQuery_no_emergencia tipo : "emergencia" ∉ tipoQuery tipo.
Proof. unfold tipoQuery. case_decide; not_in_list. Qed.

Lemma family_no_emergencia prefijo : "emergencia" ∉ family prefijo.
Proof. unfold family. case_decide; not_in_list. Qed.

Lemma countMatching_sin_emergencias tipos fecha l :
  "emergencia" ∉ tipos ->
  countMatching tipos fecha (sin_emergencias l) = countMatching tipos fecha l.
Proof.
  intros Hn. unfold countMatching. rewrite filter_sin_emergencias; [done|].
  intros s [Hi _]. by eapply includes_not_emergencia.
Qed.

Lemma guard_rows_sin_emergencias c f l :
  filter (fun s => cedula s = Some c /\ fecha_solicitud s = Some f
                   /\ includes ["consulta"; "ecor"] (tipo_solicitud s)) (sin_emergencias l)
  = filter (fun s => cedula s = Some c /\ fecha_solicitud s = Some f
                     /\ includes ["consulta"; "ecor"] (tipo_solicitud s)) l.
Proof.
  apply filter_sin_emergencias. intros s (_ & _ & Hi).
  eapply includes_not_emergencia; [|exact Hi]. not_in_list.
Qed.

Lemma existsForPatientOnDate_filter c f tipos l :
  existsForPatientOnDate c f tipos l
  <-> filter (fun s => cedula s = Some c /\ fecha_solicitud s = Some f
                       /\ includes tipos (tipo_solicitud s)) l <> [].
Proof.
  unfold existsForPatientOnDate. rewrite Exists_exists. split.
  - intros (s & Hin & HP) Hnil.
    assert (s ∈ filter (fun s => cedula s = Some c /\ fecha_solicitud s = Some f
                                 /\ includes tipos (tipo_solicitud s)) l) as Hs
      by (by apply list_elem_of_filter).
    rewrite Hnil in Hs. by apply elem_of_nil in Hs.
  - intros Hne. destruct (filter _ l) as [|s rest] eqn:E; [done|].
    assert (s ∈ filter (fun s => cedula s = Some c /\ fecha_solicitud s = Some f
                                 /\ includes tipos (tipo_solicitud s)) l) as Hs
      by (rewrite E; left).
    apply list_elem_of_filter in Hs as [HP Hin]. eauto.
Qed.

Lemma existsForPatientOnDate_sin_emergencias c f l :
  existsForPatientOnDate c f ["consulta"; "ecor"] (sin_emergencias l)
  <-> existsForPatientOnDate c f ["consulta"; "ecor"] l.
Proof. by rewrite !existsForPatientOnDate_filter, guard_rows_sin_emergencias. Qed.

Lemma sin_emergencias_app l1 l2 :
  sin_emergencias (l1 ++ l2) = sin_emergencias l1 ++ sin_emergencias l2.
Proof. apply filter_app. Qed.

(** Emergencies booked on the in-memory store are all stored, and leave the
    other records as they were. *)
Lemma bookAll_mock_emergencies tz t requests st :
  Forall (fun q => requestType q = emergency) requests ->
  let run := bookAll (mock tz) requests (ValidDate t) st in
  Forall (fun o => exists r, o = inl r /\ numero_turno r = None) run.1
  /\ sin_emergencias (Mock.solicitudes run.2) = sin_emergencias (Mock.solicitudes st).
Proof.
  revert st. induction requests as [|[ahora r paciente campos] rest IH];
    intros st Hall; [by split|].
  apply Forall_cons in Hall as [Hr Hall]. simpl in Hr. subst r.
  cbv zeta. cbn [bookAll clock requestType patientId patientFields].
  destruct (bookSlot_mock_emergency tz ahora t paciente campos st) as (x & -> & Ht & Hn).
  specialize (IH {| Mock.solicitudes := Mock.solicitudes st ++ [x];
                    Mock.idCounter := Mock.idCounter st + 1 |} Hall).
  destruct (bookAll (mock tz) rest (ValidDate t) _) as [os e2].
  destruct IH as [IH1 IH2]. cbn [fst snd] in *. split.
  - constructor; [eauto|done].
  - rewrite IH2. cbn [Mock.solicitudes]. rewrite sin_emergencias_app.
    unfold sin_emergencias at 2. rewrite filter_cons, decide_False by (by rewrite Ht; intros []).
    rewrite filter_nil. apply app_nil_r.
Qed.

(** C5. Emergency records are counted neither by [getCuposDisponibles] nor
    by [getSiguienteNumeroTurno] and are not seen by the duplicate guard:
    two stores that differ only in emergency records give the same
    capacity, the same next ticket and the same answer of the guard, in
    memory and against the database; and any number of emergencies booked
    in a row are all stored and leave the other records untouched. *)
Theorem C5_emergencias_no_cuentan (tz : Z) (st st' : Mock.Store) :
  sin_emergencias (Mock.solicitudes st') = sin_emergencias (Mock.solicitudes st) ->
  (forall tipo fecha,
     Mock.getCuposDisponibles tz st' tipo fecha = Mock.getCuposDisponibles tz st tipo fecha)
  /\ (forall prefijo fecha,
        Mock.getSiguienteNumeroTurno st' prefijo fecha
        = Mock.getSiguienteNumeroTurno st prefijo fecha)
  /\ (forall c fecha,
        Mock.checkExistingAppointment st' c fecha = Mock.checkExistingAppointment st c fecha)
  /\ (forall db db',
        sin_emergencias (Supabase.tabla_solicitudes db')
        = sin_emergencias (Supabase.tabla_solicitudes db) ->
        Supabase.tabla_configuracion db' = Supabase.tabla_configuracion db ->
        Supabase.fallos db' = Supabase.fallos db ->
        (forall tipo fecha,
           (Durable.getCuposDisponibles tz tipo fecha db').1
           = (Durable.getCuposDisponibles tz tipo fecha db).1)
        /\ (forall prefijo fecha,
              (Durable.getSiguienteNumeroTurno prefijo fecha db').1
              = (Durable.getSiguienteNumeroTurno prefijo fecha db).1)
        /\ (forall c fecha,
              (Durable.checkExistingAppointment c fecha db').1
              = (Durable.checkExistingAppointment c fecha db).1))
  /\ (forall t requests,
        Forall (fun q => requestType q = emergency) requests ->
        let run := bookAll (mock tz) requests (ValidDate t) st in
        Forall (fun o => exists r, o = inl r /\ numero_turno r = None) run.1
        /\ sin_emergencias (Mock.solicitudes run.2) = sin_emergencias (Mock.solicitudes st)).
Proof.
  intros Hsame. split; [|split; [|split; [|split]]].
  - intros tipo [[t|]]; [|reflexivity]. fold (ValidDate t).
    rewrite !Mock_getCuposDisponibles_valid.
    rewrite <- (countMatching_sin_emergencias _ _ (Mock.solicitudes st')),
      <- (countMatching_sin_emergencias _ _ (Mock.solicitudes st))
      by apply tipoQuery_no_emergencia.
    by rewrite Hsame.
  - intros prefijo [[t|]]; [|reflexivity]. fold (ValidDate t).
    rewrite !Mock_getSiguienteNumeroTurno_valid.
    rewrite <- (countMatching_sin_emergencias _ _ (Mock.solicitudes st')),
      <- (countMatching_sin_emergencias _ _ (Mock.solicitudes st))
      by apply family_no_emergencia.
    by rewrite Hsame.
  - intros c [[t|]]; [|reflexivity]. fold (ValidDate t).
    rewrite !Mock_checkExistingAppointment_valid. f_equal. apply bool_decide_ext.
    rewrite <- (existsForPatientOnDate_sin_emergencias _ _ (Mock.solicitudes st')),
      <- (existsForPatientOnDate_sin_emergencias _ _ (Mock.solicitudes st)).
    by rewrite Hsame.
  - intros db db' Ht Hc Hf. split; [|split].
    + intros tipo [[t|]].
      * fold (ValidDate t). rewrite !Durable_getCuposDisponibles_eq.
        unfold valores. rewrite Hc, Hf.
        rewrite <- (countMatching_sin_emergencias _ _ (Supabase.tabla_solicitudes db')),
          <- (countMatching_sin_emergencias _ _ (Supabase.tabla_solicitudes db))
          by apply tipoQuery_no_emergencia.
        by rewrite Ht.
      * fold InvalidDate.
        destruct (Durable_invalid tz tipo "" "" db) as [-> _].
        by destruct (Durable_invalid tz tipo "" "" db') as [-> _].
    + intros prefijo [[t|]]; [|reflexivity]. fold (ValidDate t).
      rewrite !Durable_getSiguienteNumeroTurno_eq, Hf.
      rewrite <- (countMatching_sin_emergencias _ _ (Supabase.tabla_solicitudes db')),
        <- (countMatching_sin_emergencias _ _ (Supabase.tabla_solicitudes db))
        by apply family_no_emergencia.
      by rewrite Ht.
    + intros c [[t|]]; [|reflexivity]. fold (ValidDate t).
      rewrite !Durable_checkExistingAppointment_eq, Hf.
      rewrite <- (guard_rows_sin_emergencias _ _ (Supabase.tabla_solicitudes db')),
        <- (guard_rows_sin_emergencias _ _ (Supabase.tabla_solicitudes db)).
      by rewrite Ht.
  - intros t requests Hall. by apply bookAll_mock_emergencies.
Qed.

(** Three emergencies of patient V-1 on a Wednesday with nine consultations:
    one place was left and is still left, the next ticket is still [C-010],
    and the guard still lets V-1 through. *)
Lemma C5_emergencias_no_cuentan_witness :
  let antes := almacen (consultas "2024-02-07" 9) in
  let despues := almacen (consultas "2024-02-07" 9
                          ++ replicate 3 (registro "emergencia" "2024-02-07" "V-1")) in
  Mock.getCuposDisponibles caracas despues "consulta" (ValidDate miercoles)
  = Mock.getCuposDisponibles caracas antes "consulta" (ValidDate miercoles)
  /\ Mock.getSiguienteNumeroTurno despues "C" (ValidDate miercoles)
     = Mock.getSiguienteNumeroTurno antes "C" (ValidDate miercoles)
  /\ Mock.checkExistingAppointment despues "V-1" (ValidDate miercoles)
     = Mock.checkExistingAppointment antes "V-1" (ValidDate miercoles).
Proof.
  cbv zeta.
  destruct (C5_emergencias_no_cuentan caracas
              (almacen (consultas "2024-02-07" 9))
              (almacen (consultas "2024-02-07" 9
                        ++ replicate 3 (registro "emergencia" "2024-02-07" "V-1")))
              eq_refl) as (H1 & H2 & H3 & _).
  split; [apply H1|]. split; [apply H2|apply H3].
Defined.

(** ** Reports *)

(** C6. For a month [YYYY-MM] (years 0001 to 9999), [getDatosReporteMensual]
    returns exactly the records whose [fecha_solicitud] lies, in text
    order, between the first day of the month and its last day by the
    calendar (28, 29, 30 or 31); for records dated [YYYY-MM-DD] these are
    the records of the days 1 to the last of that month and year. The
    database-backed function, when its request does not fail, selects the
    same range. *)
Theorem C6_getDatosReporteMensual_mes (tz : Z) (st : Mock.Store) (y m : Z) :
  1 <= y <= 9999 -> 1 <= m <= 12 -> Z.abs tz <= msPerDay ->
  let en_rango := fun s =>
    ge_string (fecha_solicitud s) (year_month_day y m 1)
    && le_string (fecha_solicitud s) (year_month_day y m (days_in_month y m)) in
  Mock.getDatosReporteMensual tz st (year_month y m)
  = Return (filter en_rango (Mock.solicitudes st))
  /\ (forall s y' m' d',
        fecha_solicitud s = Some (year_month_day y' m' d') ->
        0 <= y' <= 9999 -> 0 <= m' <= 99 -> 0 <= d' <= 99 ->
        s ∈ filter en_rango (Mock.solicitudes st)
        <-> s ∈ Mock.solicitudes st /\ y' = y /\ m' = m /\ 1 <= d' <= days_in_month y m)
  /\ (forall db,
        sin_fallos db ->
        (Durable.getDatosReporteMensual tz (year_month y m) db).1
        = Return (filter en_rango (Supabase.tabla_solicitudes db))).
Proof.
  intros Hy Hm Htz en_rango. split; [|split].
  - by apply Mock_getDatosReporteMensual_month.
  - intros s y' m' d' Hs Hy' Hm' Hd'.
    rewrite list_elem_of_filter. subst en_rango. cbv beta. rewrite Hs.
    pose proof (days_in_month_range y m).
    rewrite Is_true_true, month_range by lia. tauto.
  - intros db Hok. by apply Durable_getDatosReporteMensual_month.
Qed.

(** The report of ["2024-02"] holds the records of 1 and 29 February 2024
    and neither the one of 31 January nor the one of 1 March. *)
Lemma C6_getDatosReporteMensual_mes_witness :
  let libro := [registro "consulta" "2024-01-31" "V-1"; registro "ecor" "2024-02-01" "V-2";
                registro "emergencia" "2024-02-29" "V-3";
                registro "reembolso" "2024-03-01" "V-4"] in
  year_month 2024 2 = "2024-02"
  /\ year_month_day 2024 2 (days_in_month 2024 2) = "2024-02-29"
  /\ Mock.getDatosReporteMensual caracas (almacen libro) "2024-02"
     = Return [registro "ecor" "2024-02-01" "V-2"; registro "emergencia" "2024-02-29" "V-3"]
  /\ (Durable.getDatosReporteMensual caracas "2024-02" (base libro [])).1
     = Return [registro "ecor" "2024-02-01" "V-2"; registro "emergencia" "2024-02-29" "V-3"].
Proof.
  cbv zeta.
  assert (1 <= 2024 <= 9999) as Hy by lia.
  assert (1 <= 2 <= 12) as Hm by lia.
  assert (Z.abs caracas <= msPerDay) as Htz by (vm_compute; discriminate).
  destruct (C6_getDatosReporteMensual_mes caracas
              (almacen [registro "consulta" "2024-01-31" "V-1"; registro "ecor" "2024-02-01" "V-2";
                        registro "emergencia" "2024-02-29" "V-3";
                        registro "reembolso" "2024-03-01" "V-4"])
              2024 2 Hy Hm Htz) as (H1 & _ & H3).
  split; [reflexivity|]. split; [reflexivity|]. split.
  - etrans; [exact H1|]. vm_compute. reflexivity.
  - etrans; [apply (H3 (base _ [])); constructor|]. vm_compute. reflexivity.
Defined.

(** C9. [getReportDateString] returns the local date three days before the
    trigger when the trigger falls on a Monday (that day is a Friday), and
    the date of the day before on any other day of the week; for a year of
    four digits it is written [YYYY-MM-DD]. *)
Theorem C9_getReportDateString_dia (tz t : Z) :
  Z.abs (t - 3 * msPerDay) <= maxTime -> Z.abs (t - msPerDay) <= maxTime ->
  let hoy := Day (LocalTime tz t) in
  let atras := if decide (WeekDayOfDay hoy = 1) then 3 else 1 in
  let dia := hoy - atras in
  Index.getReportDateString tz (ValidDate t)
  = toLocaleDateString_enCA tz (ValidDate (t - atras * msPerDay))
  /\ Day (LocalTime tz (t - atras * msPerDay)) = dia
  /\ (WeekDayOfDay hoy = 1 -> WeekDayOfDay dia = 5)
  /\ (1000 <= YearFromDay dia <= 9999 ->
      Index.getReportDateString tz (ValidDate t)
      = year_month_day (YearFromDay dia) (MonthFromDay dia + 1) (DateFromDay dia)).
Proof.
  intros H3 H1 hoy atras dia.
  assert (Day (LocalTime tz (t - atras * msPerDay)) = dia) as Hdia.
  { unfold LocalTime. replace (t - atras * msPerDay + tz) with (t + tz - atras * msPerDay) by lia.
    by rewrite Day_shift. }
  assert (Index.getReportDateString tz (ValidDate t)
          = toLocaleDateString_enCA tz (ValidDate (t - atras * msPerDay))) as Hrep.
  { unfold Index.getReportDateString. cbv zeta.
    assert (getDay tz (ValidDate t) = Num (WeekDayOfDay hoy)) as -> by reflexivity.
    subst atras. destruct (decide (WeekDayOfDay hoy = 1)) as [Hl|Hl].
    - rewrite decide_True by (by rewrite Hl). rewrite setDate_shift.
      unfold TimeClip. by destruct (Z.leb_spec (Z.abs (t - 3 * msPerDay)) maxTime); [|lia].
    - rewrite decide_False by (intros [=]; done). rewrite setDate_shift.
      unfold TimeClip.
      by destruct (Z.leb_spec (Z.abs (t - 1 * msPerDay)) maxTime); [|lia]. }
  split; [exact Hrep|]. split; [exact Hdia|]. split.
  - intros Hl. subst dia atras. rewrite decide_True by done.
    rewrite WeekDay_shift, Hl. reflexivity.
  - intros Hyear. rewrite Hrep. unfold toLocaleDateString_enCA. simpl DateValue. cbv zeta.
    unfold YearFromTime, MonthFromTime, DateFromTime. rewrite Hdia.
    rewrite ToString_four_digits by done. reflexivity.
Qed.

(** Triggered on Monday 1 April 2024 the report is the one of Friday 29
    March; triggered on Tuesday 2 April it is the one of Monday 1 April. *)
Lemma C9_getReportDateString_dia_witness :
  WeekDay (LocalTime caracas lunes) = 1
  /\ Index.getReportDateString caracas (ValidDate lunes) = "2024-03-29"
  /\ Index.getReportDateString caracas (ValidDate martes) = "2024-04-01".
Proof.
  assert (forall t, t = lunes \/ t = martes ->
            Z.abs (t - 3 * msPerDay) <= maxTime /\ Z.abs (t - msPerDay) <= maxTime) as Hb
    by (intros t [-> | ->]; vm_compute; split; discriminate).
  destruct (Hb lunes (or_introl eq_refl)) as [Hl3 Hl1].
  destruct (Hb martes (or_intror eq_refl)) as [Hm3 Hm1].
  destruct (C9_getReportDateString_dia caracas lunes Hl3 Hl1) as (_ & _ & _ & Hl).
  destruct (C9_getReportDateString_dia caracas martes Hm3 Hm1) as (_ & _ & _ & Hm).
  split; [reflexivity|]. split.
  - etrans; [apply Hl; vm_compute; split; discriminate|]. vm_compute. reflexivity.
  - etrans; [apply Hm; vm_compute; split; discriminate|]. vm_compute. reflexivity.
Defined.

(** ** Inserting a record *)

Lemma Durable_crearSolicitud_cases ahora datos db :
  (exists x db',
     Durable.crearSolicitud ahora datos db = (Return (Some x), db')
     /\ is_Some (id x)
     /\ sin_id x = sin_id datos
     /\ Supabase.tabla_solicitudes db' = Supabase.tabla_solicitudes db ++ [x]
     /\ Supabase.tabla_configuracion db' = Supabase.tabla_configuracion db
     /\ Supabase.fallos db' = (siguiente (Supabase.fallos db)).2)
  \/ (exists db',
        Durable.crearSolicitud ahora datos db = (Return None, db')
        /\ Supabase.tabla_solicitudes db' = Supabase.tabla_solicitudes db
        /\ ((siguiente (Supabase.fallos db)).1 <> None
            \/ exists fila, Supabase.admite db (Supabase.tabla_solicitudes db) fila = false)).
Proof.
  unfold Durable.crearSolicitud. unfold_query. unfold Supabase.insert_single.
  rewrite request_eq. destruct (siguiente (Supabase.fallos db)).1 as [e|] eqn:E.
  - right. eexists. split; [reflexivity|]. split; [reflexivity|]. by left.
  - cbn [Supabase.admite Supabase.tabla_solicitudes Supabase.con_fallos Supabase.id_seq].
    match goal with |- context [Supabase.admite db _ ?f] => set (fila := f) end.
    destruct (Supabase.admite db (Supabase.tabla_solicitudes db) fila) eqn:Ha.
    + left. eexists fila, _. split; [reflexivity|]. repeat split.
      subst fila. simpl. destruct (id datos); eauto.
    + right. eexists. split; [reflexivity|]. split; [reflexivity|]. right. eauto.
Qed.

(** C8, as the code has it. [crearSolicitud] never throws. Against the
    database it returns the stored record, with its [id], when the insert
    is accepted, and [null] when the request fails or the table refuses the
    row, leaving the table as it was; in memory it always returns the
    stored record with its [id]. *)
Theorem C8_crearSolicitud_record_or_null (ahora : Z) (datos : Solicitud) :
  (forall db,
     (exists x db',
        Durable.crearSolicitud ahora datos db = (Return (Some x), db')
        /\ is_Some (id x)
        /\ sin_id x = sin_id datos
        /\ Supabase.tabla_solicitudes db' = Supabase.tabla_solicitudes db ++ [x])
     \/ (exists db',
           Durable.crearSolicitud ahora datos db = (Return None, db')
           /\ Supabase.tabla_solicitudes db' = Supabase.tabla_solicitudes db))
  /\ (forall db e rest,
        Supabase.fallos db = Some e :: rest ->
        (Durable.crearSolicitud ahora datos db).1 = Return None)
  /\ (forall st,
        exists x,
          Mock.crearSolicitud st ahora datos
          = (Return (Some x),
             {| Mock.solicitudes := Mock.solicitudes st ++ [x];
                Mock.idCounter := Mock.idCounter st + 1 |})
          /\ is_Some (id x)
          /\ sin_id x = sin_id datos).
Proof.
  split; [|split].
  - intros db.
    destruct (Durable_crearSolicitud_cases ahora datos db)
      as [(x & db' & E & Hid & Hx & Ht & _)|(db' & E & Ht & _)].
    + left. by exists x, db'.
    + right. by exists db'.
  - intros db e rest Hf. by rewrite (Durable_crearSolicitud_fallo _ _ _ _ _ Hf).
  - intros st. unfold Mock.crearSolicitud. rewrite toISOString_valid.
    eexists. split; [reflexivity|]. split; [|reflexivity].
    simpl. destruct (id datos); eauto.
Qed.

(** C8 fails as stated: when the request fails, [crearSolicitud] neither
    returns a record nor throws the error; it returns [null]. *)
Lemma C8_crearSolicitud_counterexample :
  let resultado :=
    (Durable.crearSolicitud miercoles (registro "consulta" "2024-02-07" "V-1")
       (base [] [Some caida])).1 in
  resultado = Return None
  /\ (forall x, resultado <> Return (Some x))
  /\ (forall e, resultado <> Throw e).
Proof. vm_compute. repeat split; intros; discriminate. Qed.

(** ** A failing request *)

(** C10. When the request of [checkExistingAppointment] fails, the function
    returns [false] whatever the table holds, where [getCuposDisponibles]
    returns 0 on the same failure; in memory the [catch] clauses give
    [false] and 0 likewise (on an Invalid Date). So the guard fails open:
    with the check failing, patient V-1, who holds a consultation that day,
    is booked a second one. *)
Theorem C10_guard_fails_open (tz : Z) (paciente tipo : string) (fecha : Date)
    (db : Supabase.Database) (e : JSError) (rest : list (option JSError)) :
  Supabase.fallos db = Some e :: rest ->
  (Durable.checkExistingAppointment paciente fecha db).1 = Return false
  /\ (Durable.getCuposDisponibles tz tipo fecha db).1 = Return (Num 0)
  /\ (forall st,
        Mock.checkExistingAppointment st paciente InvalidDate = Return false
        /\ Mock.getCuposDisponibles tz st tipo InvalidDate = Return (Num 0))
  /\ (let tabla := [registro "consulta" "2024-02-07" "V-1"] in
      existsForPatientOnDate "V-1" "2024-02-07" ["consulta"; "ecor"] tabla
      /\ (bookSlot (durable caracas) miercoles consultation (ValidDate miercoles) "V-1"
            (registro "" "" "") (base tabla [])).1 = inr DuplicateBookingError
      /\ exists x,
           (bookSlot (durable caracas) miercoles consultation (ValidDate miercoles) "V-1"
              (registro "" "" "") (base tabla [Some caida])).1 = inl x
           /\ numero_turno x = Some "C-002").
Proof.
  intros Hf. split; [|split; [|split]].
  - by apply (Durable_checkExistingAppointment_fallo _ _ _ _ _ Hf).
  - by apply (Durable_getCuposDisponibles_fallo _ _ _ _ _ _ Hf).
  - intros st. split; reflexivity.
  - cbv zeta. split; [|split].
    + apply Exists_cons_hd. repeat split. exists "consulta". split; [left|done].
    + vm_compute. reflexivity.
    + eexists. split; vm_compute; reflexivity.
Qed.

(** A database that holds a consultation of V-1 and is unreachable. *)
Lemma C10_guard_fails_open_witness :
  existsForPatientOnDate "V-1" "2024-02-07" ["consulta"; "ecor"]
    [registro "consulta" "2024-02-07" "V-1"]
  /\ (Durable.checkExistingAppointment "V-1" (ValidDate miercoles)
        (base [registro "consulta" "2024-02-07" "V-1"] [Some caida])).1 = Return false
  /\ (Durable.getCuposDisponibles caracas "consulta" (ValidDate miercoles)
        (base [registro "consulta" "2024-02-07" "V-1"] [Some caida])).1 = Return (Num 0).
Proof.
  destruct (C10_guard_fails_open caracas "V-1" "consulta" (ValidDate miercoles)
              (base [registro "consulta" "2024-02-07" "V-1"] [Some caida]) caida []
              eq_refl) as (H1 & H2 & _ & H4 & _).
  split; [exact H4|]. split; [exact H1|exact H2].
Defined.

(** ** The two stores side by side *)

(** A filter on the columns other than [id] and [created_at] commutes with
    forgetting these two. *)
Lemma filter_sin_id (P : Solicitud -> Prop) `{!forall s, Decision (P s)}
    (l : list Solicitud) :
  (forall s, P (sin_id s) <-> P s) ->
  sin_id <$> filter P l = filter P (sin_id <$> l).
Proof.
  intros HP. induction l as [|s l IH]; [reflexivity|].
  rewrite fmap_cons, !filter_cons.
  destruct (decide (P s)) as [Hs|Hs].
  - rewrite decide_True by (by apply HP). by rewrite fmap_cons, IH.
  - rewrite decide_False by (by rewrite HP). exact IH.
Qed.

Lemma filter_mismo_contenido (P : Solicitud -> Prop) `{!forall s, Decision (P s)}
    (l1 l2 : list Solicitud) :
  (forall s, P (sin_id s) <-> P s) ->
  mismo_contenido l1 l2 -> mismo_contenido (filter P l1) (filter P l2).
Proof.
  unfold mismo_contenido. intros HP H12. by rewrite !filter_sin_id, H12.
Qed.

Lemma mismo_contenido_length l1 l2 : mismo_contenido l1 l2 -> length l1 = length l2.
Proof.
  unfold mismo_contenido. intros H12.
  by rewrite <- (length_fmap sin_id l1), <- (length_fmap sin_id l2), H12.
Qed.

Lemma countMatching_mismo_contenido tipos fecha l1 l2 :
  mismo_contenido l1 l2 -> countMatching tipos fecha l1 = countMatching tipos fecha l2.
Proof.
  intros H12. unfold countMatching. apply mismo_contenido_length.
  by apply filter_mismo_contenido.
Qed.

Lemma guard_rows_mismo_contenido c f l1 l2 :
  mismo_contenido l1 l2 -> mismo_contenido (guard_rows c f l1) (guard_rows c f l2).
Proof. intros H12. by apply filter_mismo_contenido. Qed.

Lemma existsForPatientOnDate_guard_rows c f l :
  existsForPatientOnDate c f ["consulta"; "ecor"] l <-> guard_rows c f l <> [].
Proof. apply existsForPatientOnDate_filter. Qed.

(** With at most one matching row, [maybeSingle()] finds a row exactly when
    there is one. *)
Lemma maybeSingle_at_most_one {A} (rows : list A) :
  (length rows <= 1)%nat ->
  exists data, Supabase.maybeSingle rows = Supabase.Data data /\ (is_Some data <-> rows <> []).
Proof.
  destruct rows as [|r [|r' rows]]; simpl; intros Hl.
  - exists None. split; [done|]. split; [by intros [? [=]]|done].
  - exists (Some r). split; [done|]. split; [done|eauto].
  - lia.
Qed.

Lemma limite_configured tz tipo fecha :
  tipo = "consulta" \/ tipo = "reembolso" ->
  Mock.configuracion !! claveLimite tz tipo fecha
  = Some (Mock.limite (claveLimite tz tipo fecha)).
Proof.
  intros [-> | ->].
  - rewrite claveLimite_consulta. case_decide; vm_compute; reflexivity.
  - unfold claveLimite. rewrite decide_False by (intros [[=] _]). vm_compute. reflexivity.
Qed.

(** C7, as the code has it. Let the table [solicitudes] and the in-memory
    list hold the same records (up to [id] and [created_at]), the table
    [configuracion] the limits of [mockData.js], and no request fail. Then
    the two stores return the same remaining capacity for the types
    [consulta] and [reembolso], the same ticket number for every prefix,
    the same answer of the duplicate guard whenever at most one record
    matches it, and the same daily and monthly reports; and inserting the
    same record in both, if the table accepts it, keeps them in this
    relation. *)
Theorem C7_backends_agree (tz : Z) (st : Mock.Store) (db : Supabase.Database) :
  sin_fallos db ->
  mismo_contenido (Mock.solicitudes st) (Supabase.tabla_solicitudes db) ->
  config_espejo db ->
  (forall tipo fecha,
     tipo = "consulta" \/ tipo = "reembolso" ->
     (Durable.getCuposDisponibles tz tipo fecha db).1
     = Mock.getCuposDisponibles tz st tipo fecha)
  /\ (forall prefijo fecha,
        (Durable.getSiguienteNumeroTurno prefijo fecha db).1
        = Mock.getSiguienteNumeroTurno st prefijo fecha)
  /\ (forall c t,
        (length (guard_rows c (ISODate t) (Supabase.tabla_solicitudes db)) <= 1)%nat ->
        (Durable.checkExistingAppointment c (ValidDate t) db).1
        = Mock.checkExistingAppointment st c (ValidDate t))
  /\ (forall fechaString,
        exists l1 l2,
          Mock.getDatosReporteDiario st fechaString = Return l1
          /\ (Durable.getDatosReporteDiario fechaString db).1 = Return l2
          /\ mismo_contenido l1 l2)
  /\ (forall mesString,
        exists l1 l2,
          Mock.getDatosReporteMensual tz st mesString = Return l1
          /\ (Durable.getDatosReporteMensual tz mesString db).1 = Return l2
          /\ mismo_contenido l1 l2)
  /\ (forall ahora datos,
        (forall fila, Supabase.admite db (Supabase.tabla_solicitudes db) fila = true) ->
        exists x1 st' x2 db',
          Mock.crearSolicitud st ahora datos = (Return (Some x1), st')
          /\ Durable.crearSolicitud ahora datos db = (Return (Some x2), db')
          /\ sin_id x1 = sin_id x2
          /\ sin_fallos db'
          /\ mismo_contenido (Mock.solicitudes st') (Supabase.tabla_solicitudes db')
          /\ config_espejo db').
Proof.
  intros Hok Hsame Hcfg. split; [|split; [|split; [|split; [|split]]]].
  - intros tipo [[t|]] Htipo.
    + fold (ValidDate t).
      rewrite Durable_getCuposDisponibles_ok, Mock_getCuposDisponibles_valid by done.
      destruct (Hcfg _ _ (limite_configured tz tipo (ValidDate t) Htipo))
        as (valor & -> & Hp).
      simpl. rewrite Hp. simpl.
      by rewrite (countMatching_mismo_contenido _ _ _ _ Hsame).
    + fold InvalidDate. by destruct (Durable_invalid tz tipo "" "" db) as [-> _].
  - intros prefijo [[t|]]; [|reflexivity]. fold (ValidDate t).
    rewrite Durable_getSiguienteNumeroTurno_ok, Mock_getSiguienteNumeroTurno_valid by done.
    by rewrite (countMatching_mismo_contenido _ _ _ _ Hsame).
  - intros c t Hone.
    rewrite Durable_checkExistingAppointment_ok, Mock_checkExistingAppointment_valid by done.
    fold (guard_rows c (ISODate t) (Supabase.tabla_solicitudes db)).
    destruct (maybeSingle_at_most_one
                (id <$> guard_rows c (ISODate t) (Supabase.tabla_solicitudes db)))
      as (data & -> & Hdata); [by rewrite length_fmap|].
    f_equal. apply bool_decide_ext. rewrite Hdata, existsForPatientOnDate_guard_rows.
    pose proof (mismo_contenido_length _ _
                  (guard_rows_mismo_contenido c (ISODate t) _ _ Hsame)) as Hlen.
    split; intros Hne Hnil; apply Hne.
    + rewrite Hnil in Hlen. symmetry in Hlen. apply nil_length_inv in Hlen.
      by rewrite Hlen.
    + apply fmap_nil_inv in Hnil. rewrite Hnil in Hlen. by apply nil_length_inv in Hlen.
  - intros fechaString. eexists _, _. split; [reflexivity|].
    split; [by apply Durable_getDatosReporteDiario_ok|].
    by apply filter_mismo_contenido.
  - intros mesString. unfold Mock.getDatosReporteMensual, Durable.getDatosReporteMensual.
    cbv zeta. unfold_query.
    match goal with
    | |- context [Supabase.select_rango ?a ?b db] =>
        destruct (select_rango_ok a b db Hok) as (db' & -> & _)
    end.
    eexists _, _. split; [reflexivity|]. split; [reflexivity|].
    by apply filter_mismo_contenido.
  - intros ahora datos Hadm.
    destruct (Durable_crearSolicitud_cases ahora datos db)
      as [(x2 & db' & E & _ & Hx & Ht & Hc & Hf)|(db' & _ & _ & [Hbad|[fila Hbad]])].
    + destruct (Mock_crearSolicitud_stored st ahora datos) as (x1 & E1 & _).
      assert (sin_id x1 = sin_id datos) as Hx1.
      { revert E1. unfold Mock.crearSolicitud. rewrite toISOString_valid.
        intros [= <-]. reflexivity. }
      eexists x1, _, x2, db'. split; [exact E1|]. split; [exact E|].
      split; [congruence|]. split; [|split].
      * unfold sin_fallos in *. rewrite Hf.
        destruct (Supabase.fallos db) as [|o f]; [done|].
        by apply Forall_cons in Hok as [_ ?].
      * cbn [Mock.solicitudes]. unfold mismo_contenido in *.
        rewrite Ht, !fmap_app, Hsame. simpl. congruence.
      * unfold config_espejo, valores in *. by rewrite Hc.
    + exfalso. unfold sin_fallos in Hok.
      destruct (Supabase.fallos db) as [|[e|] f]; simpl in Hbad; try done.
      by apply Forall_cons in Hok as [[=] _].
    + by rewrite Hadm in Hbad.
Qed.

Lemma config_espejo_base l f : config_espejo (base l f).
Proof.
  intros clave v. unfold Mock.configuracion.
  rewrite !lookup_insert_Some, lookup_singleton_Some.
  intros [[<- <-]|[_ [[<- <-]|[_ [<- <-]]]]]; eexists; split; vm_compute; reflexivity.
Qed.

(** A store and a database that both hold one consultation of Wednesday
    7 February 2024: nine places are left in both, and both hand out
    [C-002] next. *)
Lemma C7_backends_agree_witness :
  (Durable.getCuposDisponibles caracas "consulta" (ValidDate miercoles)
     (base [registro "consulta" "2024-02-07" "V-1"] [])).1
  = Mock.getCuposDisponibles caracas (almacen [registro "consulta" "2024-02-07" "V-1"])
      "consulta" (ValidDate miercoles)
  /\ (Durable.getSiguienteNumeroTurno "C" (ValidDate miercoles)
        (base [registro "consulta" "2024-02-07" "V-1"] [])).1
     = Mock.getSiguienteNumeroTurno (almacen [registro "consulta" "2024-02-07" "V-1"])
         "C" (ValidDate miercoles)
  /\ Mock.getSiguienteNumeroTurno (almacen [registro "consulta" "2024-02-07" "V-1"])
       "C" (ValidDate miercoles) = Return (Some "C-002").
Proof.
  assert (sin_fallos (base [registro "consulta" "2024-02-07" "V-1"] [])) as Hok
    by constructor.
  destruct (C7_backends_agree caracas (almacen [registro "consulta" "2024-02-07" "V-1"])
              (base [registro "consulta" "2024-02-07" "V-1"] []) Hok eq_refl
              (config_espejo_base _ _)) as (H1 & H2 & _).
  split; [apply H1; by left|]. split; [apply H2|]. reflexivity.
Defined.

(** C7 fails as stated. With the same records in both stores, the same
    limits configured and no request failing, [getCuposDisponibles('ecor')]
    is 0 against the database and 15 in memory; and when the request fails,
    the daily report of the database is empty while the one in memory holds
    the record. *)
Lemma C7_backends_counterexample :
  let r := registro "consulta" "2024-02-07" "V-1" in
  mismo_contenido (Mock.solicitudes (almacen [r])) (Supabase.tabla_solicitudes (base [r] []))
  /\ sin_fallos (base [r] [])
  /\ config_espejo (base [r] [])
  /\ (Durable.getCuposDisponibles caracas "ecor" (ValidDate miercoles) (base [r] [])).1
     = Return (Num 0)
  /\ Mock.getCuposDisponibles caracas (almacen [r]) "ecor" (ValidDate miercoles)
     = Return (Num 15)
  /\ (Durable.getCuposDisponibles caracas "ecor" (ValidDate miercoles) (base [r] [])).1
     <> Mock.getCuposDisponibles caracas (almacen [r]) "ecor" (ValidDate miercoles)
  /\ (Durable.getDatosReporteDiario "2024-02-07" (base [r] [Some caida])).1 = Return []
  /\ Mock.getDatosReporteDiario (almacen [r]) "2024-02-07" = Return [r].
Proof.
  cbv zeta. split; [reflexivity|]. split; [constructor|].
  split; [apply config_espejo_base|].
  repeat split; vm_compute; (reflexivity || discriminate).
Qed.

(** ** The ledger only grows *)
Module SessionFacts.
Import Session.

Lemma mismas_tablas_trans db1 db2 db3 :
  mismas_tablas db1 db2 -> mismas_tablas db2 db3 -> mismas_tablas db1 db3.
Proof. intros (?&?&?&?) (?&?&?&?). repeat split; congruence. Qed.

Lemma lectura_ret {A} (a : A) : lectura (Supabase.qret a).
Proof. intros db. apply mismas_tablas_refl. Qed.

Lemma lectura_lift {A} (c : completion A) : lectura (Supabase.qlift c).
Proof. intros db. apply mismas_tablas_refl. Qed.

Lemma lectura_bind {A B} (m : Supabase.Query A) (f : A -> Supabase.Query B) :
  lectura m -> (forall a, lectura (f a)) -> lectura (Supabase.qbind m f).
Proof.
  intros Hm Hf db. unfold Supabase.qbind. specialize (Hm db).
  destruct (m db) as [[a|e] db1]; [|exact Hm].
  eapply mismas_tablas_trans; [exact Hm|apply Hf].
Qed.

Lemma lectura_try {A} (body : Supabase.Query A) (handler : JSError -> Supabase.Query A) :
  lectura body -> (forall e, lectura (handler e)) -> lectura (Supabase.qtry body handler).
Proof.
  intros Hb Hh db. unfold Supabase.qtry. specialize (Hb db).
  destruct (body db) as [[a|e] db1]; [exact Hb|].
  eapply mismas_tablas_trans; [exact Hb|apply Hh].
Qed.

Lemma lectura_await {A} (answer : Supabase.Database -> Supabase.Response A * Supabase.Database) :
  (forall db, (answer db).2 = db) -> lectura (Supabase.await (Supabase.request answer)).
Proof.
  intros Ha db. unfold Supabase.await. rewrite request_eq.
  destruct (siguiente (Supabase.fallos db)).1.
  - apply mismas_tablas_con_fallos.
  - specialize (Ha (Supabase.con_fallos db (siguiente (Supabase.fallos db)).2)).
    destruct (answer _) as [[d|e] db1]; simpl in *; subst db1;
      apply mismas_tablas_con_fallos.
Qed.

Ltac solve_lectura :=
  unfold mbind, Supabase.query_bind, mret, Supabase.query_ret;
  repeat first
    [ apply lectura_ret
    | apply lectura_lift
    | apply lectura_await; intros; reflexivity
    | apply lectura_try; [|intros]
    | apply lectura_bind; [|intros] ].

Lemma lectura_getCuposDisponibles tz tipo fecha :
  lectura (Durable.getCuposDisponibles tz tipo fecha).
Proof.
  unfold Durable.getCuposDisponibles, Supabase.select_valor_single, Supabase.count_tipo_fecha.
  solve_lectura.
Qed.

Lemma lectura_getSiguienteNumeroTurno prefijo fecha :
  lectura (Durable.getSiguienteNumeroTurno prefijo fecha).
Proof.
  unfold Durable.getSiguienteNumeroTurno, Supabase.count_tipo_fecha. solve_lectura.
Qed.

Lemma lectura_getDatosReporteDiario fechaString :
  lectura (Durable.getDatosReporteDiario fechaString).
Proof. unfold Durable.getDatosReporteDiario, Supabase.select_fecha. solve_lectura. Qed.

Lemma lectura_getDatosReporteMensual tz mesString :
  lectura (Durable.getDatosReporteMensual tz mesString).
Proof.
  unfold Durable.getDatosReporteMensual, Supabase.select_rango. cbv zeta. solve_lectura.
Qed.

Lemma lectura_checkExistingAppointment c fecha :
  lectura (Durable.checkExistingAppointment c fecha).
Proof.
  unfold Durable.checkExistingAppointment, Supabase.select_id_maybeSingle. solve_lectura.
Qed.

(** One call against the database: the table [solicitudes] is the same or
    one row longer, and [configuracion] is the same. *)
Lemma call_durable tz c db :
  Supabase.tabla_configuracion (call (durable tz) c db) = Supabase.tabla_configuracion db
  /\ (Supabase.tabla_solicitudes (call (durable tz) c db) = Supabase.tabla_solicitudes db
      \/ is_insert c = true
         /\ exists x, Supabase.tabla_solicitudes (call (durable tz) c db)
                      = Supabase.tabla_solicitudes db ++ [x]).
Proof.
  destruct c as [tipo fecha|prefijo fecha|ahora datos|fechaString|mesString|c fecha];
    cbn [call durable getCuposDisponibles getSiguienteNumeroTurno crearSolicitud
         getDatosReporteDiario getDatosReporteMensual checkExistingAppointment].
  - destruct (lectura_getCuposDisponibles tz tipo fecha db) as (-> & -> & _). auto.
  - destruct (lectura_getSiguienteNumeroTurno prefijo fecha db) as (-> & -> & _). auto.
  - destruct (Durable_crearSolicitud_cases ahora datos db)
      as [(x & db' & -> & _ & _ & Ht & Hc & _)|(db' & E & Ht & _)].
    + split; [exact Hc|]. right. split; [done|]. by exists x.
    + rewrite E. split; [|by left]. simpl.
      revert E. unfold Durable.crearSolicitud. unfold_query. unfold Supabase.insert_single.
      rewrite request_eq. destruct (siguiente (Supabase.fallos db)).1; [by intros [= <-]|].
      destruct (Supabase.admite _ _ _); [discriminate|]. by intros [= <-].
  - destruct (lectura_getDatosReporteDiario fechaString db) as (-> & -> & _). auto.
  - destruct (lectura_getDatosReporteMensual tz mesString db) as (-> & -> & _). auto.
  - destruct (lectura_checkExistingAppointment c fecha db) as (-> & -> & _). auto.
Qed.

(** One call against the in-memory store: an insert adds one record at the
    end, every other call leaves the store as it is. *)
Lemma call_mock tz c st :
  call (mock tz) c st
  = if is_insert c
    then match c with
         | CrearSolicitud ahora datos => (Mock.crearSolicitud st ahora datos).2
         | _ => st
         end
    else st.
Proof. by destruct c. Qed.

End SessionFacts.

Import SessionFacts.
Import Session.

(** X1. No sequence of calls to the functions [database.js] exports removes,
    changes or reorders a stored record: the records held before are a
    prefix of the records held after. In memory the list grows by exactly
    one record per call of [crearSolicitud]; against the database it grows
    by at most that, and the table [configuracion] is never written. *)
Theorem X1_ledger_append_only (tz : Z) (calls : list Call) :
  (forall st,
     Mock.solicitudes st `prefix_of` Mock.solicitudes (session (mock tz) calls st)
     /\ length (Mock.solicitudes (session (mock tz) calls st))
        = (length (Mock.solicitudes st) + length (filter is_insert calls))%nat)
  /\ (forall db,
        Supabase.tabla_solicitudes db
          `prefix_of` Supabase.tabla_solicitudes (session (durable tz) calls db)
        /\ (length (Supabase.tabla_solicitudes (session (durable tz) calls db))
            <= length (Supabase.tabla_solicitudes db) + length (filter is_insert calls))%nat
        /\ Supabase.tabla_configuracion (session (durable tz) calls db)
           = Supabase.tabla_configuracion db).
Proof.
  unfold session. induction calls as [|c calls IH]; split.
  - intros st. simpl. split; [done|lia].
  - intros db. simpl. split; [done|]. split; [lia|done].
  - intros st. cbn [foldl]. destruct IH as [IH _].
    destruct (IH (call (mock tz) c st)) as [Hp Hl]. rewrite Hl. clear IH Hl.
    rewrite filter_cons. rewrite call_mock in *.
    destruct c as [| |ahora datos| | |]; cbn [is_insert] in *;
      try (rewrite decide_False by (by intros []); split; [done|lia]).
    rewrite decide_True by done.
    destruct (Mock_crearSolicitud_stored st ahora datos) as (x & E & _).
    rewrite E in *. cbn [snd Mock.solicitudes] in *. split.
    + etrans; [|exact Hp]. by apply prefix_app_r.
    + rewrite length_app. simpl. lia.
  - intros db. cbn [foldl]. destruct IH as [_ IH].
    destruct (IH (call (durable tz) c db)) as (Hp & Hl & Hc). clear IH.
    destruct (call_durable tz c db) as (Hc1 & [Ht|(Hins & x & Ht)]).
    + rewrite Ht in *. split; [done|]. split; [|congruence].
      rewrite filter_cons. case_decide; cbn [length]; lia.
    + rewrite Ht in *. split; [|split; [|congruence]].
      * etrans; [|exact Hp]. by apply prefix_app_r.
      * rewrite filter_cons, decide_True by (by rewrite Hins).
        rewrite length_app in Hl. cbn [length] in *. lia.
Qed.

(** ** Identifiers of the in-memory store *)

Lemma ids_frescos_crearSolicitud st ahora datos :
  ids_frescos st -> id datos = None ->
  ids_frescos (Mock.crearSolicitud st ahora datos).2.
Proof.
  intros (Hpos & Hlt & Hnd) Hid. unfold Mock.crearSolicitud.
  rewrite toISOString_valid, Hid. cbn [snd].
  split; [|split]; cbn [Mock.solicitudes Mock.idCounter].
  - lia.
  - apply Forall_app. split.
    + eapply Forall_impl; [exact Hlt|]. intros s (i & Hi & Hr). exists i. split; [done|lia].
    + apply Forall_singleton. exists (Mock.idCounter st). split; [done|lia].
  - rewrite fmap_app. apply NoDup_app. split; [done|]. split.
    + intros o Ho [->|[]%elem_of_nil]%elem_of_cons.
      apply list_elem_of_fmap in Ho as (s & Hs & Hin).
      rewrite Forall_forall in Hlt. destruct (Hlt s Hin) as (i & Hi & Hr).
      cbn [id] in Hs. rewrite Hi in Hs. injection Hs as Hs. lia.
    + apply NoDup_singleton.
Qed.

(** X2. In memory, as long as the records handed to [crearSolicitud] carry no
    [id] of their own, every stored record has a positive [id] below the
    counter and no two stored records share an [id], after any sequence of
    calls; this holds from the empty store on. *)
Theorem X2_ids_unicos (tz : Z) (calls : list Call) (st : Mock.Store) :
  ids_frescos st ->
  Forall sin_id_propio calls ->
  ids_frescos (session (mock tz) calls st).
Proof.
  unfold session. revert st. induction calls as [|c calls IH]; intros st Hst Hall; [done|].
  apply Forall_cons in Hall as [Hc Hall]. cbn [foldl]. apply IH; [|done].
  rewrite call_mock. destruct c; cbn [is_insert]; try done.
  by apply ids_frescos_crearSolicitud.
Qed.

(** From the empty store, three inserts interleaved with reads give the
    records the identifiers 1, 2 and 3. *)
Lemma X2_ids_unicos_witness :
  ids_frescos Mock.resetMockData
  /\ id <$> Mock.solicitudes
       (session (mock caracas)
          [CrearSolicitud miercoles (registro "consulta" "2024-02-07" "V-1");
           CuposDisponibles "consulta" (ValidDate miercoles);
           CrearSolicitud miercoles (registro "reembolso" "2024-02-07" "V-1");
           ReporteDiario "2024-02-07";
           CrearSolicitud jueves (registro "emergencia" "2024-02-08" "V-2")]
          Mock.resetMockData)
     = [Some 1; Some 2; Some 3]
  /\ NoDup (id <$> Mock.solicitudes
       (session (mock caracas)
          [CrearSolicitud miercoles (registro "consulta" "2024-02-07" "V-1");
           CuposDisponibles "consulta" (ValidDate miercoles);
           CrearSolicitud miercoles (registro "reembolso" "2024-02-07" "V-1");
           ReporteDiario "2024-02-07";
           CrearSolicitud jueves (registro "emergencia" "2024-02-08" "V-2")]
          Mock.resetMockData)).
Proof.
  assert (ids_frescos Mock.resetMockData) as H0.
  { split; [vm_compute; discriminate|]. split; [constructor|constructor]. }
  split; [exact H0|]. split; [vm_compute; reflexivity|].
  apply (X2_ids_unicos caracas _ Mock.resetMockData H0).
  repeat constructor.
Defined.

(** ** Storing a record, then reading *)

Lemma Mock_getDatosReporteDiario_eq st f :
  Mock.getDatosReporteDiario st f
  = Return (filter (fun s => fecha_solicitud s = Some f) (Mock.solicitudes st)).
Proof. reflexivity. Qed.



(** ** Capacity and tickets after an insert *)

Lemma countMatching_snoc tipos fecha l x :
  Z.of_nat (countMatching tipos fecha (l ++ [x]))
  = Z.of_nat (countMatching tipos fecha l) + cuenta tipos fecha x.
Proof.
  rewrite countMatching_app, countMatching_one. unfold cuenta. case_decide; lia.
Qed.

Lemma cuenta_sin_id tipos fecha x y : sin_id x = sin_id y -> cuenta tipos fecha x = cuenta tipos fecha y.
Proof.
  intros H. unfold cuenta.
  by rewrite (f_equal tipo_solicitud H : tipo_solicitud x = tipo_solicitud y),
    (f_equal fecha_solicitud H : fecha_solicitud x = fecha_solicitud y).
Qed.

(** X4. Storing a record lowers the remaining capacity of a type for a day
    by one, and raises the next ticket number of a prefix by one, exactly
    when the record is of that family and for that day; otherwise both stay
    as they were. So reimbursements never use up consultation capacity,
    consultations and annual exams use up the same one, and no record
    affects another day. In memory, and against the database when no
    request fails, the table accepts the row, and the limit is configured
    as a number that, with the size of the table, stays within the
    integers a double holds exactly. *)
Theorem X4_crearSolicitud_consume_cupo (tz : Z) (ahora : Z) (datos : Solicitud)
    (tipo prefijo : string) (t : Z) :
  (forall st,
     let st' := (Mock.crearSolicitud st ahora datos).2 in
     exists r n,
       Mock.getCuposDisponibles tz st tipo (ValidDate t) = Return (Num r)
       /\ Mock.getCuposDisponibles tz st' tipo (ValidDate t)
          = Return (Num (r - cuenta (tipoQuery tipo) (ISODate t) datos))
       /\ Mock.getSiguienteNumeroTurno st prefijo (ValidDate t)
          = Return (Some (ticket prefijo n))
       /\ Mock.getSiguienteNumeroTurno st' prefijo (ValidDate t)
          = Return (Some (ticket prefijo (n + cuenta (family prefijo) (ISODate t) datos))))
  /\ (forall db valor limiteCupos,
        sin_fallos db ->
        (forall fila, Supabase.admite db (Supabase.tabla_solicitudes db) fila = true) ->
        valores (claveLimite tz tipo (ValidDate t)) db = [valor] ->
        parseInt10 valor = Num limiteCupos ->
        Z.abs limiteCupos + Z.of_nat (length (Supabase.tabla_solicitudes db))
        < MAX_SAFE_INTEGER ->
        let db' := (Durable.crearSolicitud ahora datos db).2 in
        exists r n,
          (Durable.getCuposDisponibles tz tipo (ValidDate t) db).1 = Return (Num r)
          /\ (Durable.getCuposDisponibles tz tipo (ValidDate t) db').1
             = Return (Num (r - cuenta (tipoQuery tipo) (ISODate t) datos))
          /\ (Durable.getSiguienteNumeroTurno prefijo (ValidDate t) db).1
             = Return (Some (ticket prefijo n))
          /\ (Durable.getSiguienteNumeroTurno prefijo (ValidDate t) db').1
             = Return (Some (ticket prefijo
                               (n + cuenta (family prefijo) (ISODate t) datos)))).
Proof.
  split.
  - intros st st'. subst st'.
    destruct (Mock_crearSolicitud_stored st ahora datos) as (x & -> & _ & Ht & Hf & _).
    cbn [snd]. eexists _, _.
    rewrite !Mock_getCuposDisponibles_valid, !Mock_getSiguienteNumeroTurno_valid.
    cbn [Mock.solicitudes]. rewrite !countMatching_snoc.
    assert (forall tipos, cuenta tipos (ISODate t) x = cuenta tipos (ISODate t) datos) as Hc
      by (intros tipos; unfold cuenta; by rewrite Ht, Hf).
    rewrite !Hc. split; [reflexivity|]. split; [do 2 apply f_equal; lia|].
    split; [reflexivity|]. unfold ticket. do 7 apply f_equal. lia.
  - intros db valor limiteCupos Hok Hadm Hv Hp _ db'. subst db'.
    destruct (Durable_crearSolicitud_cases ahora datos db)
      as [(x & db' & -> & _ & Hx & Ht & Hcfg & Hfl)|(db' & _ & _ & [Hbad|[fila Hbad]])].
    + cbn [snd].
      assert (sin_fallos db') as Hok'.
      { unfold sin_fallos in *. rewrite Hfl.
        destruct (Supabase.fallos db) as [|o l]; [done|].
        by apply Forall_cons in Hok as [_ ?]. }
      assert (valores (claveLimite tz tipo (ValidDate t)) db' = [valor]) as Hv'
        by (unfold valores in *; by rewrite Hcfg).
      eexists _, _.
      rewrite !Durable_getCuposDisponibles_ok, !Durable_getSiguienteNumeroTurno_ok by done.
      rewrite Hv, Hv', Ht. cbn [Supabase.single]. rewrite !countMatching_snoc.
      rewrite !(cuenta_sin_id _ _ x datos Hx). rewrite Hp. cbn [minus].
      split; [reflexivity|]. split.
      * do 2 apply f_equal. lia.
      * split; [reflexivity|]. unfold ticket. do 7 apply f_equal. lia.
    + exfalso. unfold sin_fallos in Hok.
      destruct (Supabase.fallos db) as [|[e|] l]; simpl in Hbad; try done.
      by apply Forall_cons in Hok as [[=] _].
    + by rewrite Hadm in Hbad.
Qed.

(** Against an empty database with the limits of [mockData.js]: after one
    consultation is stored for Wednesday 7 February 2024, nine places are
    left for that day. *)
Lemma X4_crearSolicitud_consume_cupo_witness :
  (Durable.getCuposDisponibles caracas "consulta" (ValidDate miercoles)
     (Durable.crearSolicitud miercoles (registro "consulta" "2024-02-07" "V-1")
        (base [] [])).2).1
  = Return (Num 9).
Proof.
  assert (sin_fallos (base [] [])) as Hok by constructor.
  destruct (X4_crearSolicitud_consume_cupo caracas miercoles
              (registro "consulta" "2024-02-07" "V-1") "consulta" "C" miercoles)
    as [_ Hdb].
  assert (valores (claveLimite caracas "consulta" (ValidDate miercoles)) (base [] [])
          = ["10"]) as Hv by (vm_compute; reflexivity).
  assert (Z.abs 10 + Z.of_nat (length (Supabase.tabla_solicitudes (base [] [])))
          < MAX_SAFE_INTEGER) as Hb by (vm_compute; reflexivity).
  destruct (Hdb (base [] []) "10" 10 Hok (fun _ => eq_refl) Hv eq_refl Hb)
    as (r & n & H1 & H2 & _).
  etrans; [exact H2|]. vm_compute in H1. injection H1 as <-. vm_compute. reflexivity.
Defined.

(** ** Reading a ticket back *)
Module TicketFacts.

Lemma digits_value_acc s a :
  digits_value a s
  = (fun v => a * 10 ^ Z.of_nat (String.length s) + v) <$> digits_value 0 s.
Proof.
  revert a. induction s as [|c s IH]; intros a.
  - simpl. f_equal. lia.
  - cbn [digits_value String.length]. destruct (is_digit c); [|reflexivity].
    rewrite (IH (10 * a + _)), (IH (10 * 0 + _)).
    rewrite Nat2Z.inj_succ, Z.pow_succ_r by lia.
    destruct (digits_value 0 s) as [v|]; [|reflexivity].
    cbn [fmap option_fmap option_map]. f_equal. lia.
Qed.

Lemma digits_value_digits a s v :
  digits_value a s = Some v -> Forall (fun c => is_digit c = true) (chars_of s).
Proof.
  revert a. induction s as [|c s IH]; intros a; simpl; [constructor|].
  destruct (is_digit c) eqn:E; [|discriminate]. intros H. constructor; eauto.
Qed.

Lemma pretty_N_char_digit x : pretty_N_char x = digit (Z.of_N x).
Proof. unfold digit. by rewrite N2Z.id. Qed.

(** The digits [pretty_N_go] puts in front of a number read as a number. *)
Lemma digits_value_pretty_N_go x s v :
  digits_value 0 s = Some v ->
  digits_value 0 (pretty_N_go x s)
  = Some (Z.of_N x * 10 ^ Z.of_nat (String.length s) + v).
Proof.
  revert s v. induction (N.lt_wf_0 x) as [x _ IH]; intros s v Hs.
  destruct (decide (x = 0%N)) as [->|Hx].
  - rewrite pretty_N_go_0, Hs. f_equal; lia.
  - rewrite pretty_N_go_step by lia.
    assert (0 <= Z.of_N (x mod 10)%N <= 9) as Hm
      by (rewrite N2Z.inj_mod; change (Z.of_N 10) with 10;
          pose proof (Z.mod_pos_bound (Z.of_N x) 10); lia).
    erewrite IH; [| apply N.div_lt; lia |].
    2:{ cbn [digits_value]. rewrite pretty_N_char_digit, digit_is_digit, digit_code by done.
        rewrite digits_value_acc, Hs. reflexivity. }
    f_equal. cbn [String.length]. rewrite Nat2Z.inj_succ, Z.pow_succ_r by lia.
    rewrite N2Z.inj_div. rewrite N2Z.inj_mod in *.
    change (Z.of_N 10) with 10 in *.
    pose proof (Z.div_mod (Z.of_N x) 10 ltac:(lia)) as Hdm. nia.
Qed.

(** [Number(String(n))] is [n]. *)
Lemma digits_value_ToString n : 0 <= n -> digits_value 0 (ToString (Num n)) = Some n.
Proof.
  intros Hn. destruct n as [|p|p]; [reflexivity| |lia].
  change (ToString (Num (Z.pos p))) with (pretty_N_go (N.pos p) "").
  rewrite (digits_value_pretty_N_go _ _ 0) by reflexivity. f_equal. simpl. lia.
Qed.

Lemma digits_value_zeros k s : digits_value 0 (repeat_char "0" k +:+ s) = digits_value 0 s.
Proof. induction k as [|k IH]; [reflexivity|]. cbn [repeat_char]. by rewrite app_cons. Qed.

(** The padded number of a ticket reads back as the number. *)
Lemma digits_value_padStart n :
  0 <= n -> digits_value 0 (padStart 3 "0" (ToString (Num n))) = Some n.
Proof. intros Hn. unfold padStart. by rewrite digits_value_zeros, digits_value_ToString. Qed.

Lemma padStart_without_dash n :
  0 <= n -> Forall (fun c => c <> "-"%char) (chars_of (padStart 3 "0" (ToString (Num n)))).
Proof.
  intros Hn. eapply Forall_impl; [exact (digits_value_digits _ _ _ (digits_value_padStart n Hn))|].
  by intros c Hc ->.
Qed.

Lemma ticket_inj p n m : 0 <= n -> 0 <= m -> ticket p n = ticket p m -> n = m.
Proof.
  intros Hn Hm. unfold ticket. intros H.
  apply (inj (String.app p)), (inj (String.app "-")) in H.
  pose proof (digits_value_padStart n Hn) as En. rewrite H, digits_value_padStart in En by done.
  congruence.
Qed.

End TicketFacts.

Import TicketFacts.

(** X5. The ticket [getSiguienteNumeroTurno] returns can be read back: for a
    prefix without a dash it splits at the dash into the prefix and a run
    of digits whose value is the number of records of the family for the
    day plus one, however large (numbers above 999 are written in full, not
    cut to three digits). Hence two stores give the same ticket for a
    prefix and day only when they hold equally many such records. *)
Theorem X5_ticket_se_lee (st : Mock.Store) (prefijo : string) (t : Z) :
  Forall (fun c => c <> "-"%char) (chars_of prefijo) ->
  (exists digitos,
     Mock.getSiguienteNumeroTurno st prefijo (ValidDate t)
     = Return (Some (prefijo +:+ "-" +:+ digitos))
     /\ split "-" (prefijo +:+ "-" +:+ digitos) = [prefijo; digitos]
     /\ ToNumber (Some digitos)
        = Num (Z.of_nat (countMatching (family prefijo) (ISODate t) (Mock.solicitudes st)) + 1))
  /\ (forall st',
        Mock.getSiguienteNumeroTurno st' prefijo (ValidDate t)
        = Mock.getSiguienteNumeroTurno st prefijo (ValidDate t) ->
        countMatching (family prefijo) (ISODate t) (Mock.solicitudes st')
        = countMatching (family prefijo) (ISODate t) (Mock.solicitudes st)).
Proof.
  intros Hp. split.
  - eexists. rewrite Mock_getSiguienteNumeroTurno_valid. split; [reflexivity|].
    split.
    + change ("-" +:+ ?s) with (String "-" s). rewrite split_app by done.
      by rewrite split_none by (apply padStart_without_dash; lia).
    + unfold ToNumber. by rewrite digits_value_padStart by lia.
  - intros st'. rewrite !Mock_getSiguienteNumeroTurno_valid. intros [= H].
    apply (ticket_inj prefijo) in H; lia.
Qed.

(** A day with 1234 consultations: the next ticket is [C-1235], and it reads
    back as 1235. *)
Lemma X5_ticket_se_lee_witness :
  Mock.getSiguienteNumeroTurno (almacen (consultas "2024-02-07" 1234)) "C" (ValidDate miercoles)
  = Return (Some "C-1235")
  /\ split "-" "C-1235" = ["C"; "1235"]
  /\ ToNumber (Some "1235") = Num 1235.
Proof.
  assert (Forall (fun c => c <> "-"%char) (chars_of "C")) as Hp
    by (repeat constructor; discriminate).
  destruct (X5_ticket_se_lee (almacen (consultas "2024-02-07" 1234)) "C" miercoles Hp)
    as [(digitos & H1 & H2 & H3) _].
  vm_compute in H1. injection H1 as <-.
  split; [reflexivity|]. split; [exact H2 | exact H3].
Defined.

(** ** Nothing reaches the caller as an exception *)
Module SettleFacts.

Lemma settles_try_catch {A} (body : completion A) handler :
  (forall e, settles (handler e)) -> settles (try_catch body handler).
Proof. intros H. destruct body as [a|e]; [by exists a|apply H]. Qed.

Lemma settles_qtry {A} (body : Supabase.Query A) handler db :
  (forall e db', settles (handler e db').1) -> settles (Supabase.qtry body handler db).1.
Proof.
  intros H. unfold Supabase.qtry. destruct (body db) as [[a|e] db']; [by exists a|apply H].
Qed.

Lemma settles_Return {A} (a : A) : settles (Return a).
Proof. by exists a. Qed.

End SettleFacts.

Import SettleFacts.

(** X6. None of the six functions [database.js] exports ever throws (the
    promise it returns is never rejected), whichever backend is behind
    them, whatever the arguments (an Invalid Date, any text for a month),
    whatever the store holds and whichever requests fail. *)
Theorem X6_exports_never_throw (tz : Z) (supabaseConfigured : bool)
    (e : estado (exports tz supabaseConfigured)) :
  let B := exports tz supabaseConfigured in
  (forall tipo fecha, settles (getCuposDisponibles B tipo fecha e).1)
  /\ (forall prefijo fecha, settles (getSiguienteNumeroTurno B prefijo fecha e).1)
  /\ (forall ahora datos, settles (crearSolicitud B ahora datos e).1)
  /\ (forall fechaString, settles (getDatosReporteDiario B fechaString e).1)
  /\ (forall mesString, settles (getDatosReporteMensual B mesString e).1)
  /\ (forall cedula_ fecha, settles (checkExistingAppointment B cedula_ fecha e).1).
Proof.
  destruct supabaseConfigured;
    cbn [exports durable mock estado getCuposDisponibles getSiguienteNumeroTurno
         crearSolicitud getDatosReporteDiario getDatosReporteMensual
         checkExistingAppointment fst] in e |- *.
  - repeat split; intros; apply settles_qtry; intros; apply settles_Return.
  - repeat split; intros; try (apply settles_try_catch; intros; apply settles_Return).
    unfold Mock.crearSolicitud.
    destruct (toISOString (ValidDate ahora)); apply settles_Return.
Qed.

(** ** The daily report within the monthly report *)

Lemma filter_dia_mes y m d (l : list Solicitud) :
  0 <= y <= 9999 -> 0 <= m <= 99 -> 1 <= d <= days_in_month y m ->
  filter (fun s => fecha_solicitud s = Some (year_month_day y m d))
    (filter (fun s => ge_string (fecha_solicitud s) (year_month_day y m 1)
                      && le_string (fecha_solicitud s)
                           (year_month_day y m (days_in_month y m))) l)
  = filter (fun s => fecha_solicitud s = Some (year_month_day y m d)) l.
Proof.
  intros Hy Hm Hd. pose proof (days_in_month_range y m) as Hr.
  rewrite list_filter_filter. apply list_filter_iff. intros s. split; [tauto|].
  intros Hs. split; [done|]. rewrite Hs. apply Is_true_true.
  apply (month_range y m (days_in_month y m) y m d); lia.
Qed.

Lemma filter_none {A} (P : A -> Prop) `{!forall x, Decision (P x)} (l : list A) :
  (forall x, ~ P x) -> filter P l = [].
Proof.
  intros HP. induction l as [|x l IH]; [done|].
  by rewrite filter_cons, decide_False by apply HP.
Qed.

Lemma filter_fuera_mes y m y' m' d' (l : list Solicitud) :
  0 <= y <= 9999 -> 0 <= m <= 99 ->
  0 <= y' <= 9999 -> 0 <= m' <= 99 -> 0 <= d' <= 99 ->
  ~ (y' = y /\ m' = m /\ 1 <= d' <= days_in_month y m) ->
  filter (fun s => fecha_solicitud s = Some (year_month_day y' m' d'))
    (filter (fun s => ge_string (fecha_solicitud s) (year_month_day y m 1)
                      && le_string (fecha_solicitud s)
                           (year_month_day y m (days_in_month y m))) l)
  = [].
Proof.
  intros Hy Hm Hy' Hm' Hd' Hout. pose proof (days_in_month_range y m) as Hr.
  rewrite list_filter_filter. apply filter_none.
  intros s [Hs Hin]. rewrite Hs in Hin. apply Is_true_true in Hin.
  apply (month_range y m (days_in_month y m) y' m' d') in Hin; [tauto|lia..].
Qed.

(** X8. The daily report of a day of the calendar is the part of the
    monthly report of its month dated that day, in the same order: every
    record a daily report shows is in the monthly report. The report of a
    month [YYYY-MM] holds no record dated [YYYY-MM-DD] outside the days of
    that month; so a record stored under a day past the end of its month (a
    30th of February) is in the daily report of that text and in the report
    of no month [YYYY-MM] (the report of a bare year is another matter).
    In memory, and against the database when no request fails. *)
Theorem X8_diario_en_mensual (tz y m : Z) :
  1 <= y <= 9999 -> 1 <= m <= 12 -> Z.abs tz <= msPerDay ->
  let fuera (mes : list Solicitud) :=
    (forall y' m' d',
       0 <= y' <= 9999 -> 0 <= m' <= 99 -> 0 <= d' <= 99 ->
       ~ (y' = y /\ m' = m /\ 1 <= d' <= days_in_month y m) ->
       filter (fun s => fecha_solicitud s = Some (year_month_day y' m' d')) mes = [])
    /\ (forall y' m' d',
          0 <= y' <= 9999 -> 0 <= m' <= 99 -> days_in_month y' m' < d' <= 99 ->
          filter (fun s => fecha_solicitud s = Some (year_month_day y' m' d')) mes = []) in
  (forall st, exists mes,
     Mock.getDatosReporteMensual tz st (year_month y m) = Return mes
     /\ (forall d, 1 <= d <= days_in_month y m ->
           Mock.getDatosReporteDiario st (year_month_day y m d)
           = Return (filter (fun s => fecha_solicitud s = Some (year_month_day y m d)) mes))
     /\ fuera mes)
  /\ (forall db, sin_fallos db -> exists mes,
        (Durable.getDatosReporteMensual tz (year_month y m) db).1 = Return mes
        /\ (forall d, 1 <= d <= days_in_month y m ->
              (Durable.getDatosReporteDiario (year_month_day y m d) db).1
              = Return (filter (fun s => fecha_solicitud s = Some (year_month_day y m d)) mes))
        /\ fuera mes).
Proof.
  intros Hy Hm Htz fuera.
  assert (forall l,
            fuera (filter (fun s =>
                     ge_string (fecha_solicitud s) (year_month_day y m 1)
                     && le_string (fecha_solicitud s)
                          (year_month_day y m (days_in_month y m))) l)) as Hfuera.
  { intros l. split.
    - intros y' m' d' Hy' Hm' Hd' Hout. apply filter_fuera_mes; (done || lia).
    - intros y' m' d' Hy' Hm' Hd'. pose proof (days_in_month_range y' m') as Hr.
      apply filter_fuera_mes; try (done || lia).
      intros (-> & -> & Hin). lia. }
  split.
  - intros st. eexists. split; [by apply Mock_getDatosReporteMensual_month|]. split.
    + intros d Hd. rewrite Mock_getDatosReporteDiario_eq, filter_dia_mes by lia. done.
    + apply Hfuera.
  - intros db Hok. eexists. split; [by apply Durable_getDatosReporteMensual_month|]. split.
    + intros d Hd. rewrite Durable_getDatosReporteDiario_ok, filter_dia_mes by (done || lia). done.
    + apply Hfuera.
Qed.

(** February 2024 in memory: a record of the 7th, one of the 29th and one
    stored under the 30th. The report of the 29th is its part of the month;
    the record of the 30th is in no part of it. *)
Lemma X8_diario_en_mensual_witness :
  Mock.getDatosReporteDiario
    (almacen [registro "consulta" "2024-02-07" "V-1"; registro "ecor" "2024-02-29" "V-2";
              registro "consulta" "2024-02-30" "V-3"]) "2024-02-29"
  = Return [registro "ecor" "2024-02-29" "V-2"]
  /\ Mock.getDatosReporteMensual caracas
       (almacen [registro "consulta" "2024-02-07" "V-1"; registro "ecor" "2024-02-29" "V-2";
                 registro "consulta" "2024-02-30" "V-3"]) "2024-02"
     = Return [registro "consulta" "2024-02-07" "V-1"; registro "ecor" "2024-02-29" "V-2"].
Proof.
  assert (1 <= 2024 <= 9999) as Hy by lia.
  assert (1 <= 2 <= 12) as Hm by lia.
  assert (Z.abs caracas <= msPerDay) as Htz by (vm_compute; discriminate).
  destruct (X8_diario_en_mensual caracas 2024 2 Hy Hm Htz) as [Hmock _].
  destruct (Hmock (almacen [registro "consulta" "2024-02-07" "V-1";
                            registro "ecor" "2024-02-29" "V-2";
                            registro "consulta" "2024-02-30" "V-3"]))
    as (mes & Hmes & Hdia & _).
  assert (mes = [registro "consulta" "2024-02-07" "V-1"; registro "ecor" "2024-02-29" "V-2"])
    as Emes by (vm_compute in Hmes; by injection Hmes).
  split.
  - etrans; [apply (Hdia 29); vm_compute; split; discriminate|].
    rewrite Emes. vm_compute. reflexivity.
  - rewrite <- Emes. exact Hmes.
Defined.

(** ** The days the scheduled report covers *)

Lemma getReportDateString_atras tz t :
  Z.abs (t - 3 * msPerDay) <= maxTime -> Z.abs (t - msPerDay) <= maxTime ->
  Index.getReportDateString tz (ValidDate t)
  = toLocaleDateString_enCA tz
      (ValidDate (t - (if decide (WeekDay (LocalTime tz t) = 1) then 3 else 1) * msPerDay)).
Proof.
  intros H3 H1. unfold Index.getReportDateString. cbv zeta.
  assert (getDay tz (ValidDate t) = Num (WeekDay (LocalTime tz t))) as -> by reflexivity.
  destruct (decide (WeekDay (LocalTime tz t) = 1)) as [Hl|Hl].
  - rewrite decide_True by (by rewrite Hl). rewrite setDate_shift.
    unfold TimeClip. by destruct (Z.leb_spec (Z.abs (t - 3 * msPerDay)) maxTime); [|lia].
  - rewrite decide_False by (intros [=]; done). rewrite setDate_shift.
    unfold TimeClip. by destruct (Z.leb_spec (Z.abs (t - 1 * msPerDay)) maxTime); [|lia].
Qed.

Lemma WeekDay_atras tz t k :
  WeekDay (LocalTime tz (t - k * msPerDay)) = (WeekDay (LocalTime tz t) - k) mod 7.
Proof.
  unfold WeekDay, LocalTime.
  replace (t - k * msPerDay + tz) with (t + tz - k * msPerDay) by lia.
  by rewrite Day_shift, WeekDay_shift.
Qed.

(** X9. The day [getReportDateString] reports is one to three days before
    the trigger and never a Sunday: a trigger from Tuesday to Saturday
    reports the day before (Monday to Friday), a Monday trigger reports
    Friday, and a Sunday trigger reports Saturday. So Sunday's records are
    reported by no trigger, Saturday's only by a trigger on Sunday, and
    Friday's by the trigger of Saturday and again, with the same date, by
    the trigger of the Monday after. *)
Theorem X9_getReportDateString_semana (tz t : Z) :
  Z.abs (t - 3 * msPerDay) <= maxTime -> Z.abs (t + 2 * msPerDay) <= maxTime ->
  let dia x := WeekDay (LocalTime tz x) in
  (exists k,
     1 <= k <= 3
     /\ Index.getReportDateString tz (ValidDate t)
        = toLocaleDateString_enCA tz (ValidDate (t - k * msPerDay))
     /\ dia (t - k * msPerDay) <> 0
     /\ (dia (t - k * msPerDay) = 6 <-> dia t = 0)
     /\ (dia (t - k * msPerDay) = 5 <-> dia t = 1 \/ dia t = 6)
     /\ (2 <= dia t <= 6 -> dia (t - k * msPerDay) = dia t - 1))
  /\ (dia t = 6 ->
      Index.getReportDateString tz (ValidDate (t + 2 * msPerDay))
      = Index.getReportDateString tz (ValidDate t)).
Proof.
  intros H3 H2 dia.
  assert (0 < msPerDay) as Hd by (vm_compute; reflexivity).
  assert (Z.abs (t - msPerDay) <= maxTime) as H1 by lia.
  assert (0 <= dia t < 7) as Hr by (apply Z.mod_pos_bound; lia).
  split.
  - exists (if decide (dia t = 1) then 3 else 1).
    split; [case_decide; lia|]. split; [by apply getReportDateString_atras|].
    subst dia. cbv beta in *. rewrite WeekDay_atras.
    destruct (decide (WeekDay (LocalTime tz t) = 1)) as [E|E].
    + rewrite E. change ((1 - 3) mod 7) with 5. lia.
    + revert Hr E. generalize (WeekDay (LocalTime tz t)). intros w Hr E.
      assert (w = 0 \/ w = 2 \/ w = 3 \/ w = 4 \/ w = 5 \/ w = 6) as Hw by lia.
      destruct Hw as [Hw|[Hw|[Hw|[Hw|[Hw|Hw]]]]]; subst w; vm_compute; intuition congruence.
  - intros Hs.
    assert (dia (t + 2 * msPerDay) = 1) as Hl.
    { subst dia. cbv beta in *.
      replace (t + 2 * msPerDay) with (t - (-2) * msPerDay) by lia.
      rewrite WeekDay_atras, Hs. reflexivity. }
    subst dia. cbv beta in *.
    rewrite !getReportDateString_atras by lia.
    rewrite decide_True by done. rewrite (decide_False (P := _ = 1)) by lia.
    do 2 f_equal. lia.
Qed.

(** Saturday 6 April 2024, 08:00 in Caracas: the report is Friday's, and
    the trigger of Monday 8 April reports the same date. *)
Lemma X9_getReportDateString_semana_witness :
  Index.getReportDateString caracas (ValidDate (martes + 4 * msPerDay)) = "2024-04-05"
  /\ Index.getReportDateString caracas (ValidDate (martes + 4 * msPerDay + 2 * msPerDay))
     = Index.getReportDateString caracas (ValidDate (martes + 4 * msPerDay)).
Proof.
  assert (Z.abs (martes + 4 * msPerDay - 3 * msPerDay) <= maxTime) as H3
    by (vm_compute; discriminate).
  assert (Z.abs (martes + 4 * msPerDay + 2 * msPerDay) <= maxTime) as H2
    by (vm_compute; discriminate).
  destruct (X9_getReportDateString_semana caracas (martes + 4 * msPerDay) H3 H2)
    as [_ Hsab].
  split; [vm_compute; reflexivity|]. apply Hsab. vm_compute. reflexivity.
Defined.

(** ** Remaining capacity and the next ticket *)

Lemma family_tipoQuery tipo prefijo :
  (tipo = "consulta" /\ prefijo <> "R") \/ (tipo <> "consulta" /\ prefijo = "R") ->
  family prefijo = tipoQuery tipo.
Proof.
  unfold family, tipoQuery. intros [[-> Hp]|[Ht ->]].
  - by rewrite decide_False, decide_True.
  - by rewrite decide_True, decide_False.
Qed.

(** X10. The remaining capacity of a type and the next ticket number of its
    prefix (any prefix but [R] for consultations, [R] for reimbursements)
    move together: they always add up to the limit of the day plus one. So
    as long as a place is left the ticket number handed out is at most the
    limit (at most 20 in memory), and once the number would pass the limit
    no place is left. In memory, and against the database when no request
    fails and the limit is configured as a number that, with the size of
    the table, stays within the integers a double holds exactly. *)
Theorem X10_cupos_mas_turno (tz : Z) (tipo prefijo : string) (t : Z) :
  (tipo = "consulta" /\ prefijo <> "R") \/ (tipo = "reembolso" /\ prefijo = "R") ->
  (forall st, exists r n,
     Mock.getCuposDisponibles tz st tipo (ValidDate t) = Return (Num r)
     /\ Mock.getSiguienteNumeroTurno st prefijo (ValidDate t)
        = Return (Some (ticket prefijo n))
     /\ r + n = Mock.limite (claveLimite tz tipo (ValidDate t)) + 1
     /\ 1 <= n
     /\ (0 < r -> n <= 20))
  /\ (forall db valor limiteCupos,
        sin_fallos db ->
        valores (claveLimite tz tipo (ValidDate t)) db = [valor] ->
        parseInt10 valor = Num limiteCupos ->
        Z.abs limiteCupos + Z.of_nat (length (Supabase.tabla_solicitudes db))
        < MAX_SAFE_INTEGER ->
        exists r n,
          (Durable.getCuposDisponibles tz tipo (ValidDate t) db).1 = Return (Num r)
          /\ (Durable.getSiguienteNumeroTurno prefijo (ValidDate t) db).1
             = Return (Some (ticket prefijo n))
          /\ r + n = limiteCupos + 1
          /\ 1 <= n
          /\ (0 < r -> n <= limiteCupos)).
Proof.
  intros Hfam.
  assert (family prefijo = tipoQuery tipo) as Ef.
  { apply family_tipoQuery. destruct Hfam as [[-> ?]|[-> ->]]; [by left|by right]. }
  split.
  - intros st. eexists _, _.
    rewrite Mock_getCuposDisponibles_valid, Mock_getSiguienteNumeroTurno_valid, Ef.
    split; [reflexivity|]. split; [reflexivity|].
    assert (Mock.limite (claveLimite tz tipo (ValidDate t)) <= 20) as Hl.
    { destruct limite_values as (E1 & E2 & E3). destruct Hfam as [[-> _]|[-> _]].
      - rewrite claveLimite_consulta. case_decide; lia.
      - unfold claveLimite. rewrite decide_False by (intros [[=] _]).
        change ("cupos_" +:+ "reembolso") with "cupos_reembolso". lia. }
    lia.
  - intros db valor limiteCupos Hok Hv Hp _. eexists _, _.
    rewrite Durable_getCuposDisponibles_ok, Durable_getSiguienteNumeroTurno_ok by done.
    rewrite Hv, Ef. cbn [Supabase.single]. rewrite Hp. cbn [minus].
    split; [reflexivity|]. split; [reflexivity|]. lia.
Qed.

(** A Wednesday with nine consultations in memory: one place is left and
    the ticket is the tenth. *)
Lemma X10_cupos_mas_turno_witness :
  Mock.getCuposDisponibles caracas (almacen (consultas "2024-02-07" 9)) "consulta"
    (ValidDate miercoles) = Return (Num 1)
  /\ Mock.getSiguienteNumeroTurno (almacen (consultas "2024-02-07" 9)) "C"
       (ValidDate miercoles) = Return (Some "C-010").
Proof.
  assert (("consulta" = "consulta" /\ "C" <> "R") \/ ("consulta" = "reembolso" /\ "C" = "R"))
    as Hfam by (left; split; [reflexivity|discriminate]).
  destruct (X10_cupos_mas_turno caracas "consulta" "C" miercoles Hfam) as [Hmock _].
  destruct (Hmock (almacen (consultas "2024-02-07" 9))) as (r & n & Hr & Hn & _).
  split.
  - rewrite Hr. vm_compute in Hr. by injection Hr as <-.
  - rewrite Hn. vm_compute in Hn. by injection Hn as ->.
Defined.

(** ** Month arguments that are not [YYYY-MM] *)
Module OddMonthFacts.

Lemma digit_lt_N x s1 s2 : String.compare (String (digit x) s1) (String "N" s2) = Lt.
Proof. cbn [String.compare]. unfold digit, pretty_N_char. by repeat case_match. Qed.

Lemma digit_gt_dash x s1 s2 : String.compare (String (digit x) s1) (String "-" s2) = Gt.
Proof. cbn [String.compare]. unfold digit, pretty_N_char. by repeat case_match. Qed.

Lemma dash_lt_digit x s1 s2 : String.compare (String "-" s1) (String (digit x) s2) = Lt.
Proof. cbn [String.compare]. unfold digit, pretty_N_char. by repeat case_match. Qed.

Lemma compare_String c1 c2 s1 s2 :
  String.compare (String c1 s1) (String c2 s2)
  = match Ascii.compare c1 c2 with
    | Eq => String.compare s1 s2
    | c => c
    end.
Proof. reflexivity. Qed.

(** The end of the range for a bare year: the month is [undefined], the
    Date is invalid, its day is [NaN]. *)
Lemma bare_year_end tz y :
  0 <= y <= 9999 ->
  let partes := split "-" (fixed_digits 4 y) in
  fixed_digits 4 y +:+ "-" +:+
    ToString (getDate tz (newDate3 tz (ToNumber (partes !! 0%nat))
                                   (ToNumber (partes !! 1%nat)) (Num 0)))
  = fixed_digits 4 y +:+ "-NaN".
Proof.
  intros Hy. cbv zeta.
  rewrite split_none by apply fixed_digits_without, digit_not_dash.
  cbn [lookup list_lookup]. rewrite (ToNumber_fixed 4) by (simpl; lia). reflexivity.
Qed.

(** The dates [YYYY-MM-DD] between [y-01] and [y-NaN]. *)
Lemma bare_year_range y y' m' d' :
  0 <= y <= 9999 -> 0 <= y' <= 9999 -> 0 <= m' <= 99 -> 0 <= d' <= 99 ->
  ge_string (Some (year_month_day y' m' d')) (fixed_digits 4 y +:+ "-01")
  && le_string (Some (year_month_day y' m' d')) (fixed_digits 4 y +:+ "-NaN") = true
  <-> y' = y /\ 1 <= m'.
Proof.
  intros Hy Hy' Hm' Hd'. unfold ge_string, le_string, String.leb.
  rewrite year_month_day_eq.
  change "-01" with (String "-" (fixed_digits 2 1 +:+ "")).
  change "-NaN" with (String "-" "NaN").
  rewrite !compare_fixed_digits, !compare_dash, compare_fixed_digits.
  change (fixed_digits 2 m') with
    (String (digit ((m' / 10 ^ Z.of_nat 1) mod 10)) (fixed_digits 1 m')).
  rewrite app_cons, digit_lt_N.
  change (10 ^ Z.of_nat 4) with 10000. change (10 ^ Z.of_nat 2) with 100.
  rewrite !Z.mod_small by lia. rewrite andb_true_iff.
  destruct (Z.compare_spec y y'), (Z.compare_spec y' y), (Z.compare_spec 1 m');
    cbn [String.compare]; split; intros; try lia; try (split; congruence || reflexivity);
    try (destruct H2; discriminate).
Qed.

(** A month written with one digit. *)
Lemma one_digit_ends tz y m :
  1 <= y <= 9999 -> 1 <= m <= 9 -> Z.abs tz <= msPerDay ->
  let mes := fixed_digits 4 y +:+ "-" +:+ ToString (Num m) in
  let partes := split "-" mes in
  mes +:+ "-01"
  = fixed_digits 4 y +:+ String "-" (String (digit m) (String "-" (fixed_digits 2 1)))
  /\ mes +:+ "-" +:+
       ToString (getDate tz (newDate3 tz (ToNumber (partes !! 0%nat))
                                      (ToNumber (partes !! 1%nat)) (Num 0)))
     = fixed_digits 4 y +:+
         String "-" (String (digit m) (String "-" (fixed_digits 2 (days_in_month y m)))).
Proof.
  intros Hy Hm Htz. cbv zeta.
  assert (ToString (Num m) = String (digit m) "") as -> by (digit_cases m; reflexivity).
  rewrite !(app_cons "-"), !app_empty.
  rewrite split_app by apply fixed_digits_without, digit_not_dash.
  rewrite (split_none _ (String (digit m) ""))
    by (repeat constructor; apply digit_not_dash).
  cbn [lookup list_lookup]. rewrite (ToNumber_fixed 4) by (simpl; lia).
  assert (ToNumber (Some (String (digit m) "")) = Num m) as ->.
  { unfold ToNumber. cbn [digits_value]. rewrite digit_is_digit, digit_code by lia.
    f_equal. lia. }
  rewrite lastDay_of_month by (assumption || lia).
  rewrite ToString_two_digits by (pose proof (days_in_month_range y m); lia).
  rewrite !string_app_assoc. rewrite !app_cons, !app_empty. done.
Qed.

(** No date [YYYY-MM-DD] lies between [y-m-01] and [y-m-last] when the month
    [m] is written with one digit. *)
Lemma one_digit_range y m last y' m' d' :
  0 <= y <= 9999 -> 0 <= m <= 9 -> 0 <= y' <= 9999 -> 0 <= m' <= 99 ->
  ge_string (Some (year_month_day y' m' d'))
    (fixed_digits 4 y +:+ String "-" (String (digit m) (String "-" (fixed_digits 2 1))))
  && le_string (Some (year_month_day y' m' d'))
       (fixed_digits 4 y +:+ String "-" (String (digit m) (String "-" (fixed_digits 2 last))))
  = false.
Proof.
  intros Hy Hm Hy' Hm'. unfold ge_string, le_string, String.leb.
  rewrite year_month_day_eq.
  rewrite !compare_fixed_digits, !compare_dash.
  change (fixed_digits 2 m') with
    (String (digit ((m' / 10 ^ Z.of_nat 1) mod 10))
       (String (digit ((m' / 10 ^ Z.of_nat 0) mod 10)) "")).
  rewrite !app_cons, app_empty.
  set (a := (m' / 10 ^ Z.of_nat 1) mod 10).
  assert (0 <= a <= 9) as Ha by apply mod10_range.
  change (10 ^ Z.of_nat 4) with 10000. rewrite !Z.mod_small by lia.
  rewrite (compare_String (digit m) (digit a)), (compare_String (digit a) (digit m)).
  rewrite !digit_compare by lia.
  rewrite dash_lt_digit, digit_gt_dash.
  destruct (Z.compare_spec y y'), (Z.compare_spec y' y), (Z.compare_spec m a),
    (Z.compare_spec a m); try reflexivity; lia.
Qed.

Lemma Mock_getDatosReporteMensual_eq tz st mes :
  Mock.getDatosReporteMensual tz st mes
  = let partes := split "-" mes in
    Return (filter (fun s =>
              ge_string (fecha_solicitud s) (mes +:+ "-01")
              && le_string (fecha_solicitud s)
                   (mes +:+ "-" +:+
                    ToString (getDate tz (newDate3 tz (ToNumber (partes !! 0%nat))
                                                   (ToNumber (partes !! 1%nat)) (Num 0)))))
            (Mock.solicitudes st)).
Proof. reflexivity. Qed.

Lemma Durable_getDatosReporteMensual_eq tz db mes :
  sin_fallos db ->
  (Durable.getDatosReporteMensual tz mes db).1
  = let partes := split "-" mes in
    Return (filter (fun s =>
              ge_string (fecha_solicitud s) (mes +:+ "-01")
              && le_string (fecha_solicitud s)
                   (mes +:+ "-" +:+
                    ToString (getDate tz (newDate3 tz (ToNumber (partes !! 0%nat))
                                                   (ToNumber (partes !! 1%nat)) (Num 0)))))
            (Supabase.tabla_solicitudes db)).
Proof.
  intros Hok. unfold Durable.getDatosReporteMensual. cbv zeta. unfold_query.
  by destruct (select_rango_ok (mes +:+ "-01")
                 (mes +:+ "-" +:+
                    ToString (getDate tz (newDate3 tz (ToNumber (split "-" mes !! 0%nat))
                                            (ToNumber (split "-" mes !! 1%nat)) (Num 0))))
                 db Hok) as (db' & -> & _).
Qed.

End OddMonthFacts.

Import OddMonthFacts.

(** X7. What [getDatosReporteMensual] returns for an argument that is not
    [YYYY-MM]. Given a bare year [YYYY], the end of the range is the text
    [YYYY-NaN], and the report holds every record dated [YYYY-MM-DD] in
    that year with a month from 01 on: the whole year. Given a month
    written with one digit ([YYYY-M]), the report holds no record dated
    [YYYY-MM-DD] at all. In memory, and against the database when no
    request fails. *)
Theorem X7_getDatosReporteMensual_otro_formato (tz y : Z) :
  1 <= y <= 9999 -> Z.abs tz <= msPerDay ->
  let fechado (s : Solicitud) y' m' d' :=
    0 <= y' <= 9999 /\ 0 <= m' <= 99 /\ 0 <= d' <= 99
    /\ fecha_solicitud s = Some (year_month_day y' m' d') in
  (forall st, exists anno,
     Mock.getDatosReporteMensual tz st (fixed_digits 4 y) = Return anno
     /\ forall s y' m' d', fechado s y' m' d' ->
          (s ∈ anno <-> s ∈ Mock.solicitudes st /\ y' = y /\ 1 <= m'))
  /\ (forall st m, 1 <= m <= 9 -> exists mes,
        Mock.getDatosReporteMensual tz st (fixed_digits 4 y +:+ "-" +:+ ToString (Num m))
        = Return mes
        /\ forall s y' m' d', fechado s y' m' d' -> s ∉ mes)
  /\ (forall db, sin_fallos db -> exists anno,
        (Durable.getDatosReporteMensual tz (fixed_digits 4 y) db).1 = Return anno
        /\ forall s y' m' d', fechado s y' m' d' ->
             (s ∈ anno <-> s ∈ Supabase.tabla_solicitudes db /\ y' = y /\ 1 <= m'))
  /\ (forall db m, sin_fallos db -> 1 <= m <= 9 -> exists mes,
        (Durable.getDatosReporteMensual tz
           (fixed_digits 4 y +:+ "-" +:+ ToString (Num m)) db).1 = Return mes
        /\ forall s y' m' d', fechado s y' m' d' -> s ∉ mes).
Proof.
  intros Hy Htz fechado.
  assert (forall (l : list Solicitud) s y' m' d', fechado s y' m' d' ->
            s ∈ filter (fun s => ge_string (fecha_solicitud s) (fixed_digits 4 y +:+ "-01")
                                 && le_string (fecha_solicitud s)
                                      (fixed_digits 4 y +:+ "-NaN")) l
            <-> s ∈ l /\ y' = y /\ 1 <= m') as Hanno.
  { intros l s y' m' d' (Hy' & Hm' & Hd' & Hs).
    pose proof (bare_year_range y y' m' d' ltac:(lia) Hy' Hm' Hd') as Hiff.
    rewrite list_elem_of_filter, Hs, Is_true_true, Hiff. tauto. }
  assert (forall (l : list Solicitud) m s y' m' d', 1 <= m <= 9 -> fechado s y' m' d' ->
            s ∉ filter (fun s =>
                   ge_string (fecha_solicitud s)
                     (fixed_digits 4 y +:+
                        String "-" (String (digit m) (String "-" (fixed_digits 2 1))))
                   && le_string (fecha_solicitud s)
                        (fixed_digits 4 y +:+
                           String "-" (String (digit m)
                             (String "-" (fixed_digits 2 (days_in_month y m)))))) l) as Hmes.
  { intros l m s y' m' d' Hm (Hy' & Hm' & Hd' & Hs). rewrite list_elem_of_filter, Hs.
    rewrite one_digit_range by lia. by intros [[] _]. }
  split; [|split; [|split]].
  - intros st. eexists. split; [|apply Hanno].
    rewrite Mock_getDatosReporteMensual_eq. cbv zeta. by rewrite bare_year_end by lia.
  - intros st m Hm. eexists. split; [|intros s y' m' d'; by apply Hmes].
    rewrite Mock_getDatosReporteMensual_eq.
    destruct (one_digit_ends tz y m Hy Hm Htz) as [E1 E2]. cbv zeta in *. by rewrite E1, E2.
  - intros db Hok. eexists. split; [|apply Hanno].
    rewrite Durable_getDatosReporteMensual_eq by done. cbv zeta.
    by rewrite bare_year_end by lia.
  - intros db m Hok Hm. eexists. split; [|intros s y' m' d'; by apply Hmes].
    rewrite Durable_getDatosReporteMensual_eq by done.
    destruct (one_digit_ends tz y m Hy Hm Htz) as [E1 E2]. cbv zeta in *. by rewrite E1, E2.
Qed.

(** In memory, with a record of February and one of November 2024 and one
    of January 2025: the report of [2024] holds the two of 2024, the report
    of [2024-2] is empty. *)
Lemma X7_getDatosReporteMensual_otro_formato_witness :
  Mock.getDatosReporteMensual caracas
    (almacen [registro "consulta" "2024-02-07" "V-1"; registro "ecor" "2024-11-30" "V-2";
              registro "consulta" "2025-01-02" "V-3"]) "2024"
  = Return [registro "consulta" "2024-02-07" "V-1"; registro "ecor" "2024-11-30" "V-2"]
  /\ Mock.getDatosReporteMensual caracas
       (almacen [registro "consulta" "2024-02-07" "V-1"; registro "ecor" "2024-11-30" "V-2";
                 registro "consulta" "2025-01-02" "V-3"]) "2024-2"
     = Return [].
Proof.
  assert (1 <= 2024 <= 9999) as Hy by lia.
  assert (Z.abs caracas <= msPerDay) as Htz by (vm_compute; discriminate).
  destruct (X7_getDatosReporteMensual_otro_formato caracas 2024 Hy Htz) as (Hanno & Hmes & _).
  destruct (Hanno (almacen [registro "consulta" "2024-02-07" "V-1";
                            registro "ecor" "2024-11-30" "V-2";
                            registro "consulta" "2025-01-02" "V-3"])) as (anno & Ea & _).
  destruct (Hmes (almacen [registro "consulta" "2024-02-07" "V-1";
                           registro "ecor" "2024-11-30" "V-2";
                           registro "consulta" "2025-01-02" "V-3"]) 2 ltac:(lia))
    as (mes & Em & _).
  split.
  - etrans; [exact Ea|]. vm_compute in Ea. by injection Ea as <-.
  - etrans; [exact Em|]. vm_compute in Em. by injection Em as <-.
Defined.

(** ** The reports *)
Module ReportFacts.
Import Report.

Lemma same_effects_refl w : same_effects w w.
Proof. by repeat split. Qed.

Lemma same_effects_with_faults w f : same_effects w (with_faults w f).
Proof. by repeat split. Qed.

(** A call that is not one that fails does what it does. *)
Lemma attempt_quiet {A} (op : Proc World A) w :
  quiet w -> exists w0, attempt op w = op w0 /\ same_effects w w0 /\ quiet w0.
Proof.
  unfold quiet, attempt. intros Hq. destruct (faults w) as [|[f|] rest] eqn:E.
  - exists w. split; [done|]. split; [apply same_effects_refl|]. unfold quiet. by rewrite E.
  - by apply Forall_cons in Hq as [[=] _].
  - exists (with_faults w rest). split; [done|]. split; [apply same_effects_with_faults|].
    by apply Forall_cons in Hq as [_ ?].
Qed.

Lemma attempt_fault {A} (op : Proc World A) w f rest :
  faults w = Some f :: rest -> attempt op w = (Fail f, with_faults w rest).
Proof. unfold attempt. by intros ->. Qed.

Lemma attempt_pass {A} (op : Proc World A) w rest :
  faults w = None :: rest -> attempt op w = op (with_faults w rest).
Proof. unfold attempt. by intros ->. Qed.

Lemma writeFile_quiet filePath wb w :
  quiet w ->
  exists w', writeFile filePath wb w = (Ok tt, w')
             /\ files w' = <[filePath := wb]> (files w)
             /\ emails w' = emails w /\ chat w' = chat w /\ quiet w'.
Proof.
  intros Hq. unfold writeFile.
  destruct (attempt_quiet (fun w => (Ok tt, {| files := <[filePath := wb]> (files w);
              emails := emails w; chat := chat w; faults := faults w |})) w Hq)
    as (w0 & -> & (Hf & He & Hc) & Hq0).
  eexists. split; [reflexivity|]. cbn. by rewrite Hf, He, Hc.
Qed.

Lemma readFileSync_quiet filePath content w :
  quiet w -> files w !! filePath = Some content ->
  exists w', readFileSync filePath w = (Ok content, w')
             /\ same_effects w w' /\ quiet w'.
Proof.
  intros Hq Hfile. unfold readFileSync.
  destruct (attempt_quiet (fun w => match files w !! filePath with
              | Some content => (Ok content, w)
              | None => (Fail (SystemError "ENOENT" "ENOENT: no such file or directory"), w)
              end) w Hq) as (w0 & -> & Hs & Hq0).
  exists w0. destruct Hs as (Hf & He & Hc). rewrite <- Hf, Hfile. by repeat split.
Qed.

Lemma unlinkSync_quiet filePath content w :
  quiet w -> files w !! filePath = Some content ->
  exists w', unlinkSync filePath w = (Ok tt, w')
             /\ files w' = delete filePath (files w)
             /\ emails w' = emails w /\ chat w' = chat w /\ quiet w'.
Proof.
  intros Hq Hfile. unfold unlinkSync.
  destruct (attempt_quiet (fun w => match files w !! filePath with
              | Some _ => (Ok tt, {| files := delete filePath (files w);
                                     emails := emails w; chat := chat w;
                                     faults := faults w |})
              | None => (Fail (SystemError "ENOENT" "ENOENT: no such file or directory"), w)
              end) w Hq) as (w0 & -> & (Hf & He & Hc) & Hq0).
  rewrite <- Hf, Hfile. eexists. split; [reflexivity|]. cbn. by rewrite Hf, He, Hc.
Qed.

Lemma resend_emails_send_quiet email w :
  quiet w ->
  exists w', resend_emails_send email w = (Ok tt, w')
             /\ files w' = files w
             /\ emails w' = emails w ++ [email] /\ chat w' = chat w /\ quiet w'.
Proof.
  unfold quiet, resend_emails_send. intros Hq. cbv zeta.
  destruct (faults w) as [|[f|] rest] eqn:E.
  - eexists. split; [reflexivity|]. cbn. rewrite ?E. repeat split; constructor.
  - by apply Forall_cons in Hq as [[=] _].
  - eexists. split; [reflexivity|]. cbn. apply Forall_cons in Hq as [_ Hq].
    by repeat split.
Qed.

Lemma sendMessage_quiet jid content w :
  quiet w ->
  exists w', sendMessage jid content w = (Ok tt, w')
             /\ files w' = files w
             /\ emails w' = emails w /\ chat w' = chat w ++ [(jid, content)] /\ quiet w'.
Proof.
  intros Hq. unfold sendMessage.
  destruct (attempt_quiet (fun w => (Ok tt, {| files := files w; emails := emails w;
              chat := chat w ++ [(jid, content)]; faults := faults w |})) w Hq)
    as (w0 & -> & (Hf & He & Hc) & Hq0).
  eexists. split; [reflexivity|]. cbn. by rewrite Hf, He, Hc.
Qed.

(** *** The sheets *)

Lemma length_addRows nombre cols (P : Solicitud -> Prop) `{!forall d, Decision (P d)}
    (datos : list Solicitud) :
  length (rows (addRows nombre cols (filter P datos)))
  = length (filter (fun d => P d /\ con_celda cols d) datos).
Proof.
  cbn [addRows rows]. rewrite length_fmap, list_filter_filter.
  f_equal. apply list_filter_iff. intros d. tauto.
Qed.

Lemma escrito_tipo_conocido d : escrito d -> tipo_conocido d.
Proof.
  unfold escrito, tipo_conocido, includes.
  intros [[E _]|[[E _]|[[E _]|[E _]]]]; rewrite E; eexists; (split; [|done]);
    rewrite !elem_of_cons; tauto.
Qed.

Lemma filas_libro reloj datos :
  filas (libro reloj datos) = length (filter escrito datos).
Proof.
  unfold filas, libro. cbn [worksheets foldr]. rewrite !length_addRows.
  induction datos as [|d datos IH]; [reflexivity|].
  rewrite !filter_cons.
  destruct (decide (escrito d)) as [He|He]; unfold escrito in He;
  destruct (decide (tipo_solicitud d = Some "consulta" /\ con_celda columnas_consultas d))
    as [[E1 H1]|N1];
    destruct (decide (tipo_solicitud d = Some "ecor" /\ con_celda columnas_ecor d))
      as [[E2 H2]|N2];
    destruct (decide (tipo_solicitud d = Some "reembolso"
                      /\ con_celda columnas_reembolsos d)) as [[E3 H3]|N3];
    destruct (decide (tipo_solicitud d = Some "emergencia"
                      /\ con_celda columnas_emergencias d)) as [[E4 H4]|N4];
    try (exfalso; congruence); try (exfalso; tauto);
    cbn [length] in *; lia.
Qed.

Lemma length_filter_impl {A} (P Q : A -> Prop) `{!forall x, Decision (P x)}
    `{!forall x, Decision (Q x)} (l : list A) :
  Forall (fun x => P x -> Q x) l -> (length (filter P l) <= length (filter Q l))%nat.
Proof.
  induction 1 as [|x l Hx _ IH]; [done|]. rewrite !filter_cons.
  destruct (decide (P x)), (decide (Q x)); cbn [length]; try lia. tauto.
Qed.

Lemma filter_iff_Forall {A} (P Q : A -> Prop) `{!forall x, Decision (P x)}
    `{!forall x, Decision (Q x)} (l : list A) :
  Forall (fun x => P x <-> Q x) l -> filter P l = filter Q l.
Proof.
  induction 1 as [|x l Hx _ IH]; [done|]. rewrite !filter_cons, IH.
  destruct (decide (P x)), (decide (Q x)); try done; tauto.
Qed.

(** The time of the request is a column of every sheet. *)
Lemma con_celda_hora d :
  is_Some (hora_solicitud d) ->
  con_celda columnas_consultas d /\ con_celda columnas_ecor d
  /\ con_celda columnas_reembolsos d /\ con_celda columnas_emergencias d.
Proof.
  intros Hh. unfold con_celda. rewrite !Exists_exists.
  repeat split; exists (hora_solicitud d); (split; [|done]);
    cbn; rewrite !elem_of_cons; tauto.
Qed.

Lemma escrito_hora d : is_Some (hora_solicitud d) -> (escrito d <-> tipo_conocido d).
Proof.
  intros Hh. split; [apply escrito_tipo_conocido|].
  destruct (con_celda_hora d Hh) as (H1 & H2 & H3 & H4).
  unfold tipo_conocido, includes, escrito. intros (t & Hin & E).
  rewrite !elem_of_cons, elem_of_nil in Hin.
  destruct Hin as [->|[->|[->|[->|[]]]]]; tauto.
Qed.

(** *** The steps of a report when no call fails *)

Lemma createExcelReport_quiet h reloj datos fechaString w :
  quiet w ->
  exists w', createExcelReport h reloj datos fechaString w = (Ok (ruta h fechaString), w')
             /\ files w' = <[ruta h fechaString := libro reloj datos]> (files w)
             /\ emails w' = emails w /\ chat w' = chat w /\ quiet w'.
Proof.
  intros Hq. unfold createExcelReport. cbv zeta. unfold mbind, proc_bind, pbind.
  destruct (writeFile_quiet (ruta h fechaString) (libro reloj datos) w Hq)
    as (w' & -> & H). by exists w'.
Qed.

Lemma sendEmailWithAttachment_quiet h filePath fechaDisplay content w :
  quiet w -> files w !! filePath = Some content ->
  exists w', sendEmailWithAttachment h filePath fechaDisplay w = (Ok tt, w')
             /\ files w' = files w
             /\ emails w' = emails w ++ [correo h filePath fechaDisplay content]
             /\ chat w' = chat w /\ quiet w'.
Proof.
  intros Hq Hfile. unfold sendEmailWithAttachment, ptry, mbind, proc_bind, pbind.
  destruct (readFileSync_quiet filePath content w Hq Hfile)
    as (w1 & -> & (Hf1 & He1 & Hc1) & Hq1).
  destruct (resend_emails_send_quiet (correo h filePath fechaDisplay content) w1 Hq1)
    as (w2 & -> & Hf2 & He2 & Hc2 & Hq2).
  exists w2. split; [reflexivity|]. by rewrite Hf2, He2, Hc2, Hf1, He1, Hc1.
Qed.

Lemma generateAndEmailReport_Ok h B reloj fechaString s :
  (generateAndEmailReport h B reloj fechaString s).1 = Ok tt.
Proof.
  unfold generateAndEmailReport, ptry. cbv zeta.
  match goal with
  | |- (match ?b with _ => _ end).1 = _ => by destruct b as [[[]|f] s']
  end.
Qed.

Lemma generateAndEmailReport_vacio h B reloj fechaString e w r e' :
  getDatosReporteDiario B fechaString e = (r, e') ->
  r = Return [] \/ (exists x, r = Throw x) ->
  generateAndEmailReport h B reloj fechaString (e, w) = (Ok tt, (e', w)).
Proof.
  intros Hr Hcase. unfold generateAndEmailReport, ptry, mbind, proc_bind, pbind, on_store.
  cbv zeta. cbn [fst snd]. rewrite Hr. by destruct Hcase as [->|[x ->]].
Qed.

Lemma generateAndEmailReport_quiet h B reloj fechaString e w datos e' :
  getDatosReporteDiario B fechaString e = (Return datos, e') ->
  datos <> [] -> quiet w ->
  exists w',
    generateAndEmailReport h B reloj fechaString (e, w) = (Ok tt, (e', w'))
    /\ files w' = delete (ruta h fechaString) (files w)
    /\ emails w'
       = emails w ++ [correo h (ruta h fechaString) (fechaString +:+ "T12:00:00Z")
                        (libro reloj datos)]
    /\ chat w' = chat w /\ quiet w'.
Proof.
  intros Hr Hne Hq.
  unfold generateAndEmailReport, ptry, mbind, proc_bind, pbind, on_store, on_world.
  cbv zeta. cbn [fst snd]. rewrite Hr.
  rewrite decide_False by (by destruct datos). cbn [fst snd].
  destruct (createExcelReport_quiet h reloj datos fechaString w Hq)
    as (w1 & -> & Hf1 & He1 & Hc1 & Hq1). cbn [fst snd].
  assert (files w1 !! ruta h fechaString = Some (libro reloj datos)) as Hfile
    by (rewrite Hf1; apply lookup_insert_eq).
  destruct (sendEmailWithAttachment_quiet h _ (fechaString +:+ "T12:00:00Z") _ w1 Hq1 Hfile)
    as (w2 & -> & Hf2 & He2 & Hc2 & Hq2). cbn [fst snd].
  rewrite <- Hf2 in Hfile.
  destruct (unlinkSync_quiet _ _ w2 Hq2 Hfile) as (w3 & -> & Hf3 & He3 & Hc3 & Hq3).
  exists w3. split; [reflexivity|].
  rewrite Hf3, He3, Hc3, Hf2, He2, Hc2, Hf1, He1, Hc1, delete_insert_eq. done.
Qed.

(** *** The steps of a report, call by call *)

Lemma writeFile_pass filePath wb w rest :
  faults w = None :: rest ->
  writeFile filePath wb w
  = (Ok tt, {| files := <[filePath := wb]> (files w); emails := emails w;
               chat := chat w; faults := rest |}).
Proof. intros Hf. unfold writeFile. by rewrite (attempt_pass _ _ _ Hf). Qed.

Lemma readFileSync_pass filePath content w rest :
  faults w = None :: rest -> files w !! filePath = Some content ->
  readFileSync filePath w = (Ok content, with_faults w rest).
Proof.
  intros Hf Hfile. unfold readFileSync. rewrite (attempt_pass _ _ _ Hf).
  cbn [files with_faults]. by rewrite Hfile.
Qed.

Lemma resend_emails_send_pass email w rest :
  faults w = None :: rest ->
  resend_emails_send email w
  = (Ok tt, {| files := files w; emails := emails w ++ [email];
               chat := chat w; faults := rest |}).
Proof. intros Hf. unfold resend_emails_send. by rewrite Hf. Qed.

Lemma sendMessage_pass jid content w rest :
  faults w = None :: rest ->
  sendMessage jid content w
  = (Ok tt, {| files := files w; emails := emails w;
               chat := chat w ++ [(jid, content)]; faults := rest |}).
Proof. intros Hf. unfold sendMessage. by rewrite (attempt_pass _ _ _ Hf). Qed.

Lemma unlinkSync_pass filePath content w rest :
  faults w = None :: rest -> files w !! filePath = Some content ->
  unlinkSync filePath w
  = (Ok tt, {| files := delete filePath (files w); emails := emails w;
               chat := chat w; faults := rest |}).
Proof.
  intros Hf Hfile. unfold unlinkSync. rewrite (attempt_pass _ _ _ Hf).
  cbn [files with_faults]. by rewrite Hfile.
Qed.

Lemma writeFile_fault filePath wb w f rest :
  faults w = Some f :: rest -> writeFile filePath wb w = (Fail f, with_faults w rest).
Proof. intros Hf. unfold writeFile. by rewrite (attempt_fault _ _ _ _ Hf). Qed.

Lemma readFileSync_fault filePath w f rest :
  faults w = Some f :: rest -> readFileSync filePath w = (Fail f, with_faults w rest).
Proof. intros Hf. unfold readFileSync. by rewrite (attempt_fault _ _ _ _ Hf). Qed.

Lemma unlinkSync_fault filePath w f rest :
  faults w = Some f :: rest -> unlinkSync filePath w = (Fail f, with_faults w rest).
Proof. intros Hf. unfold unlinkSync. by rewrite (attempt_fault _ _ _ _ Hf). Qed.

(** A message Resend does not accept: the call resolves all the same. *)
Lemma resend_emails_send_fault email w f rest :
  faults w = Some f :: rest ->
  resend_emails_send email w = (Ok tt, with_faults w rest).
Proof. intros Hf. unfold resend_emails_send. by rewrite Hf. Qed.

Lemma sendMessage_fault jid content w f rest :
  faults w = Some f :: rest -> sendMessage jid content w = (Fail f, with_faults w rest).
Proof. intros Hf. unfold sendMessage. by rewrite (attempt_fault _ _ _ _ Hf). Qed.

(** *** What a computation leaves alone *)

Lemma keeps_ret {S A X} (part : S -> X) (a : A) : keeps part (mret a).
Proof. by intros s. Qed.

Lemma keeps_throw {S A X} (part : S -> X) f : keeps part (throw (A := A) f).
Proof. by intros s. Qed.

Lemma keeps_bind {S A B X} (part : S -> X) (m : Proc S A) (f : A -> Proc S B) :
  keeps part m -> (forall a, keeps part (f a)) -> keeps part (m ≫= f).
Proof.
  intros Hm Hf s. unfold mbind, proc_bind, pbind. specialize (Hm s).
  destruct (m s) as [[a|e] s1]; cbn [snd] in *; [|done]. by rewrite Hf.
Qed.

Lemma keeps_try {S A X} (part : S -> X) (body : Proc S A) handler :
  keeps part body -> (forall e, keeps part (handler e)) -> keeps part (ptry body handler).
Proof.
  intros Hm Hf s. unfold ptry. specialize (Hm s).
  destruct (body s) as [[a|e] s1]; cbn [snd] in *; [done|]. by rewrite Hf.
Qed.

Lemma keeps_attempt {A X} (part : World -> X) (op : Proc World A) :
  (forall w f, part (with_faults w f) = part w) -> keeps part op -> keeps part (attempt op).
Proof.
  intros Hp Hop w. unfold attempt. destruct (faults w) as [|[f|] rest]; cbn [snd].
  - apply Hop.
  - apply Hp.
  - by rewrite Hop, Hp.
Qed.

Lemma keeps_on_world_snd {E A X} (f : World -> X) (p : Proc World A) :
  keeps f p -> keeps (fun s : E * World => f s.2) (on_world p).
Proof.
  intros Hp [e w]. unfold on_world. cbn [fst snd]. specialize (Hp w).
  by destruct (p w) as [r w'].
Qed.

Lemma keeps_on_world_fst {E A X} (g : E -> X) (p : Proc World A) :
  keeps (fun s : E * World => g s.1) (on_world p).
Proof. intros [e w]. unfold on_world. cbn [fst snd]. by destruct (p w) as [r w']. Qed.

Lemma keeps_on_store_snd {E A X} (f : World -> X) (q : E -> completion A * E) :
  keeps (fun s : E * World => f s.2) (on_store q).
Proof. intros [e w]. unfold on_store. cbn [fst snd]. by destruct (q e) as [[a|x] e']. Qed.

Lemma keeps_on_store_fst {E A X} (g : E -> X) (q : E -> completion A * E) :
  (forall e, g (q e).2 = g e) -> keeps (fun s : E * World => g s.1) (on_store q).
Proof.
  intros Hq [e w]. unfold on_store. cbn [fst snd]. specialize (Hq e).
  by destruct (q e) as [[a|x] e'].
Qed.

Lemma keeps_if {S A X} (part : S -> X) (P : Prop) `{!Decision P} (p q : Proc S A) :
  keeps part p -> keeps part q -> keeps part (if decide P then p else q).
Proof. by destruct (decide P). Qed.

Lemma keeps_chat_writeFile filePath wb : keeps chat (writeFile filePath wb).
Proof. by apply keeps_attempt. Qed.

Lemma keeps_chat_readFileSync filePath : keeps chat (readFileSync filePath).
Proof. apply keeps_attempt; [done|]. intros w. by destruct (files w !! filePath). Qed.

Lemma keeps_chat_unlinkSync filePath : keeps chat (unlinkSync filePath).
Proof. apply keeps_attempt; [done|]. intros w. by destruct (files w !! filePath). Qed.

Lemma keeps_chat_resend_emails_send email : keeps chat (resend_emails_send email).
Proof. intros w. unfold resend_emails_send. by destruct (faults w) as [|[f|] rest]. Qed.

Lemma keeps_emails_writeFile filePath wb : keeps emails (writeFile filePath wb).
Proof. by apply keeps_attempt. Qed.

Lemma keeps_emails_unlinkSync filePath : keeps emails (unlinkSync filePath).
Proof. apply keeps_attempt; [done|]. intros w. by destruct (files w !! filePath). Qed.

Lemma keeps_emails_sendMessage jid content : keeps emails (sendMessage jid content).
Proof. by apply keeps_attempt. Qed.

Lemma tablas_mismas db db' : mismas_tablas db db' -> tablas db' = tablas db.
Proof. intros (H1 & H2 & H3 & H4). unfold tablas. by rewrite H1, H2, H3, H4. Qed.

Lemma mismas_tablas_tablas db db' : tablas db' = tablas db -> mismas_tablas db db'.
Proof. unfold tablas. intros [= H1 H2 H3 H4]. by repeat split. Qed.

End ReportFacts.

Import Report ReportFacts Muestras Server.

(** X11. When the write does not fail, [createExcelReport] returns the path
    [Reporte_Diario_<fechaString>.xlsx] under the module's directory and
    leaves there, and nowhere else, a workbook of four sheets, [Consultas],
    [ECOR], [Reembolsos] and [Emergencias]. Together the sheets hold one
    row for each record that is of one of the four types and has at least
    one of the keys of the sheet of its type: a record of another type, or
    of none, is in no sheet, and neither is a record that has none of the
    keys. When every record has its [hora_solicitud], a column of all four
    sheets, the rows are as many as the records of the four types. Nothing
    is sent. *)
Theorem X11_createExcelReport_hojas (h : Host) (reloj : Z) (datos : list Solicitud)
    (fechaString : string) (w : World) :
  quiet w ->
  exists w' wb,
    createExcelReport h reloj datos fechaString w
    = (Ok (path_join h (dirname h) ("Reporte_Diario_" +:+ fechaString +:+ ".xlsx")), w')
    /\ files w' !! ruta h fechaString = Some wb
    /\ (forall p, p <> ruta h fechaString -> files w' !! p = files w !! p)
    /\ name <$> worksheets wb = ["Consultas"; "ECOR"; "Reembolsos"; "Emergencias"]
    /\ filas wb = length (filter escrito datos)
    /\ (filas wb <= length (filter tipo_conocido datos))%nat
    /\ (Forall (fun d => is_Some (hora_solicitud d)) datos ->
        filas wb = length (filter tipo_conocido datos))
    /\ emails w' = emails w /\ chat w' = chat w.
Proof.
  intros Hq.
  destruct (createExcelReport_quiet h reloj datos fechaString w Hq)
    as (w' & E & Hf & He & Hc & _).
  exists w', (libro reloj datos). split; [exact E|].
  split; [rewrite Hf; apply lookup_insert_eq|].
  split; [intros p Hp; rewrite Hf; by apply lookup_insert_ne|].
  split; [reflexivity|]. split; [apply filas_libro|].
  split.
  { rewrite filas_libro. apply length_filter_impl, Forall_forall.
    intros d _. apply escrito_tipo_conocido. }
  split; [|done].
  intros Hhora. rewrite filas_libro. f_equal. apply filter_iff_Forall.
  eapply Forall_impl; [exact Hhora|]. intros d Hd. by apply escrito_hora.
Qed.

(** A consultation and an annual exam with their patients, a consultation
    with nothing but its type, and a record of a type without a sheet: the
    workbook has two rows. *)
Lemma X11_createExcelReport_hojas_witness :
  exists w' wb,
    createExcelReport anfitrion 0
      [registro "consulta" "2024-02-07" "V-1"; solo_tipo "consulta";
       registro "otro" "2024-02-07" "V-2"; registro "ecor" "2024-02-07" "V-3"]
      "2024-02-07" (mundo [])
    = (Ok "/app/Reporte_Diario_2024-02-07.xlsx", w')
    /\ files w' !! "/app/Reporte_Diario_2024-02-07.xlsx" = Some wb
    /\ filas wb = 2%nat.
Proof.
  assert (quiet (mundo [])) as Hq by constructor.
  destruct (X11_createExcelReport_hojas anfitrion 0
              [registro "consulta" "2024-02-07" "V-1"; solo_tipo "consulta";
               registro "otro" "2024-02-07" "V-2"; registro "ecor" "2024-02-07" "V-3"]
              "2024-02-07" (mundo []) Hq)
    as (w' & wb & E & Hfile & _ & _ & Hfilas & _).
  exists w', wb. split; [exact E|]. split; [exact Hfile|]. rewrite Hfilas.
  vm_compute. reflexivity.
Defined.

(** X12. [generateAndEmailReport] never throws. When the store has no record
    for the day, or the store call throws, it writes no file and sends
    nothing: the world is left as it was. Against the database that is also
    what happens when the request fails: an outage on the day of a
    scheduled report passes without a message. *)
Theorem X12_generateAndEmailReport_sin_datos (h : Host) (B : Backend) (reloj : Z)
    (fechaString : string) (e : estado B) (w : World) :
  (generateAndEmailReport h B reloj fechaString (e, w)).1 = Ok tt
  /\ (forall r e',
        getDatosReporteDiario B fechaString e = (r, e') ->
        r = Return [] \/ (exists x, r = Throw x) ->
        generateAndEmailReport h B reloj fechaString (e, w) = (Ok tt, (e', w)))
  /\ (forall tz db err rest,
        Supabase.fallos db = Some err :: rest ->
        generateAndEmailReport h (durable tz) reloj fechaString (db, w)
        = (Ok tt, (Supabase.con_fallos db rest, w))).
Proof.
  split; [apply generateAndEmailReport_Ok|]. split.
  - intros r e' Hr Hcase. by eapply generateAndEmailReport_vacio.
  - intros tz db err rest Hf.
    apply (generateAndEmailReport_vacio h (durable tz) reloj fechaString db w (Return [])).
    + cbn [getDatosReporteDiario durable]. unfold Durable.getDatosReporteDiario.
      unfold_query. unfold Supabase.select_fecha. by rewrite (request_fallo _ _ _ _ Hf).
    + by left.
Qed.

(** The database is down when the report of 7 February 2024 is due: no file,
    no email. *)
Lemma X12_generateAndEmailReport_sin_datos_witness :
  generateAndEmailReport anfitrion (durable caracas) 0 "2024-02-07"
    (base [registro "consulta" "2024-02-07" "V-1"] [Some caida], mundo [])
  = (Ok tt, (base [registro "consulta" "2024-02-07" "V-1"] [], mundo [])).
Proof.
  destruct (X12_generateAndEmailReport_sin_datos anfitrion (durable caracas) 0 "2024-02-07"
              (base [registro "consulta" "2024-02-07" "V-1"] [Some caida]) (mundo []))
    as (_ & _ & Hcaida).
  exact (Hcaida caracas (base [registro "consulta" "2024-02-07" "V-1"] [Some caida])
           caida [] eq_refl).
Defined.

(** X13. When the store returns records for the day and no call to the file
    system or to Resend fails, [generateAndEmailReport] hands Resend exactly
    one message, addressed to [REPORT_EMAIL_TO], whose one attachment is the
    workbook of those records under the base name of the report's path;
    afterwards no file is left at that path, and nothing is sent over
    WhatsApp. *)
Theorem X13_generateAndEmailReport_envia (h : Host) (B : Backend) (reloj : Z)
    (fechaString : string) (e e' : estado B) (w : World) (datos : list Solicitud) :
  getDatosReporteDiario B fechaString e = (Return datos, e') ->
  datos <> [] ->
  quiet w ->
  exists w' email,
    generateAndEmailReport h B reloj fechaString (e, w) = (Ok tt, (e', w'))
    /\ emails w' = emails w ++ [email]
    /\ to email = REPORT_EMAIL_TO h
    /\ attachments email
       = [(path_basename h (ruta h fechaString), libro reloj datos)]
    /\ files w' !! ruta h fechaString = None
    /\ (forall p, p <> ruta h fechaString -> files w' !! p = files w !! p)
    /\ chat w' = chat w.
Proof.
  intros Hr Hne Hq.
  destruct (generateAndEmailReport_quiet h B reloj fechaString e w datos e' Hr Hne Hq)
    as (w' & E & Hf & He & Hc & _).
  exists w', (correo h (ruta h fechaString) (fechaString +:+ "T12:00:00Z") (libro reloj datos)).
  split; [exact E|]. split; [exact He|]. split; [reflexivity|]. split; [reflexivity|].
  split; [rewrite Hf; apply lookup_delete_eq|].
  split; [intros p Hp; rewrite Hf; by apply lookup_delete_ne|]. exact Hc.
Qed.

(** In memory, with one consultation on 7 February 2024: one message with
    the attachment [Reporte_Diario_2024-02-07.xlsx], and no file left. *)
Lemma X13_generateAndEmailReport_envia_witness :
  exists w' email,
    generateAndEmailReport anfitrion (mock caracas) 0 "2024-02-07"
      (almacen [registro "consulta" "2024-02-07" "V-1"], mundo [])
    = (Ok tt, (almacen [registro "consulta" "2024-02-07" "V-1"], w'))
    /\ emails w' = [email]
    /\ fst <$> attachments email = ["Reporte_Diario_2024-02-07.xlsx"]
    /\ files w' !! "/app/Reporte_Diario_2024-02-07.xlsx" = None.
Proof.
  assert (quiet (mundo [])) as Hq by constructor.
  assert ([registro "consulta" "2024-02-07" "V-1"] <> []) as Hne by discriminate.
  destruct (X13_generateAndEmailReport_envia anfitrion (mock caracas) 0 "2024-02-07"
              (almacen [registro "consulta" "2024-02-07" "V-1"])
              (almacen [registro "consulta" "2024-02-07" "V-1"]) (mundo [])
              [registro "consulta" "2024-02-07" "V-1"] eq_refl Hne Hq)
    as (w' & email & E & He & _ & Ha & Hf & _).
  exists w', email. split; [exact E|]. split; [exact He|]. split; [|exact Hf].
  rewrite Ha. vm_compute. reflexivity.
Defined.

(** X14. When a call fails while [generateAndEmailReport] is at work on a
    day with records, the function still resolves, and what it leaves
    behind depends on the call. If writing the workbook fails, nothing is
    written or sent. If reading the file back fails, the workbook stays on
    disk and no message is sent. If Resend does not accept the message, the
    call resolves all the same and its value is not looked at: the
    function goes on to delete the workbook, so neither a message nor the
    file is left, and nothing is thrown. If deleting the file fails, the
    message has been sent and the workbook stays on disk. *)
Theorem X14_generateAndEmailReport_falla (h : Host) (B : Backend) (reloj : Z)
    (fechaString : string) (e e' : estado B) (w : World) (datos : list Solicitud)
    (fallo : Failure) (rest : list (option Failure)) :
  getDatosReporteDiario B fechaString e = (Return datos, e') ->
  datos <> [] ->
  let filePath := ruta h fechaString in
  let email := correo h filePath (fechaString +:+ "T12:00:00Z") (libro reloj datos) in
  (faults w = Some fallo :: rest ->
   generateAndEmailReport h B reloj fechaString (e, w) = (Ok tt, (e', with_faults w rest)))
  /\ (faults w = None :: Some fallo :: rest ->
      exists w',
        generateAndEmailReport h B reloj fechaString (e, w) = (Ok tt, (e', w'))
        /\ files w' = <[filePath := libro reloj datos]> (files w)
        /\ emails w' = emails w /\ chat w' = chat w)
  /\ (faults w = None :: None :: Some fallo :: rest ->
      Forall (fun f => f = None) rest ->
      exists w',
        generateAndEmailReport h B reloj fechaString (e, w) = (Ok tt, (e', w'))
        /\ files w' = delete filePath (files w)
        /\ emails w' = emails w /\ chat w' = chat w)
  /\ (faults w = None :: None :: None :: Some fallo :: rest ->
      exists w',
        generateAndEmailReport h B reloj fechaString (e, w) = (Ok tt, (e', w'))
        /\ files w' = <[filePath := libro reloj datos]> (files w)
        /\ emails w' = emails w ++ [email] /\ chat w' = chat w).
Proof.
  intros Hr Hne filePath email. subst filePath email.
  unfold generateAndEmailReport, ptry, mbind, proc_bind, pbind, on_store, on_world.
  cbv zeta. cbn [fst snd]. rewrite Hr.
  rewrite decide_False by (by destruct datos). cbn [fst snd].
  unfold createExcelReport. cbv zeta. unfold mbind, proc_bind, pbind, mret, proc_ret, pret.
  split; [|split; [|split]]; intros Hf.
  - by rewrite (writeFile_fault _ _ _ _ _ Hf).
  - rewrite (writeFile_pass _ _ _ _ Hf). cbn [fst snd].
    unfold sendEmailWithAttachment, ptry, mbind, proc_bind, pbind, throw, mret, proc_ret, pret.
    erewrite readFileSync_fault by reflexivity.
    eexists. split; [reflexivity|]. by cbn.
  - intros Hq. rewrite (writeFile_pass _ _ _ _ Hf). cbn [fst snd].
    unfold sendEmailWithAttachment, ptry, mbind, proc_bind, pbind, throw, mret, proc_ret, pret.
    erewrite readFileSync_pass; [|reflexivity|cbn [files]; apply lookup_insert_eq].
    erewrite resend_emails_send_fault by reflexivity. cbn [fst snd].
    match goal with
    | |- context [unlinkSync ?p ?w3] =>
        destruct (unlinkSync_quiet p (libro reloj datos) w3)
          as (w4 & -> & Hf4 & He4 & Hc4 & _)
    end.
    + exact Hq.
    + cbn [files with_faults]. apply lookup_insert_eq.
    + exists w4. split; [reflexivity|]. rewrite Hf4, He4, Hc4. cbn [files emails chat with_faults].
      by rewrite delete_insert_eq.
  - rewrite (writeFile_pass _ _ _ _ Hf). cbn [fst snd].
    unfold sendEmailWithAttachment, ptry, mbind, proc_bind, pbind, throw, mret, proc_ret, pret.
    erewrite readFileSync_pass; [|reflexivity|cbn [files]; apply lookup_insert_eq].
    erewrite resend_emails_send_pass by reflexivity.
    erewrite unlinkSync_fault by reflexivity.
    eexists. split; [reflexivity|]. by cbn.
Qed.

(** Resend does not accept the message: no message is recorded, and the
    workbook of the day is deleted all the same. *)
Lemma X14_generateAndEmailReport_falla_witness :
  exists w',
    generateAndEmailReport anfitrion (mock caracas) 0 "2024-02-07"
      (almacen [registro "consulta" "2024-02-07" "V-1"],
       mundo [None; None; Some sin_servicio])
    = (Ok tt, (almacen [registro "consulta" "2024-02-07" "V-1"], w'))
    /\ files w' !! "/app/Reporte_Diario_2024-02-07.xlsx" = None
    /\ emails w' = [].
Proof.
  assert ([registro "consulta" "2024-02-07" "V-1"] <> []) as Hne by discriminate.
  destruct (X14_generateAndEmailReport_falla anfitrion (mock caracas) 0 "2024-02-07"
              (almacen [registro "consulta" "2024-02-07" "V-1"])
              (almacen [registro "consulta" "2024-02-07" "V-1"])
              (mundo [None; None; Some sin_servicio])
              [registro "consulta" "2024-02-07" "V-1"] sin_servicio []
              eq_refl Hne)
    as (_ & _ & Hresend & _).
  assert (Forall (fun f : option Failure => f = None) []) as Hq by constructor.
  destruct (Hresend eq_refl Hq) as (w' & E & Hf & He & _).
  exists w'. split; [exact E|]. split; [|exact He].
  rewrite Hf. apply (lookup_delete_eq (M := gmap string)).
Defined.

(** ** The report asked for over WhatsApp *)

Lemma generateAndSendReports_vacio h B reloj jid fechaString e e' w :
  getDatosReporteDiario B fechaString e = (Return [], e') ->
  quiet w ->
  exists w',
    generateAndSendReports h B reloj jid fechaString (e, w) = (Ok tt, (e', w'))
    /\ chat w' = chat w ++ [(jid, sin_solicitudes h fechaString)]
    /\ emails w' = emails w /\ files w' = files w.
Proof.
  intros Hr Hq.
  unfold generateAndSendReports, ptry, mbind, proc_bind, pbind, on_store, on_world.
  cbv zeta. cbn [fst snd]. rewrite Hr. rewrite decide_True by done. cbn [fst snd].
  destruct (sendMessage_quiet jid (sin_solicitudes h fechaString) w Hq)
    as (w' & E & Hf & He & Hc & _).
  unfold sin_solicitudes in E. rewrite E. by exists w'.
Qed.

(** X15. Asked over WhatsApp for the report of a day without records,
    [generateAndSendReports] answers with one text, "No se registraron
    solicitudes", and writes and emails nothing. Against the database the
    answer is the same text when the request fails: the recipient cannot
    tell an outage from a day without requests. *)
Theorem X15_generateAndSendReports_sin_datos (h : Host) (reloj : Z)
    (recipientJid fechaString : string) (w : World) :
  quiet w ->
  (forall B e e',
     getDatosReporteDiario B fechaString e = (Return [], e') ->
     exists w',
       generateAndSendReports h B reloj recipientJid fechaString (e, w) = (Ok tt, (e', w'))
       /\ chat w' = chat w ++ [(recipientJid, sin_solicitudes h fechaString)]
       /\ emails w' = emails w /\ files w' = files w)
  /\ (forall tz db err rest,
        Supabase.fallos db = Some err :: rest ->
        exists w',
          generateAndSendReports h (durable tz) reloj recipientJid fechaString (db, w)
          = (Ok tt, (Supabase.con_fallos db rest, w'))
          /\ chat w' = chat w ++ [(recipientJid, sin_solicitudes h fechaString)]
          /\ emails w' = emails w /\ files w' = files w).
Proof.
  intros Hq. split.
  - intros B e e' Hr. by apply generateAndSendReports_vacio.
  - intros tz db err rest Hf. apply generateAndSendReports_vacio; [|done].
    cbn [getDatosReporteDiario durable]. unfold Durable.getDatosReporteDiario.
    unfold_query. unfold Supabase.select_fecha. by rewrite (request_fallo _ _ _ _ Hf).
Qed.

(** The database holds a consultation of 7 February 2024 and is down when
    the report is asked for: the answer says no requests were recorded. *)
Lemma X15_generateAndSendReports_sin_datos_witness :
  exists w',
    generateAndSendReports anfitrion (durable caracas) 0 "584141234567@s.whatsapp.net"
      "2024-02-07" (base [registro "consulta" "2024-02-07" "V-1"] [Some caida], mundo [])
    = (Ok tt, (base [registro "consulta" "2024-02-07" "V-1"] [], w'))
    /\ chat w'
       = [("584141234567@s.whatsapp.net",
           Text "Reporte del día 2024-02-07T12:00:00Z: No se registraron solicitudes.")].
Proof.
  assert (quiet (mundo [])) as Hq by constructor.
  destruct (X15_generateAndSendReports_sin_datos anfitrion 0 "584141234567@s.whatsapp.net"
              "2024-02-07" (mundo []) Hq) as [_ Hcaida].
  destruct (Hcaida caracas (base [registro "consulta" "2024-02-07" "V-1"] [Some caida])
              caida [] eq_refl) as (w' & E & Hc & _).
  exists w'. split; [exact E|]. rewrite Hc. reflexivity.
Defined.

(** ** What the reports leave alone *)

Ltac solve_keeps :=
  repeat first
    [ apply keeps_try | apply keeps_bind | apply keeps_ret | apply keeps_throw
    | apply keeps_if | apply keeps_on_store_snd | apply keeps_on_world_fst
    | apply keeps_on_world_snd
    | apply keeps_chat_writeFile | apply keeps_chat_readFileSync
    | apply keeps_chat_unlinkSync | apply keeps_chat_resend_emails_send
    | apply keeps_emails_writeFile | apply keeps_emails_unlinkSync
    | apply keeps_emails_sendMessage
    | intro ].

Lemma keeps_chat_generateAndEmailReport h B reloj fechaString :
  keeps (fun s : estado B * World => chat s.2) (generateAndEmailReport h B reloj fechaString).
Proof.
  unfold generateAndEmailReport, createExcelReport, sendEmailWithAttachment. cbv zeta.
  solve_keeps.
Qed.

Lemma keeps_emails_generateAndSendMonthlyReport h B reloj jid mes :
  keeps (fun s : estado B * World => emails s.2)
        (generateAndSendMonthlyReport h B reloj jid mes).
Proof.
  unfold generateAndSendMonthlyReport, createExcelReport. cbv zeta. solve_keeps.
Qed.

Lemma keeps_store_reports {X} (B : Backend) (g : estado B -> X) h reloj jid texto :
  (forall f e, g (getDatosReporteDiario B f e).2 = g e) ->
  (forall f e, g (getDatosReporteMensual B f e).2 = g e) ->
  keeps (fun s : estado B * World => g s.1) (generateAndEmailReport h B reloj texto)
  /\ keeps (fun s : estado B * World => g s.1) (generateAndSendReports h B reloj jid texto)
  /\ keeps (fun s : estado B * World => g s.1)
           (generateAndSendMonthlyReport h B reloj jid texto).
Proof.
  intros Hd Hm.
  unfold generateAndEmailReport, generateAndSendReports, generateAndSendMonthlyReport.
  cbv zeta. split; [|split];
    repeat first
      [ apply keeps_try | apply keeps_bind | apply keeps_ret | apply keeps_if
      | apply keeps_on_world_fst | apply keeps_on_store_fst; first [apply Hd | apply Hm]
      | intro ].
Qed.

(** X16. What the three report functions never do, whatever the store
    holds and whichever calls fail: none of them changes the store (in
    memory it is left as it was, against the database the tables are); the
    scheduled report [generateAndEmailReport] sends nothing over WhatsApp;
    the monthly report [generateAndSendMonthlyReport] sends no email. *)
Theorem X16_reportes_no_tocan (h : Host) (reloj : Z) (jid texto : string) (tz : Z)
    (w : World) :
  (forall B e, chat (generateAndEmailReport h B reloj texto (e, w)).2.2 = chat w)
  /\ (forall B e, emails (generateAndSendMonthlyReport h B reloj jid texto (e, w)).2.2
                  = emails w)
  /\ (forall st,
        (generateAndEmailReport h (mock tz) reloj texto (st, w)).2.1 = st
        /\ (generateAndSendReports h (mock tz) reloj jid texto (st, w)).2.1 = st
        /\ (generateAndSendMonthlyReport h (mock tz) reloj jid texto (st, w)).2.1 = st)
  /\ (forall db,
        mismas_tablas db (generateAndEmailReport h (durable tz) reloj texto (db, w)).2.1
        /\ mismas_tablas db (generateAndSendReports h (durable tz) reloj jid texto (db, w)).2.1
        /\ mismas_tablas db
             (generateAndSendMonthlyReport h (durable tz) reloj jid texto (db, w)).2.1).
Proof.
  split; [|split; [|split]].
  - intros B e. apply (keeps_chat_generateAndEmailReport h B reloj texto (e, w)).
  - intros B e. apply (keeps_emails_generateAndSendMonthlyReport h B reloj jid texto (e, w)).
  - intros st.
    destruct (keeps_store_reports (mock tz) (fun st : estado (mock tz) => st)
                h reloj jid texto) as (H1 & H2 & H3); [done|done|].
    split; [apply (H1 (st, w))|]. split; [apply (H2 (st, w))|apply (H3 (st, w))].
  - intros db.
    destruct (keeps_store_reports (durable tz) tablas h reloj jid texto)
      as (H1 & H2 & H3).
    + intros f e. apply tablas_mismas, lectura_getDatosReporteDiario.
    + intros f e. apply tablas_mismas, lectura_getDatosReporteMensual.
    + split; [apply mismas_tablas_tablas, (H1 (db, w))|].
      split; apply mismas_tablas_tablas; [apply (H2 (db, w))|apply (H3 (db, w))].
Qed.

(** ** The endpoint of the scheduled report *)

Lemma trigger_report_401 h B tz CRON_SECRET ahora reloj secret s :
  distinto secret CRON_SECRET = true ->
  trigger_report h B tz CRON_SECRET ahora reloj secret s
  = ({| status := 401; body := "Clave secreta no válida." |}, s).
Proof. unfold trigger_report. by intros ->. Qed.

Lemma trigger_report_202 h B tz CRON_SECRET ahora reloj secret s :
  distinto secret CRON_SECRET = false ->
  trigger_report h B tz CRON_SECRET ahora reloj secret s
  = ({| status := 202;
        body := "Tarea de reporte aceptada. Se ejecutará en segundo plano." |},
     (generateAndEmailReport h B reloj (Index.getReportDateString tz ahora) s).2).
Proof.
  unfold trigger_report. intros ->. f_equal. unfold ptry. cbv zeta.
  by destruct (generateAndEmailReport _ _ _ _ s) as [[[]|f] s'].
Qed.

Lemma distinto_false secret CRON_SECRET :
  distinto secret CRON_SECRET = false
  <-> (secret = Absent /\ CRON_SECRET = None)
      \/ (exists c, secret = Texto c /\ CRON_SECRET = Some c).
Proof.
  unfold distinto. destruct secret as [|s|], CRON_SECRET as [c|]; split;
    try discriminate; try (intros [[? ?]|(? & ? & ?)]; discriminate); try tauto.
  - rewrite bool_decide_eq_false. intros Hs. right. exists c.
    destruct (decide (s = c)) as [->|]; [done|tauto].
  - intros [[[=] _]|(c' & [= ->] & [= ->])]. rewrite bool_decide_eq_false. tauto.
Qed.

(** X17. [GET /trigger-report] answers 401 or 202 and nothing else. It
    answers 202 exactly when the [secret] of the query is the text of
    [CRON_SECRET], or when both are missing: with [CRON_SECRET] unset, a
    request without [secret] is accepted, and every request that carries one
    is refused. A refused request changes nothing, in the store or outside.
    An accepted request is answered 202 whatever becomes of the report; the
    store's tables are as before, and nothing is sent over WhatsApp. *)
Theorem X17_trigger_report_secreto (h : Host) (tz : Z) (CRON_SECRET : option string)
    (ahora : Date) (reloj : Z) (secret : QueryValue) (supabaseConfigured : bool)
    (e : estado (exports tz supabaseConfigured)) (w : World) :
  let B := exports tz supabaseConfigured in
  let r := trigger_report h B tz CRON_SECRET ahora reloj secret (e, w) in
  (status r.1 = 401 \/ status r.1 = 202)
  /\ (status r.1 = 202
      <-> (secret = Absent /\ CRON_SECRET = None)
          \/ (exists c, secret = Texto c /\ CRON_SECRET = Some c))
  /\ (status r.1 = 401 -> r.2 = (e, w))
  /\ (status r.1 = 202 ->
      r.2 = (generateAndEmailReport h B reloj (Index.getReportDateString tz ahora) (e, w)).2
      /\ chat r.2.2 = chat w).
Proof.
  intros B r. subst r.
  destruct (distinto secret CRON_SECRET) eqn:Ed.
  - rewrite (trigger_report_401 _ _ _ _ _ _ _ _ Ed). cbn [fst snd status].
    split; [by left|]. split; [|split; [done|discriminate]].
    rewrite <- distinto_false, Ed. split; discriminate.
  - rewrite (trigger_report_202 _ _ _ _ _ _ _ _ Ed). cbn [fst snd status].
    split; [by right|]. split; [|split; [discriminate|]].
    + rewrite <- distinto_false. done.
    + intros _. split; [done|].
      apply (keeps_chat_generateAndEmailReport h B reloj _ (e, w)).
Qed.

(** With [CRON_SECRET] unset, a request without [secret] is accepted and a
    request with one is refused. *)
Lemma X17_trigger_report_secreto_witness :
  status (trigger_report anfitrion (mock caracas) caracas None (ValidDate lunes) 0 Absent
            (almacen [], mundo [])).1 = 202
  /\ trigger_report anfitrion (mock caracas) caracas None (ValidDate lunes) 0 (Texto "abc")
       (almacen [], mundo [])
     = ({| status := 401; body := "Clave secreta no válida." |}, (almacen [], mundo [])).
Proof.
  destruct (X17_trigger_report_secreto anfitrion caracas None (ValidDate lunes) 0 Absent
              false (almacen []) (mundo [])) as (_ & H202 & _).
  destruct (X17_trigger_report_secreto anfitrion caracas None (ValidDate lunes) 0
              (Texto "abc") false (almacen []) (mundo [])) as (_ & _ & H401 & _).
  split.
  - apply H202. by left.
  - apply injective_projections; [reflexivity|]. apply H401. reflexivity.
Defined.

(** ** From the trigger to the message *)

Lemma getReportDateString_fecha tz t :
  Z.abs (t - 3 * msPerDay) <= maxTime -> Z.abs (t - msPerDay) <= maxTime ->
  let hoy := Day (LocalTime tz t) in
  let dia := hoy - (if decide (WeekDayOfDay hoy = 1) then 3 else 1) in
  1000 <= YearFromDay dia <= 9999 ->
  Index.getReportDateString tz (ValidDate t)
  = year_month_day (YearFromDay dia) (MonthFromDay dia + 1) (DateFromDay dia).
Proof.
  intros H3 H1 hoy dia Hyear. rewrite getReportDateString_atras by done.
  change (WeekDay (LocalTime tz t)) with (WeekDayOfDay hoy).
  set (atras := if decide (WeekDayOfDay hoy = 1) then 3 else 1) in *.
  assert (Day (LocalTime tz (t - atras * msPerDay)) = dia) as Hdia.
  { unfold LocalTime. replace (t - atras * msPerDay + tz) with (t + tz - atras * msPerDay) by lia.
    by rewrite Day_shift. }
  unfold toLocaleDateString_enCA. simpl DateValue. cbv zeta.
  unfold YearFromTime, MonthFromTime, DateFromTime. rewrite Hdia.
  rewrite ToString_four_digits by done. reflexivity.
Qed.

(** X18. From the trigger to the message, in memory. An accepted trigger,
    at a moment whose report day [d] (three days back on a Monday, one day
    back otherwise) lies in a year of four digits, with a record dated [d]
    in the store and no call failing, is answered 202 and hands Resend one
    message whose attachment is the workbook of exactly the records dated
    [d], named after [d]; no file is left behind and the store is as it
    was. *)
Theorem X18_trigger_report_envia (h : Host) (tz : Z) (c : string) (t reloj : Z)
    (st : Mock.Store) (w : World) :
  Z.abs (t - 3 * msPerDay) <= maxTime -> Z.abs (t - msPerDay) <= maxTime ->
  quiet w ->
  let hoy := Day (LocalTime tz t) in
  let dia := hoy - (if decide (WeekDayOfDay hoy = 1) then 3 else 1) in
  let fecha := year_month_day (YearFromDay dia) (MonthFromDay dia + 1) (DateFromDay dia) in
  let datos := filter (fun s => fecha_solicitud s = Some fecha) (Mock.solicitudes st) in
  1000 <= YearFromDay dia <= 9999 ->
  datos <> [] ->
  exists w',
    trigger_report h (mock tz) tz (Some c) (ValidDate t) reloj (Texto c) (st, w)
    = ({| status := 202;
          body := "Tarea de reporte aceptada. Se ejecutará en segundo plano." |},
       (st, w'))
    /\ emails w'
       = emails w ++ [correo h (ruta h fecha) (fecha +:+ "T12:00:00Z") (libro reloj datos)]
    /\ files w' !! ruta h fecha = None
    /\ chat w' = chat w.
Proof.
  intros H3 H1 Hq hoy dia fecha datos Hyear Hne.
  rewrite trigger_report_202 by (cbn; by rewrite bool_decide_eq_false; intros []).
  assert (Index.getReportDateString tz (ValidDate t) = fecha) as ->
    by (by apply getReportDateString_fecha).
  destruct (generateAndEmailReport_quiet h (mock tz) reloj fecha st w datos st eq_refl Hne Hq)
    as (w' & E & Hf & He & Hc & _).
  exists w'. split; [f_equal; exact (f_equal snd E)|]. split; [exact He|].
  split; [rewrite Hf; apply lookup_delete_eq|exact Hc].
Qed.

(** Monday 1 April 2024, 08:00 in Caracas, with a consultation booked for
    Friday 29 March and one for the Monday itself: the message carries the
    workbook of the Friday. *)
Lemma X18_trigger_report_envia_witness :
  exists w',
    trigger_report anfitrion (mock caracas) caracas (Some "s3cr3t") (ValidDate lunes) 0
      (Texto "s3cr3t")
      (almacen [registro "consulta" "2024-03-29" "V-1"; registro "consulta" "2024-04-01" "V-2"],
       mundo [])
    = ({| status := 202;
          body := "Tarea de reporte aceptada. Se ejecutará en segundo plano." |},
       (almacen [registro "consulta" "2024-03-29" "V-1"; registro "consulta" "2024-04-01" "V-2"],
        w'))
    /\ emails w'
       = [correo anfitrion "/app/Reporte_Diario_2024-03-29.xlsx" "2024-03-29T12:00:00Z"
            (libro 0 [registro "consulta" "2024-03-29" "V-1"])].
Proof.
  assert (Z.abs (lunes - 3 * msPerDay) <= maxTime) as H3 by (vm_compute; discriminate).
  assert (Z.abs (lunes - msPerDay) <= maxTime) as H1 by (vm_compute; discriminate).
  assert (quiet (mundo [])) as Hq by constructor.
  destruct (X18_trigger_report_envia anfitrion caracas "s3cr3t" lunes 0
              (almacen [registro "consulta" "2024-03-29" "V-1";
                        registro "consulta" "2024-04-01" "V-2"]) (mundo []) H3 H1 Hq)
    as (w' & E & He & _).
  - vm_compute. split; discriminate.
  - vm_compute. discriminate.
  - exists w'. split; [exact E|]. rewrite He. vm_compute. reflexivity.
Defined.

(** X19. Asked over WhatsApp for the report of a day with records,
    [generateAndSendReports] first sends the workbook as a document, then
    emails it, then deletes the file. If sending the document fails, no
    email is attempted, the workbook stays on disk, and the recipient is
    sent the error's message as a text; if that text cannot be sent either,
    the function throws the error of that last call. *)
Theorem X19_generateAndSendReports_envia (h : Host) (B : Backend) (reloj : Z)
    (recipientJid fechaString : string) (e e' : estado B) (w : World)
    (datos : list Solicitud) :
  getDatosReporteDiario B fechaString e = (Return datos, e') ->
  datos <> [] ->
  let filePath := ruta h fechaString in
  let fechaDisplay := fechaString +:+ "T12:00:00Z" in
  (quiet w ->
   exists w',
     generateAndSendReports h B reloj recipientJid fechaString (e, w) = (Ok tt, (e', w'))
     /\ chat w'
        = chat w ++
          [(recipientJid,
            Document filePath xlsx (path_basename h filePath)
              ("Reporte de solicitudes para el día " +:+
               toLocaleDateString_esVE h fechaDisplay +:+ "."))]
     /\ emails w' = emails w ++ [correo h filePath fechaDisplay (libro reloj datos)]
     /\ files w' !! filePath = None)
  /\ (forall fallo rest,
        faults w = None :: Some fallo :: None :: rest ->
        exists w',
          generateAndSendReports h B reloj recipientJid fechaString (e, w)
          = (Ok tt, (e', w'))
          /\ chat w'
             = chat w ++
               [(recipientJid,
                 Text ("⚠️ *Error Crítico* ⚠️" +:+
                       String "010" "No se pudo generar el reporte." +:+
                       String "010" "Error: " +:+ message fallo))]
          /\ emails w' = emails w
          /\ files w' !! filePath = Some (libro reloj datos))
  /\ (forall fallo fallo' rest,
        faults w = None :: Some fallo :: Some fallo' :: rest ->
        exists w',
          generateAndSendReports h B reloj recipientJid fechaString (e, w)
          = (Fail fallo', (e', w'))
          /\ chat w' = chat w /\ emails w' = emails w
          /\ files w' !! filePath = Some (libro reloj datos)).
Proof.
  intros Hr Hne filePath fechaDisplay. subst filePath fechaDisplay.
  split; [|split].
  - intros Hq.
    unfold generateAndSendReports, ptry, mbind, proc_bind, pbind, on_store, on_world.
    cbv zeta. cbn [fst snd]. rewrite Hr.
    rewrite decide_False by (by destruct datos). cbn [fst snd].
    destruct (createExcelReport_quiet h reloj datos fechaString w Hq)
      as (w1 & -> & Hf1 & He1 & Hc1 & Hq1). cbn [fst snd].
    destruct (sendMessage_quiet recipientJid
                (Document (ruta h fechaString) xlsx (path_basename h (ruta h fechaString))
                   ("Reporte de solicitudes para el día " +:+
                    toLocaleDateString_esVE h (fechaString +:+ "T12:00:00Z") +:+ "."))
                w1 Hq1) as (w2 & -> & Hf2 & He2 & Hc2 & Hq2). cbn [fst snd].
    assert (files w2 !! ruta h fechaString = Some (libro reloj datos)) as Hfile
      by (rewrite Hf2, Hf1; apply lookup_insert_eq).
    destruct (sendEmailWithAttachment_quiet h _ (fechaString +:+ "T12:00:00Z") _ w2 Hq2 Hfile)
      as (w3 & -> & Hf3 & He3 & Hc3 & Hq3). cbn [fst snd].
    rewrite <- Hf3 in Hfile.
    destruct (unlinkSync_quiet _ _ w3 Hq3 Hfile) as (w4 & -> & Hf4 & He4 & Hc4 & Hq4).
    exists w4. split; [reflexivity|].
    rewrite Hf4, He4, Hc4, He3, Hc3, He2, Hc2, He1, Hc1.
    split; [done|]. split; [done|]. apply lookup_delete_eq.
  - intros fallo rest Hf.
    unfold generateAndSendReports, ptry, mbind, proc_bind, pbind, on_store, on_world.
    cbv zeta. cbn [fst snd]. rewrite Hr.
    rewrite decide_False by (by destruct datos). cbn [fst snd].
    unfold createExcelReport. cbv zeta. unfold mbind, proc_bind, pbind, mret, proc_ret, pret.
    rewrite (writeFile_pass _ _ _ _ Hf). cbn [fst snd].
    erewrite sendMessage_fault by reflexivity. cbn [fst snd].
    erewrite sendMessage_pass by reflexivity.
    eexists. split; [reflexivity|]. cbn [chat emails files with_faults].
    split; [done|]. split; [done|]. apply lookup_insert_eq.
  - intros fallo fallo' rest Hf.
    unfold generateAndSendReports, ptry, mbind, proc_bind, pbind, on_store, on_world.
    cbv zeta. cbn [fst snd]. rewrite Hr.
    rewrite decide_False by (by destruct datos). cbn [fst snd].
    unfold createExcelReport. cbv zeta. unfold mbind, proc_bind, pbind, mret, proc_ret, pret.
    rewrite (writeFile_pass _ _ _ _ Hf). cbn [fst snd].
    erewrite sendMessage_fault by reflexivity. cbn [fst snd].
    erewrite sendMessage_fault by reflexivity.
    eexists. split; [reflexivity|]. cbn [chat emails files with_faults].
    split; [done|]. split; [done|]. apply lookup_insert_eq.
Qed.

(** In memory, with one consultation on 7 February 2024 and the socket
    down for one call: the recipient is told of the error, nothing is
    emailed. *)
Lemma X19_generateAndSendReports_envia_witness :
  exists w',
    generateAndSendReports anfitrion (mock caracas) 0 "584141234567@s.whatsapp.net"
      "2024-02-07"
      (almacen [registro "consulta" "2024-02-07" "V-1"],
       mundo [None; Some sin_servicio; None])
    = (Ok tt, (almacen [registro "consulta" "2024-02-07" "V-1"], w'))
    /\ length (chat w') = 1%nat
    /\ emails w' = [].
Proof.
  assert ([registro "consulta" "2024-02-07" "V-1"] <> []) as Hne by discriminate.
  destruct (X19_generateAndSendReports_envia anfitrion (mock caracas) 0
              "584141234567@s.whatsapp.net" "2024-02-07"
              (almacen [registro "consulta" "2024-02-07" "V-1"])
              (almacen [registro "consulta" "2024-02-07" "V-1"])
              (mundo [None; Some sin_servicio; None])
              [registro "consulta" "2024-02-07" "V-1"] eq_refl Hne)
    as (_ & Hfalla & _).
  destruct (Hfalla sin_servicio [] eq_refl) as (w' & E & Hc & He & _).
  exists w'. split; [exact E|]. split; [by rewrite Hc|exact He].
Defined.

(** X20. Asked for the report of a month, with no call failing,
    [generateAndSendMonthlyReport] answers over WhatsApp only: when the
    store returns no record for the month, one text, "No se registraron
    solicitudes", and no file; when it returns records, one document,
    written under the name [Reporte_Diario_MENSUAL_<month>.xlsx] and
    deleted after it is sent. *)
Theorem X20_generateAndSendMonthlyReport_envia (h : Host) (B : Backend) (reloj : Z)
    (recipientJid monthYearString : string) (e e' : estado B) (w : World)
    (datosMensuales : list Solicitud) :
  getDatosReporteMensual B monthYearString e = (Return datosMensuales, e') ->
  quiet w ->
  let filePath :=
    path_join h (dirname h) ("Reporte_Diario_MENSUAL_" +:+ monthYearString +:+ ".xlsx") in
  exists w',
    generateAndSendMonthlyReport h B reloj recipientJid monthYearString (e, w)
    = (Ok tt, (e', w'))
    /\ chat w'
       = chat w ++
         [(recipientJid,
           if decide (datosMensuales = [])
           then Text ("Reporte mensual de " +:+ monthYearString +:+
                      ": No se registraron solicitudes.")
           else Document filePath xlsx (path_basename h filePath)
                  ("Reporte mensual de solicitudes para " +:+ monthYearString +:+ "."))]
    /\ emails w' = emails w
    /\ (datosMensuales = [] -> files w' = files w)
    /\ (datosMensuales <> [] ->
        files w' !! filePath = None
        /\ forall p, p <> filePath -> files w' !! p = files w !! p).
Proof.
  intros Hr Hq filePath.
  assert (filePath = ruta h ("MENSUAL_" +:+ monthYearString)) as Ep.
  { subst filePath. unfold ruta. by rewrite <- string_app_assoc. }
  unfold generateAndSendMonthlyReport, ptry, mbind, proc_bind, pbind, on_store, on_world.
  cbv zeta. cbn [fst snd]. rewrite Hr.
  destruct (decide (datosMensuales = [])) as [->|Hne].
  - rewrite decide_True by done. cbn [fst snd].
    destruct (sendMessage_quiet recipientJid
                (Text ("Reporte mensual de " +:+ monthYearString +:+
                       ": No se registraron solicitudes.")) w Hq)
      as (w' & -> & Hf & He & Hc & _).
    exists w'. split; [reflexivity|]. split; [exact Hc|]. split; [exact He|].
    split; [done|]. by intros [].
  - rewrite decide_False by (by destruct datosMensuales). cbn [fst snd].
    destruct (createExcelReport_quiet h reloj datosMensuales
                ("MENSUAL_" +:+ monthYearString) w Hq)
      as (w1 & -> & Hf1 & He1 & Hc1 & Hq1). cbn [fst snd]. rewrite <- Ep in *.
    destruct (sendMessage_quiet recipientJid
                (Document filePath xlsx (path_basename h filePath)
                   ("Reporte mensual de solicitudes para " +:+ monthYearString +:+ "."))
                w1 Hq1) as (w2 & -> & Hf2 & He2 & Hc2 & Hq2). cbn [fst snd].
    assert (files w2 !! filePath = Some (libro reloj datosMensuales)) as Hfile
      by (rewrite Hf2, Hf1; apply lookup_insert_eq).
    destruct (unlinkSync_quiet _ _ w2 Hq2 Hfile) as (w3 & -> & Hf3 & He3 & Hc3 & Hq3).
    exists w3. split; [reflexivity|].
    rewrite Hf3, He3, Hc3, Hf2, He2, Hc2, Hf1, He1, Hc1.
    split; [done|]. split; [done|]. split; [done|]. intros _.
    split; [apply lookup_delete_eq|].
    intros p Hp. rewrite lookup_delete_ne by done. by apply lookup_insert_ne.
Qed.

(** February 2024 in memory, with one consultation: the recipient gets the
    document [Reporte_Diario_MENSUAL_2024-02.xlsx], and no file is left. *)
Lemma X20_generateAndSendMonthlyReport_envia_witness :
  exists w',
    generateAndSendMonthlyReport anfitrion (mock caracas) 0 "584141234567@s.whatsapp.net"
      "2024-02" (almacen [registro "consulta" "2024-02-07" "V-1"], mundo [])
    = (Ok tt, (almacen [registro "consulta" "2024-02-07" "V-1"], w'))
    /\ chat w'
       = [("584141234567@s.whatsapp.net",
           Document "/app/Reporte_Diario_MENSUAL_2024-02.xlsx" xlsx
             "Reporte_Diario_MENSUAL_2024-02.xlsx"
             "Reporte mensual de solicitudes para 2024-02.")]
    /\ files w' !! "/app/Reporte_Diario_MENSUAL_2024-02.xlsx" = None.
Proof.
  assert (quiet (mundo [])) as Hq by constructor.
  assert (getDatosReporteMensual (mock caracas) "2024-02"
            (almacen [registro "consulta" "2024-02-07" "V-1"])
          = (Return [registro "consulta" "2024-02-07" "V-1"],
             almacen [registro "consulta" "2024-02-07" "V-1"])) as Hr
    by (vm_compute; reflexivity).
  destruct (X20_generateAndSendMonthlyReport_envia anfitrion (mock caracas) 0
              "584141234567@s.whatsapp.net" "2024-02"
              (almacen [registro "consulta" "2024-02-07" "V-1"])
              (almacen [registro "consulta" "2024-02-07" "V-1"]) (mundo [])
              [registro "consulta" "2024-02-07" "V-1"] Hr Hq)
    as (w' & E & Hc & _ & _ & Hfile).
  exists w'. split; [exact E|]. split.
  - rewrite Hc. vm_compute. reflexivity.
  - assert ([registro "consulta" "2024-02-07" "V-1"] <> []) as Hne by discriminate.
    destruct (Hfile Hne) as [Hnone _]. exact Hnone.
Defined.
